(** * ConfirmationPage: reconciliation, duplicate detection and save orchestration

    A shallow embedding of the logic of [src/pages/ConfirmationPage.tsx]:
    the helpers [findDuplicates], [checkForDuplicates] and
    [formatTimeInput], the master-data reconciliation effect, the handlers
    that add worker records, and the save path ([handleSave],
    [performSave], the overwrite dialog).

    React semantics used throughout: a handler is a closure over the values
    of the render it was created in, so it reads one snapshot of
    [editedData]; what it does is a sequence of effects (state setter calls
    and calls to the outside world), performed in program order.  A handler
    is therefore a function from the snapshot to a list of [Effect]s, and
    [run] replays the setter calls on the component state. *)

From Stdlib Require Import String Ascii.
From Stdlib Require Import NArith ZArith QArith Bool Arith Lia List.
Import ListNotations.
Open Scope nat_scope.
Open Scope list_scope.

Set Implicit Arguments.

(** ** JavaScript strings

    A JavaScript string is a sequence of UTF-16 code units; [===], [Map]
    keys and [Array.prototype.includes] compare strings code unit by code
    unit. *)
Module JS.

Definition code_unit := N.
Definition jsstring := list code_unit.

Definition lit (s : string) : jsstring :=
  map N_of_ascii (list_ascii_of_string s).

Definition str_eq_dec : forall a b : jsstring, {a = b} + {a <> b} :=
  list_eq_dec N.eq_dec.

Definition str_eqb (a b : jsstring) : bool :=
  if str_eq_dec a b then true else false.

(** Truthiness of a string: every string but the empty one. *)
Definition truthy (s : jsstring) : bool :=
  match s with [] => false | _ :: _ => true end.

(** [Array.prototype.includes] on an array of strings. *)
Definition includes (l : list jsstring) (s : jsstring) : bool :=
  existsb (str_eqb s) l.

(** ECMAScript WhiteSpace and LineTerminator code points, the ones
    [String.prototype.trim] removes. *)
Definition isWhiteSpace (c : code_unit) : bool :=
  existsb (N.eqb c)
    [9; 10; 11; 12; 13; 32; 160; 5760; 8232; 8233; 8239; 8287; 12288; 65279]%N
  || ((8192 <=? c) && (c <=? 8202))%N.

Fixpoint dropWhile {A} (p : A -> bool) (l : list A) : list A :=
  match l with
  | [] => []
  | a :: l' => if p a then dropWhile p l' else l
  end.

Definition trimStart (s : jsstring) : jsstring := dropWhile isWhiteSpace s.
Definition trimEnd (s : jsstring) : jsstring := rev (dropWhile isWhiteSpace (rev s)).
Definition trim (s : jsstring) : jsstring := trimEnd (trimStart s).

(** [s.slice(start, end)] and [s.slice(start)] for non-negative arguments:
    both indices are clamped to the length. *)
Definition slice (s : jsstring) (start stop : nat) : jsstring :=
  firstn (stop - start) (skipn start s).
Definition sliceFrom (s : jsstring) (start : nat) : jsstring := skipn start s.

(** [s[i]] used as a string operand of [+]: the one-unit string, or the
    text of [undefined] past the end. *)
Definition undefined_text : jsstring := Eval cbv in lit "undefined".

Definition index (s : jsstring) (i : nat) : jsstring :=
  match nth_error s i with
  | Some c => [c]
  | None => undefined_text
  end.

(** [\d] without the unicode flag: the ten ASCII digits. *)
Definition isDigit (c : code_unit) : bool := ((48 <=? c) && (c <=? 57))%N.

(** [s.includes(sub)]: [sub] occurs in [s] as a contiguous run. *)
Fixpoint startsWith (sub s : jsstring) : bool :=
  match sub, s with
  | [], _ => true
  | _ :: _, [] => false
  | a :: sub', b :: s' => N.eqb a b && startsWith sub' s'
  end.

Fixpoint hasSubstring (s sub : jsstring) : bool :=
  startsWith sub s ||
  match s with
  | [] => false
  | _ :: s' => hasSubstring s' sub
  end.

End JS.

Import JS.

(** ** [formatTimeInput] (lines 110-124) *)

Definition numbersOnly (input : jsstring) : jsstring :=
  filter isDigit input.

(** The code units 58 and 48 are [':'] and ['0']. *)
Definition formatTimeInput (input : jsstring) : jsstring :=
  let numbersOnly := numbersOnly input in
  if length numbersOnly =? 0 then []
  else if length numbersOnly <=? 2 then
    numbersOnly ++ [58; 48; 48]%N
  else if length numbersOnly =? 3 then
    index numbersOnly 0 ++ [58%N] ++ sliceFrom numbersOnly 1
  else if length numbersOnly =? 4 then
    slice numbersOnly 0 2 ++ [58%N] ++ sliceFrom numbersOnly 2
  else
    slice numbersOnly 0 2 ++ [58%N] ++ slice numbersOnly 2 4.

(** ** [findDuplicates] (lines 79-92)

    [nameCount] is a [Map<string, number>]: keys are kept in insertion
    order, [set] on a present key overwrites the value in place, and
    [Array.from(entries())] lists the entries in that order. *)
Module NameCount.

Definition t := list (jsstring * nat).

Fixpoint get (m : t) (k : jsstring) : option nat :=
  match m with
  | [] => None
  | (k', v) :: m' => if str_eqb k k' then Some v else get m' k
  end.

Fixpoint set (m : t) (k : jsstring) (v : nat) : t :=
  match m with
  | [] => [(k, v)]
  | (k', v') :: m' =>
      if str_eqb k k' then (k', v) :: m' else (k', v') :: set m' k v
  end.

End NameCount.

(** [nameCount.get(name) || 0] *)
Definition orZero (o : option nat) : nat :=
  match o with
  | Some (S n) => S n
  | _ => 0
  end.

(** The guard [name && name.trim()]. *)
Definition counted (name : jsstring) : bool :=
  truthy name && truthy (trim name).

Definition countName (nameCount : NameCount.t) (name : jsstring) : NameCount.t :=
  if counted name then
    let count := orZero (NameCount.get nameCount name) in
    NameCount.set nameCount name (count + 1)
  else nameCount.

Definition findDuplicates (names : list jsstring) : list jsstring :=
  let nameCount := fold_left countName names [] in
  map (fun e => fst e) (filter (fun e => 1 <? snd e) nameCount).

(** ** Data model

    Modelled from the spec: the declarations of [@/types]
    ([ConfirmationStatus], [PackagingRecord], [MachineOperationRecord],
    [OcrResult]) and of the master-data hook are not among the sources.
    The records below carry the fields the page reads and writes; a field
    the page may find missing ([undefined]) is an [option].  Packaging and
    machine records are used through the same fields and share one record
    type.  The error markers [nameError] and [productError] are only ever
    tested for truthiness and printed; they are taken to be strings. *)

Inductive ConfirmationStatus := pending | editing | approved.

Module TimeSlot.
Record t := { 開始時刻 : jsstring; 終了時刻 : jsstring }.
End TimeSlot.

Record Breaks := { 昼休み : bool; 中休み : bool }.

Record WorkerRecord := {
  氏名 : jsstring;
  開始時刻 : jsstring;
  終了時刻 : jsstring;
  時刻リスト : option (list TimeSlot.t);
  休憩 : Breaks;
  生産数 : jsstring;
  nameConfirmationStatus : option ConfirmationStatus;
  nameError : option jsstring;
  originalName : option jsstring;
  confidence : option Q
}.

Definition PackagingRecord := WorkerRecord.
Definition MachineOperationRecord := WorkerRecord.

Record Header := {
  作業日 : option jsstring;
  商品名 : jsstring;
  productConfirmationStatus : option ConfirmationStatus;
  productError : option jsstring;
  originalProductName : option jsstring;
  productConfidence : option Q
}.

Record OcrResult := {
  ヘッダー : Header;
  包装作業記録 : list PackagingRecord;
  機械操作記録 : list MachineOperationRecord
}.

Record MasterData := {
  products : list jsstring;
  employees : list jsstring
}.

(** [x === 'pending'] and the like, on a possibly missing status. *)
Definition status_eqb (a b : ConfirmationStatus) : bool :=
  match a, b with
  | pending, pending | editing, editing | approved, approved => true
  | _, _ => false
  end.

Definition statusIs (s : ConfirmationStatus) (field : option ConfirmationStatus) : bool :=
  match field with
  | Some s' => status_eqb s' s
  | None => false
  end.

(** Truthiness of an error marker: present and not the empty string. *)
Definition flagged (marker : option jsstring) : bool :=
  match marker with
  | Some text => truthy text
  | None => false
  end.

(** ** [checkForDuplicates] (lines 95-107) *)
Module DuplicateCheck.
Record t := {
  packaging : list jsstring;
  machine : list jsstring;
  hasDuplicates : bool
}.
End DuplicateCheck.

Definition checkForDuplicates (data : OcrResult) : DuplicateCheck.t :=
  let packagingNames := map 氏名 (包装作業記録 data) in
  let machineNames := map 氏名 (機械操作記録 data) in
  let duplicatePackaging := findDuplicates packagingNames in
  let duplicateMachine := findDuplicates machineNames in
  {| DuplicateCheck.packaging := duplicatePackaging;
     DuplicateCheck.machine := duplicateMachine;
     DuplicateCheck.hasDuplicates :=
       (0 <? length duplicatePackaging) || (0 <? length duplicateMachine) |}.

(** ** Component state and effects *)

Module DuplicateInfo.
Record t := { packaging : list jsstring; machine : list jsstring }.
End DuplicateInfo.

(** The text of the missing-sheet dialog, kept as the values the template
    literal of line 735 interpolates. *)
Record MissingSheetMessage := {
  periodYear : Z;
  periodMonth : Z;
  workers : list jsstring
}.

(** The texts passed to [alert]: the fixed literals of lines 664, 676,
    747, 752 and 754, or the message of the caught error. *)
Inductive AlertText :=
| UnconfirmedItems
| EditingItems
| SaveFailed
| AuthenticationFailed
| NetworkError
| ErrorMessage (message : jsstring).

(** A caught value: an [Error] with its message, or anything else. *)
Inductive Thrown :=
| ErrorObject (message : jsstring)
| NotAnError.

(** The two [console.error] sites: line 790 and line 745. *)
Inductive ErrorSite := ExistingDataCheck | Saving.

(** The closure stored by [setOverwriteCallback(() => performSave)]: it is
    [performSave] of the render in which [handleSave] ran, so it carries
    that render's [editedData]. *)
Inductive Callback := PerformSave (editedData : OcrResult).

(** What a handler can do: call a state setter of the component, or
    reach outside it ([alert], [console.error], the two requests of
    [GoogleSheetsService], the store's [setSuccess] and [setCurrentStep],
    [navigate]). *)
Inductive Effect :=
| SetEditedData (data : OcrResult)
| SetHasChanges (b : bool)
| SetIsSaving (b : bool)
| SetConfirmDialogOpen (b : bool)
| SetOverwriteCallback (callback : option Callback)
| SetFailedWorkers (names : list jsstring)
| SetMissingSheetDialogOpen (b : bool)
| SetMissingSheetMessage (message : MissingSheetMessage)
| SetDuplicateDialogOpen (b : bool)
| SetDuplicateInfo (info : option DuplicateInfo.t)
| Alert (text : AlertText)
| ConsoleError (site : ErrorSite) (error : Thrown)
| CallCheckExistingData (data : OcrResult)
| CallSaveToPersonalSheets (data : OcrResult)
| SetSuccess
| SetCurrentStep (step : nat)
| Navigate (path : string).

(** The state variables written by those setters (lines 47-72).  The
    page has more of them (the confirmation pop-up and its target, the
    highlight set, the drop-downs to open, the master-data error dialog);
    no handler modelled here writes them. *)
Record AppState := {
  editedData : option OcrResult;
  hasChanges : bool;
  isSaving : bool;
  confirmDialogOpen : bool;
  overwriteCallback : option Callback;
  failedWorkers : list jsstring;
  missingSheetDialogOpen : bool;
  missingSheetMessage : option MissingSheetMessage;
  duplicateDialogOpen : bool;
  duplicateInfo : option DuplicateInfo.t
}.

(** One effect replayed on the component state: a setter call replaces its
    own state variable, anything else leaves the component state alone. *)
Definition perform (st : AppState) (e : Effect) : AppState :=
  match e with
  | SetEditedData d =>
      {| editedData := Some d; hasChanges := hasChanges st;
         isSaving := isSaving st; confirmDialogOpen := confirmDialogOpen st;
         overwriteCallback := overwriteCallback st;
         failedWorkers := failedWorkers st;
         missingSheetDialogOpen := missingSheetDialogOpen st;
         missingSheetMessage := missingSheetMessage st;
         duplicateDialogOpen := duplicateDialogOpen st;
         duplicateInfo := duplicateInfo st |}
  | SetHasChanges b =>
      {| editedData := editedData st; hasChanges := b;
         isSaving := isSaving st; confirmDialogOpen := confirmDialogOpen st;
         overwriteCallback := overwriteCallback st;
         failedWorkers := failedWorkers st;
         missingSheetDialogOpen := missingSheetDialogOpen st;
         missingSheetMessage := missingSheetMessage st;
         duplicateDialogOpen := duplicateDialogOpen st;
         duplicateInfo := duplicateInfo st |}
  | SetIsSaving b =>
      {| editedData := editedData st; hasChanges := hasChanges st;
         isSaving := b; confirmDialogOpen := confirmDialogOpen st;
         overwriteCallback := overwriteCallback st;
         failedWorkers := failedWorkers st;
         missingSheetDialogOpen := missingSheetDialogOpen st;
         missingSheetMessage := missingSheetMessage st;
         duplicateDialogOpen := duplicateDialogOpen st;
         duplicateInfo := duplicateInfo st |}
  | SetConfirmDialogOpen b =>
      {| editedData := editedData st; hasChanges := hasChanges st;
         isSaving := isSaving st; confirmDialogOpen := b;
         overwriteCallback := overwriteCallback st;
         failedWorkers := failedWorkers st;
         missingSheetDialogOpen := missingSheetDialogOpen st;
         missingSheetMessage := missingSheetMessage st;
         duplicateDialogOpen := duplicateDialogOpen st;
         duplicateInfo := duplicateInfo st |}
  | SetOverwriteCallback cb =>
      {| editedData := editedData st; hasChanges := hasChanges st;
         isSaving := isSaving st; confirmDialogOpen := confirmDialogOpen st;
         overwriteCallback := cb;
         failedWorkers := failedWorkers st;
         missingSheetDialogOpen := missingSheetDialogOpen st;
         missingSheetMessage := missingSheetMessage st;
         duplicateDialogOpen := duplicateDialogOpen st;
         duplicateInfo := duplicateInfo st |}
  | SetFailedWorkers names =>
      {| editedData := editedData st; hasChanges := hasChanges st;
         isSaving := isSaving st; confirmDialogOpen := confirmDialogOpen st;
         overwriteCallback := overwriteCallback st;
         failedWorkers := names;
         missingSheetDialogOpen := missingSheetDialogOpen st;
         missingSheetMessage := missingSheetMessage st;
         duplicateDialogOpen := duplicateDialogOpen st;
         duplicateInfo := duplicateInfo st |}
  | SetMissingSheetDialogOpen b =>
      {| editedData := editedData st; hasChanges := hasChanges st;
         isSaving := isSaving st; confirmDialogOpen := confirmDialogOpen st;
         overwriteCallback := overwriteCallback st;
         failedWorkers := failedWorkers st;
         missingSheetDialogOpen := b;
         missingSheetMessage := missingSheetMessage st;
         duplicateDialogOpen := duplicateDialogOpen st;
         duplicateInfo := duplicateInfo st |}
  | SetMissingSheetMessage m =>
      {| editedData := editedData st; hasChanges := hasChanges st;
         isSaving := isSaving st; confirmDialogOpen := confirmDialogOpen st;
         overwriteCallback := overwriteCallback st;
         failedWorkers := failedWorkers st;
         missingSheetDialogOpen := missingSheetDialogOpen st;
         missingSheetMessage := Some m;
         duplicateDialogOpen := duplicateDialogOpen st;
         duplicateInfo := duplicateInfo st |}
  | SetDuplicateDialogOpen b =>
      {| editedData := editedData st; hasChanges := hasChanges st;
         isSaving := isSaving st; confirmDialogOpen := confirmDialogOpen st;
         overwriteCallback := overwriteCallback st;
         failedWorkers := failedWorkers st;
         missingSheetDialogOpen := missingSheetDialogOpen st;
         missingSheetMessage := missingSheetMessage st;
         duplicateDialogOpen := b;
         duplicateInfo := duplicateInfo st |}
  | SetDuplicateInfo i =>
      {| editedData := editedData st; hasChanges := hasChanges st;
         isSaving := isSaving st; confirmDialogOpen := confirmDialogOpen st;
         overwriteCallback := overwriteCallback st;
         failedWorkers := failedWorkers st;
         missingSheetDialogOpen := missingSheetDialogOpen st;
         missingSheetMessage := missingSheetMessage st;
         duplicateDialogOpen := duplicateDialogOpen st;
         duplicateInfo := i |}
  | Alert _ | ConsoleError _ _ | CallCheckExistingData _
  | CallSaveToPersonalSheets _ | SetSuccess | SetCurrentStep _
  | Navigate _ => st
  end.

Definition run (st : AppState) (effects : list Effect) : AppState :=
  fold_left perform effects st.

(** ** The outside world

    What the page gets back from [new Date], from
    [GoogleSheetsService.checkExistingData] and from
    [GoogleSheetsService.saveToPersonalSheets].  A [Date] is kept as the
    values of its three getters, in local time; [getMonth] counts from 0.
    An invalid date, whose getters return [NaN], is outside the model. *)

Record JSDate := {
  getFullYear : Z;
  getMonth : Z;
  getDate : Z
}.

Module SaveResult.
Record t := { failedWorkers : option (list jsstring) }.
End SaveResult.

Inductive ProbeOutcome :=
| ProbeResolved (existingDataMap : list (jsstring * bool))
| ProbeRejected (error : Thrown).

Inductive CommitOutcome :=
| CommitResolved (result : option SaveResult.t)
| CommitRejected (error : Thrown).

Record World := {
  newDate : option jsstring -> JSDate;
  checkExistingData : OcrResult -> ProbeOutcome;
  saveToPersonalSheets : OcrResult -> CommitOutcome
}.

(** ** Accounting period (lines 717-733) *)
Definition accountingPeriod (workDate : JSDate) : Z * Z :=
  let year := getFullYear workDate in
  let month := (getMonth workDate + 1)%Z in
  let day := getDate workDate in
  if (day <=? 20)%Z then
    if (month =? 1)%Z then ((year - 1)%Z, 12%Z)
    else (year, (month - 1)%Z)
  else (year, month).

(** ** Master-data reconciliation (the effect of lines 192-239)

    The effect writes through [updatedData], a shallow copy of
    [editedData]: the header it edits is the header of the current state,
    and a header edit always raises [hasChanges], so the state after the
    effect is the one [setEditedData(updatedData)] leaves.  The
    [console.log] lines are not modelled. *)

Definition productMatches (masterData : MasterData) (header : Header) : bool :=
  truthy (商品名 header) && includes (products masterData) (商品名 header)
  && flagged (productError header).

Definition reconcileHeader (masterData : MasterData) (header : Header) : Header :=
  if productMatches masterData header then
    {| 作業日 := 作業日 header;
       商品名 := 商品名 header;
       productConfirmationStatus := Some approved;
       productError := None;
       originalProductName := originalProductName header;
       productConfidence := productConfidence header |}
  else header.

Definition nameMatches (masterData : MasterData) (record : WorkerRecord) : bool :=
  truthy (氏名 record) && includes (employees masterData) (氏名 record)
  && flagged (nameError record).

Definition reconcileRecord (masterData : MasterData) (record : WorkerRecord) : WorkerRecord :=
  if nameMatches masterData record then
    {| 氏名 := 氏名 record;
       開始時刻 := 開始時刻 record;
       終了時刻 := 終了時刻 record;
       時刻リスト := 時刻リスト record;
       休憩 := 休憩 record;
       生産数 := 生産数 record;
       nameConfirmationStatus := Some approved;
       nameError := None;
       originalName := originalName record;
       confidence := confidence record |}
  else record.

Definition reconcileMasterData
    (editedData : option OcrResult) (masterData : option MasterData)
    (masterDataLoading : bool) : list Effect :=
  match editedData, masterData with
  | Some editedData, Some masterData =>
      if masterDataLoading then []
      else
        let hasChanges :=
          productMatches masterData (ヘッダー editedData)
          || existsb (nameMatches masterData) (包装作業記録 editedData)
          || existsb (nameMatches masterData) (機械操作記録 editedData) in
        let updatedData :=
          {| ヘッダー := reconcileHeader masterData (ヘッダー editedData);
             包装作業記録 := map (reconcileRecord masterData) (包装作業記録 editedData);
             機械操作記録 := map (reconcileRecord masterData) (機械操作記録 editedData) |} in
        if hasChanges then [SetEditedData updatedData] else []
  | _, _ => []
  end.

(** ** Adding worker records (lines 443-476 and 567-630) *)

Definition time_8_00 : jsstring := Eval cbv in lit "8:00".
Definition time_17_00 : jsstring := Eval cbv in lit "17:00".
Definition text_0 : jsstring := Eval cbv in lit "0".

Definition defaultSlots : list TimeSlot.t :=
  [ {| TimeSlot.開始時刻 := time_8_00; TimeSlot.終了時刻 := time_17_00 |} ].

Definition newPackagingRecord : PackagingRecord :=
  {| 氏名 := [];
     開始時刻 := time_8_00;
     終了時刻 := time_17_00;
     時刻リスト := Some defaultSlots;
     休憩 := {| 昼休み := true; 中休み := false |};
     生産数 := text_0;
     nameConfirmationStatus := None;
     nameError := None;
     originalName := None;
     confidence := None |}.

(** [array.splice(position, 0, item)] on a copy: a negative position
    counts from the end, and the insertion point is clamped to the array. *)
Definition spliceInsert {A} (records : list A) (position : Z) (item : A) : list A :=
  let len := Z.of_nat (length records) in
  let start :=
    if (position <? 0)%Z then Z.max (len + position) 0 else Z.min position len in
  firstn (Z.to_nat start) records ++ item :: skipn (Z.to_nat start) records.

Definition addPackagingRecord (editedData : OcrResult) : list Effect :=
  [ SetEditedData
      {| ヘッダー := ヘッダー editedData;
         包装作業記録 := newPackagingRecord :: 包装作業記録 editedData;
         機械操作記録 := 機械操作記録 editedData |};
    SetHasChanges true ].

Definition addPackagingRecordAtPosition (editedData : OcrResult) (position : Z)
    : list Effect :=
  let newRecords := spliceInsert (包装作業記録 editedData) position newPackagingRecord in
  [ SetEditedData
      {| ヘッダー := ヘッダー editedData;
         包装作業記録 := newRecords;
         機械操作記録 := 機械操作記録 editedData |};
    SetHasChanges true ].

Definition newMachineRecord (editedData : OcrResult) : MachineOperationRecord :=
  match 機械操作記録 editedData with
  | firstRecord :: _ =>
      {| 氏名 := [];
         開始時刻 := 開始時刻 firstRecord;
         終了時刻 := 終了時刻 firstRecord;
         時刻リスト := 時刻リスト firstRecord;
         休憩 := 休憩 firstRecord;
         生産数 := 生産数 firstRecord;
         nameConfirmationStatus := Some pending;
         nameError := nameError firstRecord;
         originalName := originalName firstRecord;
         confidence := confidence firstRecord |}
  | [] =>
      {| 氏名 := [];
         開始時刻 := time_8_00;
         終了時刻 := time_17_00;
         時刻リスト := Some defaultSlots;
         休憩 := {| 昼休み := false; 中休み := false |};
         生産数 := text_0;
         nameConfirmationStatus := Some pending;
         nameError := None;
         originalName := None;
         confidence := None |}
  end.

Definition addMachineRecord (editedData : OcrResult) : list Effect :=
  [ SetEditedData
      {| ヘッダー := ヘッダー editedData;
         包装作業記録 := 包装作業記録 editedData;
         機械操作記録 := newMachineRecord editedData :: 機械操作記録 editedData |};
    SetHasChanges true ].

Definition addMachineRecordAtPosition (editedData : OcrResult) (position : Z)
    : list Effect :=
  let newRecords :=
    spliceInsert (機械操作記録 editedData) position (newMachineRecord editedData) in
  [ SetEditedData
      {| ヘッダー := ヘッダー editedData;
         包装作業記録 := 包装作業記録 editedData;
         機械操作記録 := newRecords |};
    SetHasChanges true ].

(** ** Saving (lines 653-800 and the overwrite dialog, lines 1927-1933)

    The handlers exist only in renders that got past the guard of line
    241, so the [editedData] they close over is a report and the test of
    line 654 never fires.  [performSave] catches whatever its request
    throws, so the [catch] of line 789 only ever sees a failure of the
    probe.  The [console.log] of line 781 is not modelled. *)

(** The three substrings the caught message is searched for:
    the missing-sheet text, the word for authentication, the word for
    network (lines 749, 751, 753). *)
Definition text_missingSheet : jsstring :=
  [20491; 20154; 12471; 12540; 12488; 12364; 12354; 12426; 12414; 12379; 12435]%N.
Definition text_authentication : jsstring := [35469; 35388]%N.
Definition text_network : jsstring := [12493; 12483; 12488; 12527; 12540; 12463]%N.

Definition errorMessage (error : Thrown) : AlertText :=
  match error with
  | ErrorObject message =>
      if hasSubstring message text_missingSheet then ErrorMessage message
      else if hasSubstring message text_authentication then AuthenticationFailed
      else if hasSubstring message text_network then NetworkError
      else ErrorMessage message
  | NotAnError => SaveFailed
  end.

(** [result && result.failedWorkers && result.failedWorkers.length > 0] *)
Definition reportedFailures (result : option SaveResult.t) : option (list jsstring) :=
  match result with
  | Some {| SaveResult.failedWorkers := Some (name :: names) |} => Some (name :: names)
  | _ => None
  end.

(** [performSave] up to its [await]: the flag is raised and the request
    is sent. *)
Definition performSaveCall (editedData : OcrResult) : list Effect :=
  [SetIsSaving true; CallSaveToPersonalSheets editedData].

(** [performSave] from the point where the request has settled. *)
Definition performSaveSettled (w : World) (editedData : OcrResult) : list Effect :=
  match saveToPersonalSheets w editedData with
  | CommitResolved result =>
      match reportedFailures result with
      | Some failed =>
          let failedPackaging :=
            filter (fun record => includes failed (氏名 record))
                   (包装作業記録 editedData) in
          let failedMachine :=
            filter (fun record => includes failed (氏名 record))
                   (機械操作記録 editedData) in
          let workDate := newDate w (作業日 (ヘッダー editedData)) in
          let period := accountingPeriod workDate in
          [ SetFailedWorkers failed;
            SetEditedData
              {| ヘッダー := ヘッダー editedData;
                 包装作業記録 := failedPackaging;
                 機械操作記録 := failedMachine |};
            SetMissingSheetMessage
              {| periodYear := fst period; periodMonth := snd period;
                 workers := failed |};
            SetMissingSheetDialogOpen true ]
      | None =>
          [ SetSuccess; SetCurrentStep 4; Navigate "/success" ]
      end
  | CommitRejected error =>
      [ ConsoleError Saving error; Alert (errorMessage error) ]
  end
  ++ [SetIsSaving false].

Definition performSave (w : World) (editedData : OcrResult) : list Effect :=
  performSaveCall editedData ++ performSaveSettled w editedData.

Definition hasPendingProduct (editedData : OcrResult) : bool :=
  statusIs pending (productConfirmationStatus (ヘッダー editedData)).

Definition hasPendingNames (editedData : OcrResult) : bool :=
  existsb (fun isPending : bool => isPending)
    (map (fun r => statusIs pending (nameConfirmationStatus r)) (包装作業記録 editedData)
     ++ map (fun r => statusIs pending (nameConfirmationStatus r)) (機械操作記録 editedData)).

Definition hasEditingItems (editedData : OcrResult) : bool :=
  existsb (fun isEditing : bool => isEditing)
    (statusIs editing (productConfirmationStatus (ヘッダー editedData))
     :: map (fun r => statusIs editing (nameConfirmationStatus r)) (包装作業記録 editedData)
     ++ map (fun r => statusIs editing (nameConfirmationStatus r)) (機械操作記録 editedData)).

Definition handleSave (w : World) (editedData : OcrResult) : list Effect :=
  if hasPendingProduct editedData || hasPendingNames editedData then
    [Alert UnconfirmedItems]
  else if hasEditingItems editedData then
    [Alert EditingItems]
  else
    let duplicateCheck := checkForDuplicates editedData in
    if DuplicateCheck.hasDuplicates duplicateCheck then
      [ SetDuplicateInfo
          (Some {| DuplicateInfo.packaging := DuplicateCheck.packaging duplicateCheck;
                   DuplicateInfo.machine := DuplicateCheck.machine duplicateCheck |});
        SetDuplicateDialogOpen true ]
    else
      [SetIsSaving true; CallCheckExistingData editedData] ++
      match checkExistingData w editedData with
      | ProbeResolved existingDataMap =>
          let hasAnyExistingData :=
            existsb (fun hasData : bool => hasData) (map snd existingDataMap) in
          if hasAnyExistingData then
            [ SetOverwriteCallback (Some (PerformSave editedData));
              SetConfirmDialogOpen true;
              SetIsSaving false ]
          else performSave w editedData
      | ProbeRejected error =>
          ConsoleError ExistingDataCheck error :: performSave w editedData
      end.

(** The confirm button of the overwrite dialog: [overwriteCallback()] is
    started without [await], so the dialog is closed while the request of
    [performSave] is pending. *)
Definition handleConfirmOverwrite (w : World) (overwriteCallback : option Callback)
    : list Effect :=
  match overwriteCallback with
  | Some (PerformSave editedData) =>
      performSaveCall editedData ++ [SetConfirmDialogOpen false]
      ++ performSaveSettled w editedData
  | None => [SetConfirmDialogOpen false]
  end.

Definition handleCancelOverwrite : list Effect :=
  [SetConfirmDialogOpen false; SetOverwriteCallback None].

(** ** Initialisation of the edited report (lines 127-182)

    The OCR result of the application store; the page guards both lists
    with [|| []], so they may be missing there.  The [log.dev] and
    [console.log] lines are not modelled.  The two time fields are strings,
    as in [WorkerRecord]; [null], which the filter of line 154 treats like
    the empty string, is not a value of the model. *)
Module Stored.
Record t := {
  ヘッダー : Header;
  包装作業記録 : option (list PackagingRecord);
  機械操作記録 : option (list MachineOperationRecord)
}.
End Stored.

Definition initializeTimeSlots (record : WorkerRecord) : WorkerRecord :=
  {| 氏名 := 氏名 record;
     開始時刻 := 開始時刻 record;
     終了時刻 := 終了時刻 record;
     時刻リスト :=
       Some match 時刻リスト record with
            | Some slots => slots
            | None => [ {| TimeSlot.開始時刻 := 開始時刻 record;
                           TimeSlot.終了時刻 := 終了時刻 record |} ]
            end;
     休憩 := 休憩 record;
     生産数 := 生産数 record;
     nameConfirmationStatus :=
       Some (if flagged (nameError record) then pending else approved);
     nameError := nameError record;
     originalName := originalName record;
     confidence := confidence record |}.

Definition filterEmptyRecords (records : list WorkerRecord) : list WorkerRecord :=
  filter (fun record => truthy (開始時刻 record) || truthy (終了時刻 record)) records.

(** [records || []] *)
Definition orEmpty {A} (records : option (list A)) : list A :=
  match records with
  | Some l => l
  | None => []
  end.

Definition initializedData (ocrResult : Stored.t) : OcrResult :=
  let h := Stored.ヘッダー ocrResult in
  {| ヘッダー :=
       {| 作業日 := 作業日 h;
          商品名 := 商品名 h;
          productConfirmationStatus :=
            Some (if flagged (productError h) then pending else approved);
          productError := productError h;
          originalProductName := originalProductName h;
          productConfidence := productConfidence h |};
     包装作業記録 :=
       filterEmptyRecords
         (map initializeTimeSlots (orEmpty (Stored.包装作業記録 ocrResult)));
     機械操作記録 :=
       filterEmptyRecords
         (map initializeTimeSlots (orEmpty (Stored.機械操作記録 ocrResult))) |}.

Definition initializeEditedData (ocrResult : option Stored.t) : list Effect :=
  match ocrResult with
  | None => [Navigate "/camera"]
  | Some ocrResult => [SetCurrentStep 3; SetEditedData (initializedData ocrResult)]
  end.

(** ** Editing the report (lines 245-650 and the inline handlers)

    The packaging handlers and the machine handlers are the same text on
    the two lists; each pair is one definition over the list it works on,
    instantiated under both source names. *)
Inductive RecordType := packaging | machine.

Definition recordsOf (recordType : RecordType) (data : OcrResult) : list WorkerRecord :=
  match recordType with
  | packaging => 包装作業記録 data
  | machine => 機械操作記録 data
  end.

(** [{...editedData, 包装作業記録: newRecords}] and its machine twin. *)
Definition withRecords (recordType : RecordType) (data : OcrResult)
    (newRecords : list WorkerRecord) : OcrResult :=
  match recordType with
  | packaging =>
      {| ヘッダー := ヘッダー data;
         包装作業記録 := newRecords;
         機械操作記録 := 機械操作記録 data |}
  | machine =>
      {| ヘッダー := ヘッダー data;
         包装作業記録 := 包装作業記録 data;
         機械操作記録 := newRecords |}
  end.

(** [{...editedData, ヘッダー: updatedHeader}] *)
Definition withHeader (data : OcrResult) (updatedHeader : Header) : OcrResult :=
  {| ヘッダー := updatedHeader;
     包装作業記録 := 包装作業記録 data;
     機械操作記録 := 機械操作記録 data |}.

(** Copies of a record with one field replaced ([{...record, field: v}])
    or removed ([delete record.nameError]). *)
Definition setName (name : jsstring) (r : WorkerRecord) : WorkerRecord :=
  {| 氏名 := name; 開始時刻 := 開始時刻 r; 終了時刻 := 終了時刻 r;
     時刻リスト := 時刻リスト r; 休憩 := 休憩 r; 生産数 := 生産数 r;
     nameConfirmationStatus := nameConfirmationStatus r;
     nameError := nameError r; originalName := originalName r;
     confidence := confidence r |}.

Definition setStart (value : jsstring) (r : WorkerRecord) : WorkerRecord :=
  {| 氏名 := 氏名 r; 開始時刻 := value; 終了時刻 := 終了時刻 r;
     時刻リスト := 時刻リスト r; 休憩 := 休憩 r; 生産数 := 生産数 r;
     nameConfirmationStatus := nameConfirmationStatus r;
     nameError := nameError r; originalName := originalName r;
     confidence := confidence r |}.

Definition setEnd (value : jsstring) (r : WorkerRecord) : WorkerRecord :=
  {| 氏名 := 氏名 r; 開始時刻 := 開始時刻 r; 終了時刻 := value;
     時刻リスト := 時刻リスト r; 休憩 := 休憩 r; 生産数 := 生産数 r;
     nameConfirmationStatus := nameConfirmationStatus r;
     nameError := nameError r; originalName := originalName r;
     confidence := confidence r |}.

Definition setSlots (slots : option (list TimeSlot.t)) (r : WorkerRecord) : WorkerRecord :=
  {| 氏名 := 氏名 r; 開始時刻 := 開始時刻 r; 終了時刻 := 終了時刻 r;
     時刻リスト := slots; 休憩 := 休憩 r; 生産数 := 生産数 r;
     nameConfirmationStatus := nameConfirmationStatus r;
     nameError := nameError r; originalName := originalName r;
     confidence := confidence r |}.

Definition setBreaks (breaks : Breaks) (r : WorkerRecord) : WorkerRecord :=
  {| 氏名 := 氏名 r; 開始時刻 := 開始時刻 r; 終了時刻 := 終了時刻 r;
     時刻リスト := 時刻リスト r; 休憩 := breaks; 生産数 := 生産数 r;
     nameConfirmationStatus := nameConfirmationStatus r;
     nameError := nameError r; originalName := originalName r;
     confidence := confidence r |}.

Definition setOutput (value : jsstring) (r : WorkerRecord) : WorkerRecord :=
  {| 氏名 := 氏名 r; 開始時刻 := 開始時刻 r; 終了時刻 := 終了時刻 r;
     時刻リスト := 時刻リスト r; 休憩 := 休憩 r; 生産数 := value;
     nameConfirmationStatus := nameConfirmationStatus r;
     nameError := nameError r; originalName := originalName r;
     confidence := confidence r |}.

Definition setStatus (status : ConfirmationStatus) (r : WorkerRecord) : WorkerRecord :=
  {| 氏名 := 氏名 r; 開始時刻 := 開始時刻 r; 終了時刻 := 終了時刻 r;
     時刻リスト := 時刻リスト r; 休憩 := 休憩 r; 生産数 := 生産数 r;
     nameConfirmationStatus := Some status;
     nameError := nameError r; originalName := originalName r;
     confidence := confidence r |}.

Definition deleteNameError (r : WorkerRecord) : WorkerRecord :=
  {| 氏名 := 氏名 r; 開始時刻 := 開始時刻 r; 終了時刻 := 終了時刻 r;
     時刻リスト := 時刻リスト r; 休憩 := 休憩 r; 生産数 := 生産数 r;
     nameConfirmationStatus := nameConfirmationStatus r;
     nameError := None; originalName := originalName r;
     confidence := confidence r |}.

Definition setProductStatus (status : ConfirmationStatus) (h : Header) : Header :=
  {| 作業日 := 作業日 h; 商品名 := 商品名 h;
     productConfirmationStatus := Some status;
     productError := productError h;
     originalProductName := originalProductName h;
     productConfidence := productConfidence h |}.

Definition setProductName (name : jsstring) (h : Header) : Header :=
  {| 作業日 := 作業日 h; 商品名 := name;
     productConfirmationStatus := productConfirmationStatus h;
     productError := productError h;
     originalProductName := originalProductName h;
     productConfidence := productConfidence h |}.

Definition setWorkDate (date : jsstring) (h : Header) : Header :=
  {| 作業日 := Some date; 商品名 := 商品名 h;
     productConfirmationStatus := productConfirmationStatus h;
     productError := productError h;
     originalProductName := originalProductName h;
     productConfidence := productConfidence h |}.

Definition deleteProductError (h : Header) : Header :=
  {| 作業日 := 作業日 h; 商品名 := 商品名 h;
     productConfirmationStatus := productConfirmationStatus h;
     productError := None;
     originalProductName := originalProductName h;
     productConfidence := productConfidence h |}.

(** [copy[index] = f(copy[index])] on a copy of the array.  [None] stands
    for what the model has no value for: [f] throws, or [index] is past
    the end, where JavaScript would read [undefined] as the record.  The
    rendering passes the indices of the list. *)
Fixpoint replaceAt {A} (l : list A) (index : nat) (f : A -> option A)
    : option (list A) :=
  match l, index with
  | [], _ => None
  | a :: l', 0 => option_map (fun a' => a' :: l') (f a)
  | a :: l', S i => option_map (cons a) (replaceAt l' i f)
  end.

(** The two setter calls every editing handler ends with. *)
Definition storeEdited (data : OcrResult) : list Effect :=
  [SetEditedData data; SetHasChanges true].

(** [updateProductConfirmationStatus] (lines 313-324) *)
Definition updateProductConfirmationStatus (editedData : OcrResult)
    (status : ConfirmationStatus) : list Effect :=
  let updatedHeader := setProductStatus status (ヘッダー editedData) in
  storeEdited (withHeader editedData updatedHeader).

(** [updatePackagingNameConfirmationStatus] and
    [updateMachineNameConfirmationStatus] (lines 327-352) *)
Definition updateNameConfirmationStatus (recordType : RecordType)
    (editedData : OcrResult) (index : nat) (status : ConfirmationStatus)
    : option (list Effect) :=
  option_map (fun newRecords => storeEdited (withRecords recordType editedData newRecords))
    (replaceAt (recordsOf recordType editedData) index
       (fun record => Some (setStatus status record))).

Definition updatePackagingNameConfirmationStatus :=
  updateNameConfirmationStatus packaging.
Definition updateMachineNameConfirmationStatus :=
  updateNameConfirmationStatus machine.

(** [updateHeader] (lines 246-262), on the two string fields of the
    header the model has. *)
Inductive HeaderField := 作業日_field | 商品名_field.

Definition updateHeader (masterData : MasterData) (editedData : OcrResult)
    (field : HeaderField) (value : jsstring) : list Effect :=
  let updatedHeader :=
    match field with
    | 作業日_field => setWorkDate value (ヘッダー editedData)
    | 商品名_field =>
        let updatedHeader := setProductName value (ヘッダー editedData) in
        if includes (products masterData) value
        then deleteProductError updatedHeader
        else updatedHeader
    end in
  storeEdited (withHeader editedData updatedHeader).

(** The [onChange] of the product drop-down (lines 938-958); [newValue]
    is the chosen or typed text, or [null]. *)
Definition selectProduct (masterData : MasterData) (editedData : OcrResult)
    (newValue : option jsstring) : list Effect :=
  let updatedHeader := setProductName (orEmpty newValue) (ヘッダー editedData) in
  let updatedHeader :=
    if truthy (orEmpty newValue) && includes (products masterData) (orEmpty newValue)
    then setProductStatus approved (deleteProductError updatedHeader)
    else setProductStatus editing updatedHeader in
  storeEdited (withHeader editedData updatedHeader).

(** The [onChange] of a name drop-down (lines 1161-1183 and 1558-1580). *)
Definition selectName (recordType : RecordType) (masterData : MasterData)
    (editedData : OcrResult) (index : nat) (newValue : option jsstring)
    : option (list Effect) :=
  option_map (fun newRecords => storeEdited (withRecords recordType editedData newRecords))
    (replaceAt (recordsOf recordType editedData) index
       (fun record =>
          let updatedRecord := setName (orEmpty newValue) record in
          Some (if truthy (orEmpty newValue)
                   && includes (employees masterData) (orEmpty newValue)
                then setStatus approved (deleteNameError updatedRecord)
                else setStatus editing updatedRecord))).

(** The confirm button shown while a field is being edited (lines
    977-985, 1202-1211, 1599-1608): it is disabled unless the value is in
    the master list, and a disabled button runs no handler. *)
Definition confirmProductDisabled (masterData : MasterData) (editedData : OcrResult)
    : bool :=
  negb (truthy (商品名 (ヘッダー editedData)))
  || negb (includes (products masterData) (商品名 (ヘッダー editedData))).

Definition clickConfirmProduct (masterData : MasterData) (editedData : OcrResult)
    : list Effect :=
  if confirmProductDisabled masterData editedData then []
  else updateProductConfirmationStatus editedData approved.

Definition confirmNameDisabled (masterData : MasterData) (record : WorkerRecord) : bool :=
  negb (truthy (氏名 record)) || negb (includes (employees masterData) (氏名 record)).

Definition clickConfirmName (recordType : RecordType) (masterData : MasterData)
    (editedData : OcrResult) (index : nat) : option (list Effect) :=
  match nth_error (recordsOf recordType editedData) index with
  | Some record =>
      if confirmNameDisabled masterData record then Some []
      else updateNameConfirmationStatus recordType editedData index approved
  | None => None
  end.

(** [deletePackagingRecord] and [deleteMachineRecord] (lines 383-390 and
    507-514): [records.filter((_, i) => i !== index)]. *)
Fixpoint filterWithIndex {A} (keep : A -> nat -> bool) (l : list A) (i : nat)
    : list A :=
  match l with
  | [] => []
  | a :: l' =>
      if keep a i then a :: filterWithIndex keep l' (S i)
      else filterWithIndex keep l' (S i)
  end.

Definition deleteRecord (recordType : RecordType) (editedData : OcrResult)
    (index : nat) : list Effect :=
  let newRecords :=
    filterWithIndex (fun _ i => negb (i =? index))
      (recordsOf recordType editedData) 0 in
  storeEdited (withRecords recordType editedData newRecords).

Definition deletePackagingRecord := deleteRecord packaging.
Definition deleteMachineRecord := deleteRecord machine.

(** ** Time slots of packaging records (lines 393-440 and the [onBlur]
    handlers of lines 1314-1319 and 1333-1338)

    These handlers write into the record and into its slot array in
    place and then store a new list of the same records.  As values, the
    state they leave is the one below as long as no two records of the
    list share a slot array; the packaging list gets its records from the
    OCR result and from [addPackagingRecord], which builds a fresh array.
    [addMachineRecord] copies the first record together with the
    reference to its slot array, so the machine twins of these handlers
    are not covered by this value model.  [None] is a [TypeError]: the
    record or the slot read is [undefined], and no setter is reached. *)

Definition defaultSlot : TimeSlot.t :=
  {| TimeSlot.開始時刻 := time_8_00; TimeSlot.終了時刻 := time_17_00 |}.

Definition baseSlot (record : WorkerRecord) : TimeSlot.t :=
  {| TimeSlot.開始時刻 := 開始時刻 record; TimeSlot.終了時刻 := 終了時刻 record |}.

(** What [addPackagingTimeSlot] does to the record it picks. *)
Definition slotAdded (record : WorkerRecord) : option WorkerRecord :=
  let slots :=
    match 時刻リスト record with
    | Some slots => slots
    | None => [baseSlot record]
    end in
  Some (setSlots (Some (slots ++ [defaultSlot])) record).

Definition addPackagingTimeSlot (editedData : OcrResult) (index : nat)
    : option (list Effect) :=
  option_map (fun newRecords => storeEdited (withRecords packaging editedData newRecords))
    (replaceAt (包装作業記録 editedData) index slotAdded).

(** [array.splice(i, 1)] for an index [i >= 0]. *)
Definition removeAt {A} (l : list A) (i : nat) : list A :=
  firstn i l ++ skipn (S i) l.

(** What [deletePackagingTimeSlot] does to the record it picks. *)
Definition slotDeleted (timeSlotIndex : nat) (record : WorkerRecord)
    : option WorkerRecord :=
  match 時刻リスト record with
  | Some slots =>
      if 1 <? length slots then
        let slots := removeAt slots timeSlotIndex in
        match slots with
        | first :: _ =>
            Some (setEnd (TimeSlot.終了時刻 first)
                    (setStart (TimeSlot.開始時刻 first)
                       (setSlots (Some slots) record)))
        | [] => None
        end
      else Some record
  | None => Some record
  end.

Definition deletePackagingTimeSlot (editedData : OcrResult)
    (recordIndex timeSlotIndex : nat) : option (list Effect) :=
  option_map (fun newRecords => storeEdited (withRecords packaging editedData newRecords))
    (replaceAt (包装作業記録 editedData) recordIndex (slotDeleted timeSlotIndex)).

Inductive TimeField := 開始時刻_field | 終了時刻_field.

Definition setSlotField (field : TimeField) (value : jsstring) (slot : TimeSlot.t)
    : TimeSlot.t :=
  match field with
  | 開始時刻_field =>
      {| TimeSlot.開始時刻 := value; TimeSlot.終了時刻 := TimeSlot.終了時刻 slot |}
  | 終了時刻_field =>
      {| TimeSlot.開始時刻 := TimeSlot.開始時刻 slot; TimeSlot.終了時刻 := value |}
  end.

Definition setTimeField (field : TimeField) (value : jsstring) (record : WorkerRecord)
    : WorkerRecord :=
  match field with
  | 開始時刻_field => setStart value record
  | 終了時刻_field => setEnd value record
  end.

(** What [updatePackagingTimeSlot] does to the record it picks. *)
Definition slotUpdated (timeSlotIndex : nat) (field : TimeField) (value : jsstring)
    (record : WorkerRecord) : option WorkerRecord :=
  match 時刻リスト record with
  | Some slots =>
      match replaceAt slots timeSlotIndex
              (fun slot => Some (setSlotField field value slot)) with
      | Some slots =>
          let record := setSlots (Some slots) record in
          Some (if timeSlotIndex =? 0 then setTimeField field value record
                else record)
      | None => None
      end
  | None => Some record
  end.

Definition updatePackagingTimeSlot (editedData : OcrResult)
    (recordIndex timeSlotIndex : nat) (field : TimeField) (value : jsstring)
    : option (list Effect) :=
  option_map (fun newRecords => storeEdited (withRecords packaging editedData newRecords))
    (replaceAt (包装作業記録 editedData) recordIndex
       (slotUpdated timeSlotIndex field value)).

(** The [onBlur] of a time field; [targetValue] is the text in the field. *)
Definition blurPackagingTime (editedData : OcrResult)
    (recordIndex timeSlotIndex : nat) (field : TimeField) (targetValue : jsstring)
    : option (list Effect) :=
  let formatted := formatTimeInput targetValue in
  if negb (str_eqb formatted targetValue) then
    updatePackagingTimeSlot editedData recordIndex timeSlotIndex field formatted
  else Some [].

(** ** Time slots of machine records, with their sharing (lines 516-630)

    [addMachineRecord] builds the new record with [{...firstRecord, ...}]:
    the copy holds the same slot array as the first record, not a copy of
    it, and the time-slot handlers write into that array in place.  Here
    the slot arrays live in a store and a record holds the address of its
    array; the other fields are the [fields] of the record, whose own
    [時刻リスト] is not used.  [view] reads a record back as a value.  Each
    handler is given by the store and the machine list it leaves; it ends
    with the same two setter calls as its packaging twin. *)
Module MachineHeap.

Record Ref := {
  fields : WorkerRecord;
  slotsAt : option nat
}.

Record State := {
  store : list (list TimeSlot.t);
  records : list Ref
}.

Definition slotsOf (store : list (list TimeSlot.t)) (r : Ref)
    : option (list TimeSlot.t) :=
  match slotsAt r with
  | Some address => nth_error store address
  | None => None
  end.

Definition view (store : list (list TimeSlot.t)) (r : Ref) : WorkerRecord :=
  setSlots (slotsOf store r) (fields r).

Definition viewAll (st : State) : list WorkerRecord :=
  map (view (store st)) (records st).

(** The array at [address] replaced by [slots]. *)
Definition writeAt (store : list (list TimeSlot.t)) (address : nat)
    (slots : list TimeSlot.t) : list (list TimeSlot.t) :=
  firstn address store ++ slots :: skipn (S address) store.

(** [addMachineRecord] (lines 567-596) *)
Definition addMachineRecord (st : State) : State :=
  match records st with
  | firstRecord :: _ =>
      {| store := store st;
         records :=
           {| fields := setStatus pending (setName [] (fields firstRecord));
              slotsAt := slotsAt firstRecord |} :: records st |}
  | [] =>
      {| store := store st ++ [defaultSlots];
         records :=
           [ {| fields :=
                  {| 氏名 := [];
                     開始時刻 := time_8_00;
                     終了時刻 := time_17_00;
                     時刻リスト := None;
                     休憩 := {| 昼休み := false; 中休み := false |};
                     生産数 := text_0;
                     nameConfirmationStatus := Some pending;
                     nameError := None;
                     originalName := None;
                     confidence := None |};
                slotsAt := Some (length (store st)) |} ] |}
  end.

(** [addMachineTimeSlot] (lines 517-529); [None] is the [TypeError] of an
    index that is not in the list. *)
Definition addMachineTimeSlot (st : State) (index : nat) : option State :=
  match nth_error (records st) index with
  | None => None
  | Some record =>
      let '(store1, address) :=
        match slotsAt record with
        | Some address => (store st, address)
        | None => (store st ++ [[baseSlot (fields record)]], length (store st))
        end in
      match nth_error store1 address with
      | None => None
      | Some slots =>
          option_map
            (fun newRecords =>
               {| store := writeAt store1 address (slots ++ [defaultSlot]);
                  records := newRecords |})
            (replaceAt (records st) index
               (fun record =>
                  Some {| fields := fields record; slotsAt := Some address |}))
      end
  end.



End MachineHeap.

(** ** The confirmation pop-up, the duplicate highlight and the record
    fields (lines 264-310, 355-380, 479-504, 633-650 and 803-825)

    The state variables these handlers write on top of [AppState], and
    the effects that write them.  A [Set<string>] keeps its members in
    insertion order, each once.  The keys of [autoOpenDropdowns] are kept
    as the values their template literals are built from. *)
Module StringSet.

Definition t := list jsstring.

Definition has (s : t) (key : jsstring) : bool := existsb (str_eqb key) s.

Definition add (s : t) (key : jsstring) : t :=
  if has s key then s else s ++ [key].

Definition delete (s : t) (key : jsstring) : t :=
  filter (fun member => negb (str_eqb key member)) s.

End StringSet.

Inductive TargetType := product | listed (recordType : RecordType).

Module ConfirmTarget.
Record t := {
  type : TargetType;
  index : option nat;
  value : jsstring
}.
End ConfirmTarget.

Inductive DropdownKey :=
| productDropdown
| recordDropdown (recordType : RecordType) (index : nat).

Inductive PageEffect :=
| Core (e : Effect)
| SetConfirmTarget (target : option ConfirmTarget.t)
| SetConfirmPopupOpen (b : bool)
| SetAutoOpenDropdowns (keys : list DropdownKey)
| SetDuplicateHighlight (keys : StringSet.t)
| ScrollToFirstDuplicate.

Record PageState := {
  component : AppState;
  confirmPopupOpen : bool;
  confirmTarget : option ConfirmTarget.t;
  autoOpenDropdowns : list DropdownKey;
  duplicateHighlight : StringSet.t
}.

Definition performOnPage (ps : PageState) (e : PageEffect) : PageState :=
  match e with
  | Core e =>
      {| component := perform (component ps) e;
         confirmPopupOpen := confirmPopupOpen ps;
         confirmTarget := confirmTarget ps;
         autoOpenDropdowns := autoOpenDropdowns ps;
         duplicateHighlight := duplicateHighlight ps |}
  | SetConfirmTarget target =>
      {| component := component ps;
         confirmPopupOpen := confirmPopupOpen ps;
         confirmTarget := target;
         autoOpenDropdowns := autoOpenDropdowns ps;
         duplicateHighlight := duplicateHighlight ps |}
  | SetConfirmPopupOpen b =>
      {| component := component ps;
         confirmPopupOpen := b;
         confirmTarget := confirmTarget ps;
         autoOpenDropdowns := autoOpenDropdowns ps;
         duplicateHighlight := duplicateHighlight ps |}
  | SetAutoOpenDropdowns keys =>
      {| component := component ps;
         confirmPopupOpen := confirmPopupOpen ps;
         confirmTarget := confirmTarget ps;
         autoOpenDropdowns := keys;
         duplicateHighlight := duplicateHighlight ps |}
  | SetDuplicateHighlight keys =>
      {| component := component ps;
         confirmPopupOpen := confirmPopupOpen ps;
         confirmTarget := confirmTarget ps;
         autoOpenDropdowns := autoOpenDropdowns ps;
         duplicateHighlight := keys |}
  | ScrollToFirstDuplicate => ps
  end.

Definition runOnPage (ps : PageState) (effects : list PageEffect) : PageState :=
  fold_left performOnPage effects ps.

Definition openConfirmPopup (type : TargetType) (value : jsstring)
    (index : option nat) : list PageEffect :=
  [ SetConfirmTarget
      (Some {| ConfirmTarget.type := type;
               ConfirmTarget.index := index;
               ConfirmTarget.value := value |});
    SetConfirmPopupOpen true ].

Definition closeConfirmPopup : list PageEffect :=
  [SetConfirmPopupOpen false; SetConfirmTarget None].

(** [handleConfirmOK] (lines 277-289): the answer "this is correct". *)
Definition handleConfirmOK (editedData : OcrResult)
    (confirmTarget : option ConfirmTarget.t) : option (list PageEffect) :=
  match confirmTarget with
  | None => Some []
  | Some target =>
      match ConfirmTarget.type target, ConfirmTarget.index target with
      | product, _ =>
          Some (map Core (updateProductConfirmationStatus editedData approved)
                ++ closeConfirmPopup)
      | listed recordType, Some index =>
          option_map (fun effects => map Core effects ++ closeConfirmPopup)
            (updateNameConfirmationStatus recordType editedData index approved)
      | listed _, None => Some closeConfirmPopup
      end
  end.

(** [handleConfirmEdit] (lines 292-310): the answer "needs correction". *)
Definition handleConfirmEdit (editedData : OcrResult)
    (confirmTarget : option ConfirmTarget.t) : option (list PageEffect) :=
  match confirmTarget with
  | None => Some []
  | Some target =>
      match ConfirmTarget.type target, ConfirmTarget.index target with
      | product, _ =>
          Some (map Core (updateProductConfirmationStatus editedData editing)
                ++ [SetAutoOpenDropdowns [productDropdown]]
                ++ closeConfirmPopup)
      | listed recordType, Some index =>
          option_map
            (fun effects =>
               map Core effects
               ++ [SetAutoOpenDropdowns [recordDropdown recordType index]]
               ++ closeConfirmPopup)
            (updateNameConfirmationStatus recordType editedData index editing)
      | listed _, None => Some closeConfirmPopup
      end
  end.

(** The OK button shown beside a field that is neither [pending] nor
    being edited (lines 1030-1042, 1260-1272, 1657-1669), and the cancel
    button shown while it is being edited (lines 986-992, 1212-1219,
    1609-1616). *)
Definition clickOkProduct (editedData : OcrResult) : list PageEffect :=
  map Core (updateProductConfirmationStatus editedData editing)
  ++ [SetAutoOpenDropdowns [productDropdown]].

Definition clickCancelProduct (editedData : OcrResult) : list Effect :=
  updateProductConfirmationStatus editedData pending.

Definition clickOkName (recordType : RecordType) (editedData : OcrResult)
    (index : nat) : option (list PageEffect) :=
  option_map
    (fun effects =>
       map Core effects ++ [SetAutoOpenDropdowns [recordDropdown recordType index]])
    (updateNameConfirmationStatus recordType editedData index editing).

Definition clickCancelName (recordType : RecordType) (editedData : OcrResult)
    (index : nat) : option (list Effect) :=
  updateNameConfirmationStatus recordType editedData index pending.

(** The keys of the highlight set: the text "packaging-" or "machine-"
    followed by the name. *)
Definition text_packaging_ : jsstring := Eval cbv in lit "packaging-".
Definition text_machine_ : jsstring := Eval cbv in lit "machine-".

Definition highlightPrefix (recordType : RecordType) : jsstring :=
  match recordType with
  | packaging => text_packaging_
  | machine => text_machine_
  end.

Definition highlightKey (recordType : RecordType) (name : jsstring) : jsstring :=
  highlightPrefix recordType ++ name.

(** The set that [handleDuplicateDialogClose] fills (lines 807-809). *)
Definition highlightSetOf (duplicateInfo : DuplicateInfo.t) : StringSet.t :=
  let highlightSet :=
    fold_left (fun s name => StringSet.add s (highlightKey packaging name))
      (DuplicateInfo.packaging duplicateInfo) [] in
  fold_left (fun s name => StringSet.add s (highlightKey machine name))
    (DuplicateInfo.machine duplicateInfo) highlightSet.

(** [handleDuplicateDialogClose] (lines 803-825); the scroll it schedules
    is one effect. *)
Definition handleDuplicateDialogClose (duplicateInfo : option DuplicateInfo.t)
    : list PageEffect :=
  match duplicateInfo with
  | None => []
  | Some duplicateInfo =>
      let highlightSet := highlightSetOf duplicateInfo in
      let allDuplicates :=
        DuplicateInfo.packaging duplicateInfo ++ DuplicateInfo.machine duplicateInfo in
      [ SetDuplicateHighlight highlightSet;
        Core (SetDuplicateDialogOpen false);
        Core (SetDuplicateInfo None) ]
      ++ (if 0 <? length allDuplicates then [ScrollToFirstDuplicate] else [])
  end.

(** [updatePackagingRecord] and [updateMachineRecord] (lines 355-380 and
    479-504): one field of one record gets a new value. *)
Inductive FieldUpdate :=
| 氏名_is (value : jsstring)
| 開始時刻_is (value : jsstring)
| 終了時刻_is (value : jsstring)
| 時刻リスト_is (value : list TimeSlot.t)
| 休憩_is (value : Breaks)
| 生産数_is (value : jsstring).

Definition applyUpdate (update : FieldUpdate) (record : WorkerRecord) : WorkerRecord :=
  match update with
  | 氏名_is value => setName value record
  | 開始時刻_is value => setStart value record
  | 終了時刻_is value => setEnd value record
  | 時刻リスト_is value => setSlots (Some value) record
  | 休憩_is value => setBreaks value record
  | 生産数_is value => setOutput value record
  end.

Definition updateRecord (recordType : RecordType) (masterData : MasterData)
    (duplicateHighlight : StringSet.t) (editedData : OcrResult) (index : nat)
    (update : FieldUpdate) : option (list PageEffect) :=
  option_map
    (fun newRecords =>
       map Core (storeEdited (withRecords recordType editedData newRecords))
       ++ match update with
          | 氏名_is value =>
              [ SetDuplicateHighlight
                  (StringSet.delete duplicateHighlight (highlightKey recordType value)) ]
          | _ => []
          end)
    (replaceAt (recordsOf recordType editedData) index
       (fun record =>
          let updatedRecord := applyUpdate update record in
          Some match update with
               | 氏名_is value =>
                   if includes (employees masterData) value
                   then deleteNameError updatedRecord
                   else updatedRecord
               | _ => updatedRecord
               end)).

Definition updatePackagingRecord := updateRecord packaging.
Definition updateMachineRecord := updateRecord machine.

(** [updateBreak] (lines 633-650) *)
Inductive BreakType := 昼休み_break | 中休み_break.

Definition setBreak (breakType : BreakType) (value : bool) (breaks : Breaks) : Breaks :=
  match breakType with
  | 昼休み_break => {| 昼休み := value; 中休み := 中休み breaks |}
  | 中休み_break => {| 昼休み := 昼休み breaks; 中休み := value |}
  end.

Definition getBreak (breakType : BreakType) (breaks : Breaks) : bool :=
  match breakType with
  | 昼休み_break => 昼休み breaks
  | 中休み_break => 中休み breaks
  end.

Definition updateBreak (recordType : RecordType) (masterData : MasterData)
    (duplicateHighlight : StringSet.t) (editedData : OcrResult) (index : nat)
    (breakType : BreakType) (value : bool) : option (list PageEffect) :=
  match nth_error (recordsOf recordType editedData) index with
  | Some record =>
      updateRecord recordType masterData duplicateHighlight editedData index
        (休憩_is (setBreak breakType value (休憩 record)))
  | None => None
  end.

(** ** Vocabulary of the properties *)

(** A name that is empty or made of white space only. *)
Definition isBlank (name : jsstring) : bool := forallb isWhiteSpace name.

(** A confirmation status that still waits for the user. *)
Definition Unconfirmed (status : option ConfirmationStatus) : Prop :=
  status = Some pending \/ status = Some editing.

Definition HasUnconfirmedField (data : OcrResult) : Prop :=
  Unconfirmed (productConfirmationStatus (ヘッダー data))
  \/ (exists r, In r (包装作業記録 data) /\ Unconfirmed (nameConfirmationStatus r))
  \/ (exists r, In r (機械操作記録 data) /\ Unconfirmed (nameConfirmationStatus r)).

(** The condition under which reconciliation touches a field. *)
Definition Reconcilable (value : jsstring) (master : list jsstring)
    (marker : option jsstring) : Prop :=
  value <> [] /\ In value master /\ flagged marker = true.

(** What reconciliation may do to one name field: [r'] is the record
    found after the effect where [r] was before it. *)
Definition ReconciledName (masterData : MasterData) (r r' : WorkerRecord) : Prop :=
  (Reconcilable (氏名 r) (employees masterData) (nameError r) ->
   nameError r' = None /\ nameConfirmationStatus r' = Some approved
   /\ 氏名 r' = 氏名 r)
  /\ (~ Reconcilable (氏名 r) (employees masterData) (nameError r) -> r' = r)
  /\ (nameConfirmationStatus r = Some approved ->
      nameConfirmationStatus r' = Some approved)
  /\ (nameConfirmationStatus r' = Some pending ->
      nameConfirmationStatus r = Some pending).

Definition ReconciledNames (masterData : MasterData)
    (records records' : list WorkerRecord) : Prop :=
  length records' = length records
  /\ forall i r, nth_error records i = Some r ->
       exists r', nth_error records' i = Some r' /\ ReconciledName masterData r r'.

Definition ReconciledProduct (masterData : MasterData) (h h' : Header) : Prop :=
  (Reconcilable (商品名 h) (products masterData) (productError h) ->
   productError h' = None /\ productConfirmationStatus h' = Some approved
   /\ 商品名 h' = 商品名 h)
  /\ (~ Reconcilable (商品名 h) (products masterData) (productError h) -> h' = h)
  /\ (productConfirmationStatus h = Some approved ->
      productConfirmationStatus h' = Some approved)
  /\ (productConfirmationStatus h' = Some pending ->
      productConfirmationStatus h = Some pending).

Definition isExternalCall (e : Effect) : bool :=
  match e with
  | CallCheckExistingData _ | CallSaveToPersonalSheets _ => true
  | _ => false
  end.

(** Effects that put a message in front of the user before any request
    is sent: an [alert], or the duplicate dialog being opened. *)
Definition surfacesMessage (e : Effect) : bool :=
  match e with
  | Alert _ | SetDuplicateDialogOpen true => true
  | _ => false
  end.

Definition SaveBlocked (w : World) (data : OcrResult) : Prop :=
  existsb surfacesMessage (handleSave w data) = true
  /\ existsb isExternalCall (handleSave w data) = false.

(** What [nameCount] holds once the names of [seen] have been counted. *)
Definition Counts (m : NameCount.t) (seen : list jsstring) : Prop :=
  NoDup (map fst m)
  /\ forall k, NameCount.get m k =
       if isBlank k then None
       else match count_occ str_eq_dec seen k with
            | 0 => None
            | S n => Some (S n)
            end.

(** [handleSave] stops at the confirmation gate: one of the two alerts
    of lines 664 and 676 and nothing else. *)
Definition StoppedAtConfirmation (w : World) (data : OcrResult) : Prop :=
  handleSave w data = [Alert UnconfirmedItems]
  \/ handleSave w data = [Alert EditingItems].

(** The three gates of [handleSave] let the request through. *)
Definition passesGates (data : OcrResult) : bool :=
  negb (hasPendingProduct data || hasPendingNames data)
  && negb (hasEditingItems data)
  && negb (DuplicateCheck.hasDuplicates (checkForDuplicates data)).

Definition lowersFlag (e : Effect) : bool :=
  match e with
  | SetIsSaving false => true
  | _ => false
  end.

(** [isSaving] is [true] at every point strictly inside the trace, the
    trace being replayed from [st]. *)
Definition SavingThroughout (st : AppState) (trace : list Effect) : Prop :=
  forall k, 0 < k < length trace -> isSaving (run st (firstn k trace)) = true.

(** Effects that put the overwrite dialog in front of the user. *)
Definition opensOverwriteDialog (e : Effect) : bool :=
  match e with
  | SetConfirmDialogOpen true | SetOverwriteCallback (Some _) => true
  | _ => false
  end.

(** A save that goes from the probe straight to the commit: the flag is
    up at every point inside the trace, both requests are sent, and the
    flag is down at the end. *)
Definition SavedDirectly (w : World) (st : AppState) (data : OcrResult) : Prop :=
  SavingThroughout st (handleSave w data)
  /\ In (CallCheckExistingData data) (handleSave w data)
  /\ In (CallSaveToPersonalSheets data) (handleSave w data)
  /\ isSaving (run st (handleSave w data)) = false.

(** A save that the probe suspends for the overwrite confirmation:
    [handleSave] ends with the dialog open, the commit stored and not
    sent, and the flag down; confirming sends the commit with the flag up
    throughout and down at the end; cancelling sends nothing and leaves
    the flag down. *)
Definition SuspendedForConfirmation (w : World) (st : AppState) (data : OcrResult)
    : Prop :=
  let waiting := run st (handleSave w data) in
  handleSave w data =
    [ SetIsSaving true; CallCheckExistingData data;
      SetOverwriteCallback (Some (PerformSave data));
      SetConfirmDialogOpen true; SetIsSaving false ]
  /\ isSaving (run st (firstn 2 (handleSave w data))) = true
  /\ isSaving waiting = false
  /\ confirmDialogOpen waiting = true
  /\ overwriteCallback waiting = Some (PerformSave data)
  /\ SavingThroughout waiting (handleConfirmOverwrite w (overwriteCallback waiting))
  /\ In (CallSaveToPersonalSheets data)
        (handleConfirmOverwrite w (overwriteCallback waiting))
  /\ isSaving (run waiting (handleConfirmOverwrite w (overwriteCallback waiting)))
     = false
  /\ existsb isExternalCall handleCancelOverwrite = false
  /\ isSaving (run waiting handleCancelOverwrite) = false
  /\ overwriteCallback (run waiting handleCancelOverwrite) = None.

(** [kept] is [original] with some elements left out, the others in
    their original order. *)
Inductive Subsequence {A} : list A -> list A -> Prop :=
| Subsequence_nil : Subsequence [] []
| Subsequence_keep x kept original :
    Subsequence kept original -> Subsequence (x :: kept) (x :: original)
| Subsequence_drop x kept original :
    Subsequence kept original -> Subsequence kept (x :: original).

(** The calendar month before [(year, month)], by counting months from
    year 0: the reading of the period rule that the branches of
    [accountingPeriod] are compared with. *)
Definition previousCalendarMonth (year month : Z) : Z * Z :=
  let monthsSinceYear0 := (year * 12 + (month - 1) - 1)%Z in
  ((monthsSinceYear0 / 12)%Z, (monthsSinceYear0 mod 12 + 1)%Z).

(** ** Sample data used by the examples *)

Definition name_Sato : jsstring := Eval cbv in lit "Sato".
Definition name_Tanaka : jsstring := Eval cbv in lit "Tanaka".

Definition worker (name : jsstring) (status : option ConfirmationStatus)
    (marker : option jsstring) : WorkerRecord :=
  {| 氏名 := name;
     開始時刻 := time_8_00;
     終了時刻 := time_17_00;
     時刻リスト := Some defaultSlots;
     休憩 := {| 昼休み := true; 中休み := false |};
     生産数 := text_0;
     nameConfirmationStatus := status;
     nameError := marker;
     originalName := None;
     confidence := None |}.

Definition date_2024_02_20 : jsstring := Eval cbv in lit "2024/02/20".
Definition name_Widget : jsstring := Eval cbv in lit "Widget".

Definition header (status : option ConfirmationStatus) (marker : option jsstring)
    : Header :=
  {| 作業日 := Some date_2024_02_20;
     商品名 := name_Widget;
     productConfirmationStatus := status;
     productError := marker;
     originalProductName := None;
     productConfidence := None |}.

Definition report (status : option ConfirmationStatus)
    (packaging machine : list WorkerRecord) : OcrResult :=
  {| ヘッダー := header status None;
     包装作業記録 := packaging;
     機械操作記録 := machine |}.

Definition initialState (data : OcrResult) : AppState :=
  {| editedData := Some data;
     hasChanges := false;
     isSaving := false;
     confirmDialogOpen := false;
     overwriteCallback := None;
     failedWorkers := [];
     missingSheetDialogOpen := false;
     missingSheetMessage := None;
     duplicateDialogOpen := false;
     duplicateInfo := None |}.

(** A world in which the date is 20 February 2024, the probe answers
    [probe] and the commit answers [commit]. *)
Definition world (probe : ProbeOutcome) (commit : CommitOutcome) : World :=
  {| newDate := fun _ => {| getFullYear := 2024; getMonth := 1; getDate := 20 |};
     checkExistingData := fun _ => probe;
     saveToPersonalSheets := fun _ => commit |}.

Definition SatoAndTanaka : OcrResult :=
  report (Some approved)
    [worker name_Sato (Some approved) None; worker name_Tanaka (Some approved) None]
    [].

Definition SatoTwice : OcrResult :=
  report (Some approved)
    [worker name_Sato (Some approved) None; worker name_Sato (Some approved) None]
    [].

(** A report whose product and whose workers came out of extraction with
    error markers, and master data that knows the product and Sato. *)
Definition marker_unknown : jsstring := Eval cbv in lit "not in master".

Definition flaggedReport : OcrResult :=
  {| ヘッダー := header (Some pending) (Some marker_unknown);
     包装作業記録 :=
       [ worker name_Sato (Some pending) (Some marker_unknown);
         worker name_Tanaka (Some pending) (Some marker_unknown) ];
     機械操作記録 :=
       [ worker name_Sato (Some editing) (Some marker_unknown);
         worker name_Sato (Some approved) None ] |}.

Definition knownMasterData : MasterData :=
  {| products := [name_Widget]; employees := [name_Sato] |}.

Definition OnlyTanakaFailed : CommitOutcome :=
  CommitResolved (Some {| SaveResult.failedWorkers := Some [name_Tanaka] |}).

(** A probe that found existing data for Tanaka. *)
Definition TanakaExists : ProbeOutcome := ProbeResolved [(name_Tanaka, true)].

Definition probeFailure : Thrown := ErrorObject text_network.

(** ** Vocabulary of the further properties *)

(** The test of [filterEmptyRecords]: a start or an end time is there. *)
Definition hasTime (record : WorkerRecord) : bool :=
  truthy (開始時刻 record) || truthy (終了時刻 record).

(** The two legacy time fields of a record repeat its first slot; a
    record whose slot list is missing has nothing to repeat yet, and a
    record with an empty slot list does not qualify. *)
Definition SlotsMirrored (record : WorkerRecord) : Prop :=
  match 時刻リスト record with
  | None => True
  | Some [] => False
  | Some (first :: _) =>
      開始時刻 record = TimeSlot.開始時刻 first
      /\ 終了時刻 record = TimeSlot.終了時刻 first
  end.

(** Neither list of the report has a repeated name that counts. *)
Definition NoDuplicates (data : OcrResult) : Prop :=
  findDuplicates (map 氏名 (包装作業記録 data)) = []
  /\ findDuplicates (map 氏名 (機械操作記録 data)) = [].

Definition storedSample : Stored.t :=
  {| Stored.ヘッダー := header None (Some marker_unknown);
     Stored.包装作業記録 :=
       Some [ worker name_Sato None None;
              setEnd [] (setStart [] (worker name_Tanaka None (Some marker_unknown))) ];
     Stored.機械操作記録 := None |}.

(** The names of a list in the order in which they first appear, each
    once; [seen] holds the names met so far. *)
Fixpoint firstOccurrences (seen names : list jsstring) : list jsstring :=
  match names with
  | [] => []
  | name :: rest =>
      if includes seen name then firstOccurrences seen rest
      else name :: firstOccurrences (seen ++ [name]) rest
  end.


(** One machine record, Sato, whose slot array is the first of the store. *)
Definition oneMachine : MachineHeap.State :=
  {| MachineHeap.store := [defaultSlots];
     MachineHeap.records :=
       [ {| MachineHeap.fields := setSlots None (worker name_Sato (Some approved) None);
            MachineHeap.slotsAt := Some 0 |} ] |}.



Definition isAlert (e : Effect) : bool :=
  match e with
  | Alert _ => true
  | _ => false
  end.

Definition isNavigate (e : Effect) : bool :=
  match e with
  | Navigate _ => true
  | _ => false
  end.

Definition pendingHeaderReport : OcrResult :=
  {| ヘッダー := header (Some pending) (Some marker_unknown);
     包装作業記録 := [worker name_Sato (Some pending) (Some marker_unknown)];
     機械操作記録 := [] |}.

Definition samplePage (data : OcrResult) : PageState :=
  {| component := initialState data;
     confirmPopupOpen := false;
     confirmTarget := None;
     autoOpenDropdowns := [];
     duplicateHighlight := [] |}.

(** * Properties *)

(** ** Time input *)

Lemma numbersOnly_digits (input : jsstring) :
  Forall (fun c => isDigit c = true) (numbersOnly input).
Proof.
  apply Forall_forall. intros c Hc.
  apply filter_In in Hc. apply Hc.
Qed.

Lemma numbersOnly_of_digits (s : jsstring) :
  Forall (fun c => isDigit c = true) s -> numbersOnly s = s.
Proof.
  induction 1 as [|c s Hc _ IH]; simpl.
  - reflexivity.
  - rewrite Hc. f_equal. exact IH.
Qed.

Lemma numbersOnly_app (s t : jsstring) :
  numbersOnly (s ++ t) = numbersOnly s ++ numbersOnly t.
Proof. apply filter_app. Qed.

(** Peels the digits off a [Forall] fact about a list of known shape. *)
Ltac digits H :=
  repeat match type of H with
         | Forall _ (_ :: _) =>
             let Hd := fresh "Hdigit" in
             let Hr := fresh "Hrest" in
             inversion H as [|? ? Hd Hr]; subst; clear H; rename Hr into H
         end.

(** C7. [formatTimeInput] drops every character that is not a digit and
    formats the digits that remain by their number alone, verbatim and
    without padding: none gives the empty string; one or two give the
    digits followed by ":00"; three give the first digit, a colon and the
    last two; four give two digits, a colon and two digits; more than four
    give the first two digits, a colon and the next two, the rest being
    dropped.  Hours and minutes out of range go through. *)
Theorem formatTimeInput_by_digit_count (input : jsstring) :
  numbersOnly input = filter isDigit input
  /\ match filter isDigit input with
     | [] => formatTimeInput input = []
     | [a] => formatTimeInput input = [a; 58; 48; 48]%N
     | [a; b] => formatTimeInput input = [a; b; 58; 48; 48]%N
     | [a; b; c] => formatTimeInput input = [a; 58; b; c]%N
     | [a; b; c; d] => formatTimeInput input = [a; b; 58; c; d]%N
     | a :: b :: c :: d :: _ :: _ => formatTimeInput input = [a; b; 58; c; d]%N
     end
  /\ formatTimeInput (lit "") = lit ""
  /\ formatTimeInput (lit "8") = lit "8:00"
  /\ formatTimeInput (lit "17") = lit "17:00"
  /\ formatTimeInput (lit "830") = lit "8:30"
  /\ formatTimeInput (lit "1730") = lit "17:30"
  /\ formatTimeInput (lit "173045") = lit "17:30"
  /\ formatTimeInput (lit "17h30m") = lit "17:30"
  /\ formatTimeInput (lit "9999") = lit "99:99".
Proof.
  split; [reflexivity|].
  split; [|repeat split; reflexivity].
  unfold formatTimeInput, numbersOnly.
  destruct (filter isDigit input) as [|a [|b [|c [|d [|e rest]]]]];
    reflexivity.
Qed.

(** C8. [formatTimeInput] is idempotent; a value that already has its
    colon, such as "17:30", comes back unchanged. *)
Theorem formatTimeInput_idempotent (x : jsstring) :
  formatTimeInput (formatTimeInput x) = formatTimeInput x
  /\ numbersOnly (lit "17:30") = lit "1730"
  /\ formatTimeInput (lit "17:30") = lit "17:30".
Proof.
  split; [|split; reflexivity].
  pose proof (numbersOnly_digits x) as H.
  unfold formatTimeInput at 2 3.
  destruct (numbersOnly x) as [|a [|b [|c [|d [|e rest]]]]];
    try reflexivity; digits H;
    unfold formatTimeInput, numbersOnly; cbn [filter length Nat.eqb Nat.leb app slice sliceFrom index nth_error firstn skipn Nat.sub];
    repeat match goal with Hd : isDigit _ = true |- _ => rewrite Hd; clear Hd end;
    reflexivity.
Qed.

(** ** Duplicate detection *)

Lemma str_eqb_eq (a b : jsstring) : str_eqb a b = true <-> a = b.
Proof.
  unfold str_eqb. destruct (str_eq_dec a b); split; congruence.
Qed.

Lemma str_eqb_refl (a : jsstring) : str_eqb a a = true.
Proof. apply str_eqb_eq. reflexivity. Qed.

Lemma str_eqb_neq (a b : jsstring) : a <> b -> str_eqb a b = false.
Proof.
  intros H. unfold str_eqb. destruct (str_eq_dec a b); congruence.
Qed.

Lemma includes_In (l : list jsstring) (s : jsstring) :
  includes l s = true <-> In s l.
Proof.
  unfold includes. rewrite existsb_exists. split.
  - intros [x [Hx Heq]]. apply str_eqb_eq in Heq. subst. exact Hx.
  - intros H. exists s. split; [exact H | apply str_eqb_refl].
Qed.

Lemma truthy_nonempty (s : jsstring) : truthy s = true <-> s <> [].
Proof. destruct s; simpl; split; congruence. Qed.

Section DropWhile.
Context {A : Type} (p : A -> bool).

Lemma forallb_dropWhile (l : list A) :
  forallb p (dropWhile p l) = forallb p l.
Proof.
  induction l as [|a l IH]; simpl; [reflexivity|].
  destruct (p a) eqn:E; simpl; [exact IH | rewrite E; reflexivity].
Qed.

Lemma dropWhile_nil (l : list A) :
  dropWhile p l = [] <-> forallb p l = true.
Proof.
  induction l as [|a l IH]; simpl; [tauto|].
  destruct (p a); simpl; [exact IH | split; discriminate].
Qed.

Lemma forallb_rev (l : list A) : forallb p (rev l) = forallb p l.
Proof.
  induction l as [|a l IH]; simpl; [reflexivity|].
  rewrite forallb_app, IH. simpl. rewrite andb_true_r. apply andb_comm.
Qed.
End DropWhile.

Lemma trim_empty (s : jsstring) : trim s = [] <-> isBlank s = true.
Proof.
  unfold trim, trimEnd, trimStart, isBlank.
  rewrite <- (forallb_dropWhile isWhiteSpace s).
  rewrite <- (forallb_rev isWhiteSpace (dropWhile isWhiteSpace s)).
  rewrite <- dropWhile_nil.
  split; intros H.
  - apply (f_equal (@rev code_unit)) in H. rewrite rev_involutive in H. exact H.
  - rewrite H. reflexivity.
Qed.

(** The guard of [findDuplicates] lets through exactly the names that are
    not blank. *)
Lemma counted_not_blank (name : jsstring) :
  counted name = negb (isBlank name).
Proof.
  unfold counted. destruct (isBlank name) eqn:E.
  - apply trim_empty in E. rewrite E. simpl. apply andb_false_r.
  - destruct (trim name) eqn:T.
    + apply trim_empty in T. congruence.
    + destruct name; [discriminate E | reflexivity].
Qed.

Module NameCountFacts.
Import NameCount.

Lemma get_set_same (m : t) k v : get (set m k v) k = Some v.
Proof.
  induction m as [|[k' v'] m IH]; simpl.
  - rewrite str_eqb_refl. reflexivity.
  - destruct (str_eqb k k') eqn:E; simpl; rewrite E; [reflexivity | exact IH].
Qed.

Lemma get_set_other (m : t) k v k0 :
  k0 <> k -> get (set m k v) k0 = get m k0.
Proof.
  intros Hne. induction m as [|[k' v'] m IH]; simpl.
  - rewrite (str_eqb_neq Hne). reflexivity.
  - destruct (str_eqb k k') eqn:E; simpl.
    + apply str_eqb_eq in E. subst k'.
      rewrite (str_eqb_neq Hne). reflexivity.
    + rewrite IH. reflexivity.
Qed.

Lemma get_None_keys (m : t) k : get m k = None <-> ~ In k (map fst m).
Proof.
  induction m as [|[k' v'] m IH]; simpl; [tauto|].
  destruct (str_eqb k k') eqn:E.
  - apply str_eqb_eq in E. subst. split; [discriminate | tauto].
  - rewrite IH. split; [|tauto].
    intros H [Heq|Hin]; [|tauto].
    subst. rewrite str_eqb_refl in E. discriminate.
Qed.

Lemma keys_set (m : t) k v :
  map fst (set m k v) =
  match get m k with
  | Some _ => map fst m
  | None => map fst m ++ [k]
  end.
Proof.
  induction m as [|[k' v'] m IH]; simpl; [reflexivity|].
  destruct (str_eqb k k') eqn:E; simpl; [reflexivity|].
  rewrite IH. destruct (get m k); reflexivity.
Qed.

Lemma NoDup_keys_set (m : t) k v :
  NoDup (map fst m) -> NoDup (map fst (set m k v)).
Proof.
  intros H. rewrite keys_set. destruct (get m k) eqn:G; [exact H|].
  apply get_None_keys in G.
  apply NoDup_rev in H. rewrite <- (rev_involutive (map fst m ++ [k])).
  apply NoDup_rev. rewrite rev_app_distr. simpl.
  constructor; [rewrite <- in_rev; exact G | exact H].
Qed.

Lemma In_get (m : t) k v :
  NoDup (map fst m) -> (In (k, v) m <-> get m k = Some v).
Proof.
  induction m as [|[k' v'] m IH]; simpl; intros Hnd.
  - split; [tauto | discriminate].
  - inversion Hnd as [|? ? Hnotin Hnd']; subst.
    destruct (str_eqb k k') eqn:E.
    + apply str_eqb_eq in E. subst k'. split.
      * intros [Heq|Hin]; [congruence|].
        exfalso. apply Hnotin. apply (in_map fst) in Hin. exact Hin.
      * intros Heq. left. congruence.
    + rewrite <- (IH Hnd'). split; [|tauto].
      intros [Heq|Hin]; [|exact Hin].
      inversion Heq; subst. rewrite str_eqb_refl in E. discriminate.
Qed.

End NameCountFacts.

Lemma Counts_step (m : NameCount.t) (seen : list jsstring) (name : jsstring) :
  Counts m seen -> Counts (countName m name) (seen ++ [name]).
Proof.
  intros [Hnd Hget]. unfold countName. rewrite counted_not_blank.
  destruct (isBlank name) eqn:Eb; simpl.
  - split; [exact Hnd|]. intros k. rewrite Hget.
    destruct (isBlank k) eqn:Ek; [reflexivity|].
    rewrite count_occ_app. simpl.
    destruct (str_eq_dec name k) as [->|_]; [congruence|].
    rewrite Nat.add_0_r. reflexivity.
  - split; [apply NameCountFacts.NoDup_keys_set; exact Hnd|].
    intros k. destruct (str_eq_dec k name) as [->|Hne].
    + rewrite NameCountFacts.get_set_same, Eb, Hget, Eb.
      rewrite count_occ_app. simpl.
      destruct (str_eq_dec name name) as [_|N]; [|congruence].
      destruct (count_occ str_eq_dec seen name); simpl; f_equal; lia.
    + rewrite NameCountFacts.get_set_other by exact Hne.
      rewrite Hget, count_occ_app. simpl.
      destruct (str_eq_dec name k) as [E|_]; [congruence|].
      rewrite Nat.add_0_r. reflexivity.
Qed.

Lemma Counts_fold (names seen : list jsstring) (m : NameCount.t) :
  Counts m seen -> Counts (fold_left countName names m) (seen ++ names).
Proof.
  revert seen m. induction names as [|name names IH]; intros seen m H; simpl.
  - rewrite app_nil_r. exact H.
  - replace (seen ++ name :: names) with ((seen ++ [name]) ++ names)
      by (rewrite <- app_assoc; reflexivity).
    apply IH. apply Counts_step. exact H.
Qed.

Lemma Counts_all (names : list jsstring) :
  Counts (fold_left countName names []) names.
Proof.
  apply (Counts_fold names (seen := []) (m := [])).
  split; [constructor | intros k; simpl; destruct (isBlank k); reflexivity].
Qed.

Lemma findDuplicates_In (names : list jsstring) (n : jsstring) :
  In n (findDuplicates names)
  <-> isBlank n = false /\ 1 < count_occ str_eq_dec names n.
Proof.
  destruct (Counts_all names) as [Hnd Hget].
  unfold findDuplicates. rewrite in_map_iff. split.
  - intros [[k v] [Hk Hin]]. simpl in Hk. subst k.
    apply filter_In in Hin. destruct Hin as [Hin Hv]. simpl in Hv.
    apply Nat.ltb_lt in Hv.
    apply (NameCountFacts.In_get _ _ _ Hnd) in Hin. rewrite Hget in Hin.
    destruct (isBlank n); [discriminate|].
    destruct (count_occ str_eq_dec names n); [discriminate|].
    inversion Hin; subst. split; [reflexivity | exact Hv].
  - intros [Hb Hc]. exists (n, count_occ str_eq_dec names n). split; [reflexivity|].
    apply filter_In. split.
    + apply (NameCountFacts.In_get _ _ _ Hnd). rewrite Hget, Hb.
      destruct (count_occ str_eq_dec names n); [lia | reflexivity].
    + simpl. apply Nat.ltb_lt. exact Hc.
Qed.

Lemma NoDup_map_fst_filter {A B} (f : A * B -> bool) (m : list (A * B)) :
  NoDup (map fst m) -> NoDup (map fst (filter f m)).
Proof.
  induction m as [|[k v] m IH]; simpl; intros H; [constructor|].
  inversion H as [|? ? Hnotin Hnd]; subst.
  destruct (f (k, v)); simpl; [|apply IH; exact Hnd].
  constructor; [|apply IH; exact Hnd].
  intros Hin. apply Hnotin. apply in_map_iff in Hin.
  destruct Hin as [[k' v'] [Hk Hin]]. simpl in Hk. subst k'.
  apply filter_In in Hin. apply in_map_iff. exists (k, v'). split; [reflexivity | apply Hin].
Qed.

Lemma findDuplicates_NoDup (names : list jsstring) :
  NoDup (findDuplicates names).
Proof.
  destruct (Counts_all names) as [Hnd _].
  unfold findDuplicates.
  apply (NoDup_map_fst_filter (fun e => 1 <? snd e) _ Hnd).
Qed.

Lemma nothing_in_nil {A} (l : list A) : (forall x, ~ In x l) -> l = [].
Proof.
  destruct l as [|a l]; [reflexivity|].
  intros H. exfalso. apply (H a). left. reflexivity.
Qed.

(** Names made of spaces only, ASCII or ideographic, are not counted. *)
Example findDuplicates_blank_names :
  findDuplicates [ [32; 32]%N; [32; 32]%N; [12288]%N; [12288]%N; []; [] ] = [].
Proof. reflexivity. Qed.

(** C3. [findDuplicates] returns exactly the names that occur more than
    once in its list, blank names (empty or white space only) never being
    counted, each such name once; [checkForDuplicates] applies it to the
    packaging names and to the machine names separately, so that a name
    is a packaging duplicate by its count among the packaging names alone
    and likewise for machines; the empty list, the list holding one empty
    name and any list without a repeated name give no duplicate. *)
Theorem findDuplicates_exact (names : list jsstring) (data : OcrResult) :
  (forall n, In n (findDuplicates names)
             <-> isBlank n = false /\ 1 < count_occ str_eq_dec names n)
  /\ NoDup (findDuplicates names)
  /\ (forall n, In n (DuplicateCheck.packaging (checkForDuplicates data))
                <-> isBlank n = false
                    /\ 1 < count_occ str_eq_dec (map 氏名 (包装作業記録 data)) n)
  /\ (forall n, In n (DuplicateCheck.machine (checkForDuplicates data))
                <-> isBlank n = false
                    /\ 1 < count_occ str_eq_dec (map 氏名 (機械操作記録 data)) n)
  /\ findDuplicates [] = []
  /\ findDuplicates [ [] ] = []
  /\ (NoDup names -> findDuplicates names = []).
Proof.
  split; [apply findDuplicates_In|].
  split; [apply findDuplicates_NoDup|].
  split; [intros n; apply findDuplicates_In|].
  split; [intros n; apply findDuplicates_In|].
  split; [reflexivity|].
  split; [reflexivity|].
  intros Hnd. apply nothing_in_nil. intros n Hin.
  apply findDuplicates_In in Hin. destruct Hin as [_ Hc].
  pose proof (proj1 (NoDup_count_occ str_eq_dec names) Hnd n). lia.
Qed.

Lemma findDuplicates_exact_witness :
  findDuplicates [name_Sato; name_Tanaka] = []
  /\ findDuplicates [name_Sato; name_Tanaka; name_Sato] = [name_Sato]
  /\ DuplicateCheck.hasDuplicates
       (checkForDuplicates
          (report (Some approved)
             [worker name_Sato (Some approved) None]
             [worker name_Sato (Some approved) None])) = false.
Proof.
  split; [|split; reflexivity].
  apply (proj2 (proj2 (proj2 (proj2 (proj2 (proj2
    (findDuplicates_exact [name_Sato; name_Tanaka] SatoAndTanaka))))))).
  repeat constructor; simpl; intuition discriminate.
Defined.

(** ** The confirmation gate *)

Lemma statusIs_eq (s : ConfirmationStatus) (field : option ConfirmationStatus) :
  statusIs s field = true <-> field = Some s.
Proof.
  destruct field as [[]|]; destruct s; simpl; split; congruence.
Qed.

Lemma existsb_id_map {A} (f : A -> bool) (l : list A) :
  existsb (fun b : bool => b) (map f l) = existsb f l.
Proof.
  induction l as [|a l IH]; simpl; [reflexivity | rewrite IH; reflexivity].
Qed.

Lemma existsb_status (s : ConfirmationStatus) (records : list WorkerRecord) :
  existsb (fun r => statusIs s (nameConfirmationStatus r)) records = true
  <-> exists r, In r records /\ nameConfirmationStatus r = Some s.
Proof.
  rewrite existsb_exists. split; intros [r [Hin H]]; exists r; split;
    try exact Hin; apply statusIs_eq; exact H.
Qed.

Lemma hasPendingNames_spec (data : OcrResult) :
  hasPendingNames data = true
  <-> (exists r, In r (包装作業記録 data) /\ nameConfirmationStatus r = Some pending)
      \/ (exists r, In r (機械操作記録 data) /\ nameConfirmationStatus r = Some pending).
Proof.
  unfold hasPendingNames.
  rewrite existsb_app, !existsb_id_map, orb_true_iff, !existsb_status.
  reflexivity.
Qed.

Lemma hasEditingItems_spec (data : OcrResult) :
  hasEditingItems data = true
  <-> productConfirmationStatus (ヘッダー data) = Some editing
      \/ (exists r, In r (包装作業記録 data) /\ nameConfirmationStatus r = Some editing)
      \/ (exists r, In r (機械操作記録 data) /\ nameConfirmationStatus r = Some editing).
Proof.
  unfold hasEditingItems. cbn [existsb].
  rewrite existsb_app, !existsb_id_map, !orb_true_iff, !existsb_status, statusIs_eq.
  reflexivity.
Qed.

(** The two tests of lines 657-678 together are the absence of an
    unconfirmed field. *)
Lemma confirmation_gate (data : OcrResult) :
  (hasPendingProduct data || hasPendingNames data) || hasEditingItems data = true
  <-> HasUnconfirmedField data.
Proof.
  rewrite !orb_true_iff, hasPendingNames_spec, hasEditingItems_spec.
  unfold hasPendingProduct. rewrite statusIs_eq.
  unfold HasUnconfirmedField, Unconfirmed. split.
  - intros [[H|[[r [Hin H]]|[r [Hin H]]]]|[H|[[r [Hin H]]|[r [Hin H]]]]]; eauto 6.
  - intros [[H|H]|[[r [Hin [H|H]]]|[r [Hin [H|H]]]]]; eauto 8.
Qed.

Lemma handleSave_stopped (w : World) (data : OcrResult) :
  (hasPendingProduct data || hasPendingNames data) || hasEditingItems data = true
  <-> StoppedAtConfirmation w data.
Proof.
  unfold StoppedAtConfirmation.
  destruct (hasPendingProduct data || hasPendingNames data) eqn:P.
  - unfold handleSave. rewrite P.
    split; [left; reflexivity | reflexivity].
  - destruct (hasEditingItems data) eqn:E.
    + unfold handleSave. rewrite P, E.
      split; [right; reflexivity | reflexivity].
    + split; [discriminate|].
      unfold handleSave. rewrite P, E. cbv zeta.
      destruct (DuplicateCheck.hasDuplicates (checkForDuplicates data));
        intros [H|H]; discriminate H.
Qed.

Lemma handleSave_through (w : World) (data : OcrResult) :
  passesGates data = true ->
  handleSave w data =
  SetIsSaving true :: CallCheckExistingData data ::
  match checkExistingData w data with
  | ProbeResolved existingDataMap =>
      if existsb (fun hasData : bool => hasData) (map snd existingDataMap) then
        [ SetOverwriteCallback (Some (PerformSave data));
          SetConfirmDialogOpen true;
          SetIsSaving false ]
      else performSave w data
  | ProbeRejected error =>
      ConsoleError ExistingDataCheck error :: performSave w data
  end.
Proof.
  unfold passesGates, handleSave. intros H.
  apply andb_true_iff in H. destruct H as [H Hdup].
  apply andb_true_iff in H. destruct H as [Hpend Hedit].
  apply negb_true_iff in Hdup, Hpend, Hedit.
  rewrite Hpend, Hedit, Hdup. reflexivity.
Qed.

(** C1 (amended). [handleSave] stops at the confirmation gate, with an
    alert and nothing else (no request is sent and no state variable is
    set), exactly when the product status or the name status of some
    packaging or machine record is [pending] or [editing].  With no such
    field the save can still stop before any request: when a list has a
    repeated name [handleSave] records the duplicates and opens the
    duplicate dialog; otherwise it raises the saving flag and sends the
    existence probe. *)
Theorem handleSave_confirmation_gate (w : World) (data : OcrResult) :
  (StoppedAtConfirmation w data <-> HasUnconfirmedField data)
  /\ (HasUnconfirmedField data ->
      existsb isExternalCall (handleSave w data) = false
      /\ forall st, run st (handleSave w data) = st)
  /\ (~ HasUnconfirmedField data ->
      if DuplicateCheck.hasDuplicates (checkForDuplicates data) then
        handleSave w data =
        [ SetDuplicateInfo
            (Some {| DuplicateInfo.packaging :=
                       findDuplicates (map 氏名 (包装作業記録 data));
                     DuplicateInfo.machine :=
                       findDuplicates (map 氏名 (機械操作記録 data)) |});
          SetDuplicateDialogOpen true ]
      else
        exists rest,
          handleSave w data = SetIsSaving true :: CallCheckExistingData data :: rest).
Proof.
  split; [|split].
  - rewrite <- handleSave_stopped. apply confirmation_gate.
  - intros H. apply confirmation_gate in H.
    apply (handleSave_stopped w) in H.
    destruct H as [H|H]; rewrite H; split; reflexivity.
  - intros H.
    destruct ((hasPendingProduct data || hasPendingNames data)
              || hasEditingItems data) eqn:G.
    + exfalso. apply H. apply confirmation_gate. exact G.
    + apply orb_false_iff in G. destruct G as [Hpend Hedit].
      destruct (DuplicateCheck.hasDuplicates (checkForDuplicates data)) eqn:D.
      * unfold handleSave. rewrite Hpend, Hedit, D. reflexivity.
      * eexists. apply handleSave_through.
        unfold passesGates. rewrite Hpend, Hedit, D. reflexivity.
Qed.

(** The header is [pending] and every worker is [approved]: the save
    stops and the state is as it was. *)
Lemma handleSave_confirmation_gate_witness :
  run (initialState
         (report (Some pending) [worker name_Sato (Some approved) None] []))
      (handleSave (world (ProbeResolved []) (CommitResolved None))
         (report (Some pending) [worker name_Sato (Some approved) None] []))
  = initialState
      (report (Some pending) [worker name_Sato (Some approved) None] []).
Proof.
  apply (proj1 (proj2 (handleSave_confirmation_gate
                         (world (ProbeResolved []) (CommitResolved None))
                         (report (Some pending)
                            [worker name_Sato (Some approved) None] [])))).
  left. left. reflexivity.
Defined.

(** C1 as stated fails: every field is [approved] and a name occurs
    twice; the save is blocked, with the duplicate dialog and before any
    request, although no field is [pending] or [editing]. *)
Lemma handleSave_blocked_without_unconfirmed_field :
  ~ (SaveBlocked (world (ProbeResolved []) (CommitResolved None)) SatoTwice
     <-> HasUnconfirmedField SatoTwice).
Proof.
  intros [H _].
  assert (B : SaveBlocked (world (ProbeResolved []) (CommitResolved None)) SatoTwice)
    by (split; reflexivity).
  apply H in B. unfold HasUnconfirmedField, Unconfirmed in B. simpl in B.
  destruct B as [[B|B]|[[r [Hin [B|B]]]|[r [[] _]]]]; try discriminate B;
    destruct Hin as [<-|[<-|[]]]; discriminate B.
Qed.

(** ** Added records at the confirmation gate *)

Lemma spliceInsert_split {A} (records : list A) (position : Z) (item : A) :
  exists before after,
    records = before ++ after
    /\ spliceInsert records position item = before ++ item :: after.
Proof.
  unfold spliceInsert.
  set (start := Z.to_nat _).
  exists (firstn start records), (skipn start records).
  split; [symmetry; apply firstn_skipn | reflexivity].
Qed.

Lemma existsb_insert {A} (f : A -> bool) (before after : list A) (item : A) :
  existsb f (before ++ item :: after) = f item || existsb f (before ++ after).
Proof.
  rewrite !existsb_app. simpl.
  destruct (existsb f before), (f item); reflexivity.
Qed.

Lemma handleSave_pending_name (w : World) (data : OcrResult) :
  hasPendingNames data = true -> handleSave w data = [Alert UnconfirmedItems].
Proof.
  intros H. unfold handleSave. rewrite H, orb_true_r. reflexivity.
Qed.

(** A packaging record without a status, put anywhere in the packaging
    list, changes neither test of the gate. *)
Lemma gate_ignores_unset_status (data data' : OcrResult)
    (before after : list WorkerRecord) (item : WorkerRecord) :
  nameConfirmationStatus item = None ->
  ヘッダー data' = ヘッダー data ->
  機械操作記録 data' = 機械操作記録 data ->
  包装作業記録 data = before ++ after ->
  包装作業記録 data' = before ++ item :: after ->
  (hasPendingProduct data' || hasPendingNames data') || hasEditingItems data'
  = (hasPendingProduct data || hasPendingNames data) || hasEditingItems data.
Proof.
  intros Hnone Hh Hm Hp Hp'.
  unfold hasPendingProduct, hasPendingNames, hasEditingItems. cbn [existsb].
  rewrite !existsb_app, !existsb_id_map, Hh, Hm, Hp, Hp', !existsb_insert, Hnone.
  reflexivity.
Qed.

(** C10. The record made by [addPackagingRecord] and
    [addPackagingRecordAtPosition] has an empty name and no
    [nameConfirmationStatus]; wherever it is put, the confirmation gate
    stops the save with it exactly when it stopped the save without it.
    The record made by [addMachineRecord] and [addMachineRecordAtPosition]
    has an empty name and the status [pending], and the gate stops the
    save as long as a machine record is [pending]. *)
Theorem added_records_at_the_gate (w : World) (data : OcrResult) (position : Z) :
  (氏名 newPackagingRecord = [] /\ nameConfirmationStatus newPackagingRecord = None
   /\ statusIs pending (nameConfirmationStatus newPackagingRecord) = false
   /\ statusIs editing (nameConfirmationStatus newPackagingRecord) = false)
  /\ (exists data',
        addPackagingRecord data = [SetEditedData data'; SetHasChanges true]
        /\ 包装作業記録 data' = newPackagingRecord :: 包装作業記録 data
        /\ (StoppedAtConfirmation w data' <-> StoppedAtConfirmation w data))
  /\ (exists data' before after,
        addPackagingRecordAtPosition data position
        = [SetEditedData data'; SetHasChanges true]
        /\ 包装作業記録 data = before ++ after
        /\ 包装作業記録 data' = before ++ newPackagingRecord :: after
        /\ (StoppedAtConfirmation w data' <-> StoppedAtConfirmation w data))
  /\ (氏名 (newMachineRecord data) = []
      /\ nameConfirmationStatus (newMachineRecord data) = Some pending)
  /\ (exists data',
        addMachineRecord data = [SetEditedData data'; SetHasChanges true]
        /\ 機械操作記録 data' = newMachineRecord data :: 機械操作記録 data
        /\ handleSave w data' = [Alert UnconfirmedItems])
  /\ (exists data' before after,
        addMachineRecordAtPosition data position
        = [SetEditedData data'; SetHasChanges true]
        /\ 機械操作記録 data = before ++ after
        /\ 機械操作記録 data' = before ++ newMachineRecord data :: after
        /\ handleSave w data' = [Alert UnconfirmedItems])
  /\ (forall later r,
        In r (機械操作記録 later) -> nameConfirmationStatus r = Some pending ->
        handleSave w later = [Alert UnconfirmedItems]).
Proof.
  assert (Hmachine : 氏名 (newMachineRecord data) = []
                     /\ nameConfirmationStatus (newMachineRecord data) = Some pending)
    by (unfold newMachineRecord; destruct (機械操作記録 data); split; reflexivity).
  assert (Hlater : forall later r,
             In r (機械操作記録 later) -> nameConfirmationStatus r = Some pending ->
             handleSave w later = [Alert UnconfirmedItems]).
  { intros later r Hin Hr. apply handleSave_pending_name.
    apply hasPendingNames_spec. right. exists r. split; assumption. }
  split; [repeat split|].
  split.
  { eexists. split; [reflexivity|]. split; [reflexivity|].
    rewrite <- !handleSave_stopped.
    rewrite (@gate_ignores_unset_status data _ [] (包装作業記録 data) newPackagingRecord);
      reflexivity. }
  split.
  { destruct (spliceInsert_split (包装作業記録 data) position newPackagingRecord)
      as [before [after [Hsplit Hins]]].
    eexists. exists before, after.
    split; [reflexivity|]. split; [exact Hsplit|]. split; [exact Hins|].
    rewrite <- !handleSave_stopped.
    rewrite (@gate_ignores_unset_status data _ before after newPackagingRecord);
      try reflexivity; assumption. }
  split; [exact Hmachine|].
  split.
  { eexists. split; [reflexivity|]. split; [reflexivity|].
    apply (Hlater _ (newMachineRecord data)); [left; reflexivity | apply Hmachine]. }
  split; [|exact Hlater].
  destruct (spliceInsert_split (機械操作記録 data) position (newMachineRecord data))
    as [before [after [Hsplit Hins]]].
  eexists. exists before, after.
  split; [reflexivity|]. split; [exact Hsplit|]. split; [exact Hins|].
  apply (Hlater _ (newMachineRecord data)); [|apply Hmachine].
  cbn [機械操作記録]. rewrite Hins. apply in_or_app. right. left. reflexivity.
Qed.

(** Sato is approved in both lists and a machine record is [pending]. *)
Lemma added_records_at_the_gate_witness :
  handleSave (world (ProbeResolved []) (CommitResolved None))
    (report (Some approved)
       [worker name_Sato (Some approved) None]
       [worker name_Sato (Some approved) None; worker name_Tanaka (Some pending) None])
  = [Alert UnconfirmedItems].
Proof.
  apply (proj2 (proj2 (proj2 (proj2 (proj2 (proj2
           (added_records_at_the_gate
              (world (ProbeResolved []) (CommitResolved None)) SatoAndTanaka 0)))))))
    with (r := worker name_Tanaka (Some pending) None).
  - right. left. reflexivity.
  - reflexivity.
Defined.

(** ** Master-data reconciliation *)

Lemma matches_spec (value : jsstring) (master : list jsstring)
    (marker : option jsstring) :
  truthy value && includes master value && flagged marker = true
  <-> Reconcilable value master marker.
Proof.
  unfold Reconcilable.
  rewrite !andb_true_iff, truthy_nonempty, includes_In. tauto.
Qed.

Lemma reconcileRecord_spec (masterData : MasterData) (r : WorkerRecord) :
  ReconciledName masterData r (reconcileRecord masterData r).
Proof.
  unfold ReconciledName, reconcileRecord.
  destruct (nameMatches masterData r) eqn:E.
  - apply matches_spec in E. cbn.
    split; [intros _; repeat split|].
    split; [intros N; contradiction|].
    split; [reflexivity | discriminate].
  - assert (N : ~ Reconcilable _ _ _)
      by (intros N; apply matches_spec in N; unfold nameMatches in E; rewrite N in E;
          discriminate E).
    split; [intros R; contradiction|].
    split; [reflexivity|]. split; intros S; exact S.
Qed.

Lemma reconcileHeader_spec (masterData : MasterData) (h : Header) :
  ReconciledProduct masterData h (reconcileHeader masterData h).
Proof.
  unfold ReconciledProduct, reconcileHeader.
  destruct (productMatches masterData h) eqn:E.
  - apply matches_spec in E. cbn.
    split; [intros _; repeat split|].
    split; [intros N; contradiction|].
    split; [reflexivity | discriminate].
  - assert (N : ~ Reconcilable _ _ _)
      by (intros N; apply matches_spec in N; unfold productMatches in E; rewrite N in E;
          discriminate E).
    split; [intros R; contradiction|].
    split; [reflexivity|]. split; intros S; exact S.
Qed.

Lemma reconcileRecords_spec (masterData : MasterData) (records : list WorkerRecord) :
  ReconciledNames masterData records (map (reconcileRecord masterData) records).
Proof.
  split; [apply length_map|].
  intros i r H. exists (reconcileRecord masterData r). split.
  - rewrite nth_error_map, H. reflexivity.
  - apply reconcileRecord_spec.
Qed.

Lemma reconcileRecords_unchanged (masterData : MasterData) (records : list WorkerRecord) :
  existsb (nameMatches masterData) records = false ->
  map (reconcileRecord masterData) records = records.
Proof.
  induction records as [|r records IH]; simpl; [reflexivity|].
  intros H. apply orb_false_iff in H. destruct H as [Hr Hrest].
  unfold reconcileRecord at 1. rewrite Hr, (IH Hrest). reflexivity.
Qed.

(** The state after the effect holds the reconciled report, whether or
    not [setEditedData] had to be called. *)
Lemma reconcileMasterData_state (st : AppState) (data : OcrResult)
    (masterData : MasterData) :
  editedData st = Some data ->
  editedData (run st (reconcileMasterData (editedData st) (Some masterData) false))
  = Some {| ヘッダー := reconcileHeader masterData (ヘッダー data);
            包装作業記録 := map (reconcileRecord masterData) (包装作業記録 data);
            機械操作記録 := map (reconcileRecord masterData) (機械操作記録 data) |}.
Proof.
  intros H. rewrite H. unfold reconcileMasterData.
  destruct (productMatches masterData (ヘッダー data)
            || existsb (nameMatches masterData) (包装作業記録 data)
            || existsb (nameMatches masterData) (機械操作記録 data)) eqn:E.
  - reflexivity.
  - apply orb_false_iff in E. destruct E as [E Hm].
    apply orb_false_iff in E. destruct E as [Hh Hp].
    simpl. rewrite H. unfold reconcileHeader. rewrite Hh.
    rewrite (reconcileRecords_unchanged _ _ Hp), (reconcileRecords_unchanged _ _ Hm).
    destruct data; reflexivity.
Qed.

(** C2. When the master data is there, the reconciliation effect leaves
    a report in which, for the product field and for every name field of
    both lists: a field whose value is not empty, is in its master set
    (products for the product, employees for names) and carries an error
    marker has lost the marker and is [approved]; any other field is
    exactly as it was.  No [approved] field leaves [approved] and no field
    becomes [pending]. *)
Theorem reconciliation_per_field (st : AppState) (data : OcrResult)
    (masterData : MasterData) :
  editedData st = Some data ->
  exists data',
    editedData (run st (reconcileMasterData (editedData st) (Some masterData) false))
    = Some data'
    /\ ReconciledProduct masterData (ヘッダー data) (ヘッダー data')
    /\ ReconciledNames masterData (包装作業記録 data) (包装作業記録 data')
    /\ ReconciledNames masterData (機械操作記録 data) (機械操作記録 data').
Proof.
  intros H. eexists. split; [apply reconcileMasterData_state; exact H|].
  cbn [ヘッダー 包装作業記録 機械操作記録].
  split; [apply reconcileHeader_spec|].
  split; apply reconcileRecords_spec.
Qed.

Lemma reconciliation_per_field_witness :
  exists data',
    editedData (run (initialState flaggedReport)
                  (reconcileMasterData (editedData (initialState flaggedReport))
                     (Some knownMasterData) false))
    = Some data'
    /\ ReconciledProduct knownMasterData (ヘッダー flaggedReport) (ヘッダー data')
    /\ ReconciledNames knownMasterData (包装作業記録 flaggedReport) (包装作業記録 data')
    /\ ReconciledNames knownMasterData (機械操作記録 flaggedReport) (機械操作記録 data').
Proof.
  apply (reconciliation_per_field (initialState flaggedReport) knownMasterData).
  reflexivity.
Defined.

(** The same run, evaluated: the product and both flagged Sato records
    are cleared and approved, Tanaka keeps marker and status. *)
Example reconciliation_evaluated :
  editedData (run (initialState flaggedReport)
                (reconcileMasterData (Some flaggedReport) (Some knownMasterData) false))
  = Some {| ヘッダー := header (Some approved) None;
            包装作業記録 :=
              [ worker name_Sato (Some approved) None;
                worker name_Tanaka (Some pending) (Some marker_unknown) ];
            機械操作記録 :=
              [ worker name_Sato (Some approved) None;
                worker name_Sato (Some approved) None ] |}.
Proof. reflexivity. Qed.

(** ** Accounting period *)

(** C6. The accounting period of a work date: up to the 20th of the
    month it is the previous calendar month, which for January is December
    of the previous year; from the 21st on it is the month of the date.
    20 February 2024 gives (2024, 1), 21 February 2024 gives (2024, 2) and
    5 January 2024 gives (2023, 12). *)
Theorem accountingPeriod_rule (workDate : JSDate) :
  let year := getFullYear workDate in
  let month := (getMonth workDate + 1)%Z in
  let day := getDate workDate in
  ((day <= 20)%Z -> month = 1%Z ->
   accountingPeriod workDate = ((year - 1)%Z, 12%Z))
  /\ ((day <= 20)%Z -> month <> 1%Z ->
      accountingPeriod workDate = (year, (month - 1)%Z))
  /\ ((20 < day)%Z -> accountingPeriod workDate = (year, month))
  /\ ((day <= 20)%Z -> (1 <= month <= 12)%Z ->
      accountingPeriod workDate = previousCalendarMonth year month)
  /\ accountingPeriod {| getFullYear := 2024; getMonth := 1; getDate := 20 |}
     = (2024%Z, 1%Z)
  /\ accountingPeriod {| getFullYear := 2024; getMonth := 1; getDate := 21 |}
     = (2024%Z, 2%Z)
  /\ accountingPeriod {| getFullYear := 2024; getMonth := 0; getDate := 5 |}
     = (2023%Z, 12%Z)
  /\ accountingPeriod {| getFullYear := 2024; getMonth := 0; getDate := 15 |}
     = (2023%Z, 12%Z)
  /\ accountingPeriod {| getFullYear := 2024; getMonth := 0; getDate := 25 |}
     = (2024%Z, 1%Z).
Proof.
  cbv zeta. unfold accountingPeriod, previousCalendarMonth.
  repeat match goal with |- _ /\ _ => split end; try reflexivity.
  - intros Hd Hm. apply Z.leb_le in Hd. apply Z.eqb_eq in Hm.
    rewrite Hd, Hm. reflexivity.
  - intros Hd Hm. apply Z.leb_le in Hd. apply Z.eqb_neq in Hm.
    rewrite Hd, Hm. reflexivity.
  - intros Hd. apply Z.leb_gt in Hd. rewrite Hd. reflexivity.
  - intros Hd Hm. apply Z.leb_le in Hd. rewrite Hd.
    destruct (Z.eqb_spec (getMonth workDate + 1) 1) as [E|E];
      f_equal; Z.div_mod_to_equations; lia.
Qed.

Lemma accountingPeriod_rule_witness :
  accountingPeriod {| getFullYear := 2024; getMonth := 0; getDate := 5 |}
  = previousCalendarMonth 2024 1.
Proof.
  apply (proj1 (proj2 (proj2 (proj2
    (accountingPeriod_rule {| getFullYear := 2024; getMonth := 0; getDate := 5 |})))));
    simpl; lia.
Defined.

(** ** Partial failure of the commit *)

Lemma filter_Subsequence {A} (f : A -> bool) (l : list A) :
  Subsequence (filter f l) l.
Proof.
  induction l as [|a l IH]; simpl; [constructor|].
  destruct (f a); constructor; exact IH.
Qed.

Lemma filter_includes_In (failed : list jsstring) (records : list WorkerRecord)
    (r : WorkerRecord) :
  In r (filter (fun record => includes failed (氏名 record)) records)
  <-> In r records /\ In (氏名 r) failed.
Proof. rewrite filter_In, includes_In. reflexivity. Qed.

Lemma performSave_partial (w : World) (data : OcrResult) (failed : list jsstring) :
  saveToPersonalSheets w data
  = CommitResolved (Some {| SaveResult.failedWorkers := Some failed |}) ->
  failed <> [] ->
  performSave w data =
  [ SetIsSaving true;
    CallSaveToPersonalSheets data;
    SetFailedWorkers failed;
    SetEditedData
      {| ヘッダー := ヘッダー data;
         包装作業記録 :=
           filter (fun record => includes failed (氏名 record)) (包装作業記録 data);
         機械操作記録 :=
           filter (fun record => includes failed (氏名 record)) (機械操作記録 data) |};
    SetMissingSheetMessage
      {| periodYear := fst (accountingPeriod (newDate w (作業日 (ヘッダー data))));
         periodMonth := snd (accountingPeriod (newDate w (作業日 (ヘッダー data))));
         workers := failed |};
    SetMissingSheetDialogOpen true;
    SetIsSaving false ].
Proof.
  intros H Hne. unfold performSave, performSaveSettled. rewrite H.
  destruct failed as [|name names]; [congruence | reflexivity].
Qed.

(** C4. When the commit reports a non-empty [failedWorkers], the report
    left by [performSave] keeps, in both lists, exactly the records whose
    name is among the failed workers, in their original order, and drops
    the others; the saving flag ends [false]; nothing navigates away. *)
Theorem partial_failure_narrows (w : World) (st : AppState) (data : OcrResult)
    (failed : list jsstring) :
  saveToPersonalSheets w data
  = CommitResolved (Some {| SaveResult.failedWorkers := Some failed |}) ->
  failed <> [] ->
  exists data',
    editedData (run st (performSave w data)) = Some data'
    /\ ヘッダー data' = ヘッダー data
    /\ 包装作業記録 data'
       = filter (fun r => includes failed (氏名 r)) (包装作業記録 data)
    /\ 機械操作記録 data'
       = filter (fun r => includes failed (氏名 r)) (機械操作記録 data)
    /\ (forall r, In r (包装作業記録 data')
                  <-> In r (包装作業記録 data) /\ In (氏名 r) failed)
    /\ (forall r, In r (機械操作記録 data')
                  <-> In r (機械操作記録 data) /\ In (氏名 r) failed)
    /\ Subsequence (包装作業記録 data') (包装作業記録 data)
    /\ Subsequence (機械操作記録 data') (機械操作記録 data)
    /\ isSaving (run st (performSave w data)) = false
    /\ failedWorkers (run st (performSave w data)) = failed
    /\ missingSheetDialogOpen (run st (performSave w data)) = true
    /\ (forall path, ~ In (Navigate path) (performSave w data)).
Proof.
  intros H Hne. rewrite (performSave_partial w data H Hne).
  eexists. split; [reflexivity|]. cbn [ヘッダー 包装作業記録 機械操作記録].
  split; [reflexivity|]. split; [reflexivity|]. split; [reflexivity|].
  split; [intros r; apply filter_includes_In|].
  split; [intros r; apply filter_includes_In|].
  split; [apply filter_Subsequence|].
  split; [apply filter_Subsequence|].
  split; [reflexivity|]. split; [reflexivity|]. split; [reflexivity|].
  intros path Hin. simpl in Hin.
  repeat (destruct Hin as [Hin|Hin]; [discriminate Hin|]). exact Hin.
Qed.

(** The scenario of the specification: Sato and Tanaka are packaging
    workers and the commit reports Tanaka as failed. *)
Lemma partial_failure_narrows_witness :
  exists data',
    editedData (run (initialState SatoAndTanaka)
                  (performSave (world (ProbeResolved []) OnlyTanakaFailed)
                     SatoAndTanaka))
    = Some data'
    /\ 包装作業記録 data' = [worker name_Tanaka (Some approved) None]
    /\ isSaving (run (initialState SatoAndTanaka)
                   (performSave (world (ProbeResolved []) OnlyTanakaFailed)
                      SatoAndTanaka))
       = false.
Proof.
  destruct (@partial_failure_narrows
              (world (ProbeResolved []) OnlyTanakaFailed)
              (initialState SatoAndTanaka) SatoAndTanaka [name_Tanaka]
              eq_refl ltac:(discriminate))
    as [data' [Hdata [_ [Hpack [_ [_ [_ [_ [_ [Hsaving _]]]]]]]]]].
  exists data'. split; [exact Hdata|]. split; [rewrite Hpack; reflexivity | exact Hsaving].
Defined.

(** ** The saving flag and the existence probe *)

Lemma run_app (st : AppState) (first second : list Effect) :
  run st (first ++ second) = run (run st first) second.
Proof. apply fold_left_app. Qed.

(** The three ways [performSave] can go on once the request has settled,
    none of which lowers the flag before the last effect, opens the
    overwrite dialog or sends a request. *)
Lemma performSaveSettled_shape (w : World) (data : OcrResult) :
  exists body,
    performSaveSettled w data = body ++ [SetIsSaving false]
    /\ existsb lowersFlag body = false
    /\ existsb opensOverwriteDialog body = false
    /\ existsb isExternalCall body = false.
Proof.
  unfold performSaveSettled.
  destruct (saveToPersonalSheets w data) as [result|error].
  - destruct (reportedFailures result) as [failed|];
      eexists; split; try reflexivity; repeat split.
  - eexists. split; [reflexivity | repeat split].
Qed.

Lemma flag_stays_up (body : list Effect) (st : AppState) (k : nat) :
  isSaving st = true -> existsb lowersFlag body = false ->
  isSaving (run st (firstn k body)) = true.
Proof.
  revert st k. induction body as [|e body IH]; intros st k Hst Hbody.
  - rewrite firstn_nil. exact Hst.
  - destruct k as [|k]; [exact Hst|].
    simpl in Hbody. apply orb_false_iff in Hbody. destruct Hbody as [He Hbody].
    simpl. apply IH; [|exact Hbody].
    destruct e as [| | [] | | | | | | | | | | | | | |]; simpl;
      try exact Hst; try reflexivity; discriminate He.
Qed.

(** A trace that raises the flag first, lowers it last and never in
    between keeps it up at every point inside. *)
Lemma raised_then_lowered (st : AppState) (body : list Effect) :
  existsb lowersFlag body = false ->
  SavingThroughout st (SetIsSaving true :: body ++ [SetIsSaving false])
  /\ isSaving (run st (SetIsSaving true :: body ++ [SetIsSaving false])) = false.
Proof.
  intros Hbody. split.
  - intros k [Hpos Hlt]. destruct k as [|k]; [lia|].
    simpl in Hlt. rewrite length_app in Hlt. simpl in Hlt.
    cbn [firstn]. rewrite firstn_app.
    replace (k - length body) with 0 by lia.
    rewrite firstn_O, app_nil_r.
    change (run st (SetIsSaving true :: firstn k body))
      with (run (perform st (SetIsSaving true)) (firstn k body)).
    apply flag_stays_up; [reflexivity | exact Hbody].
  - change (SetIsSaving true :: body ++ [SetIsSaving false])
      with ((SetIsSaving true :: body) ++ [SetIsSaving false]).
    rewrite run_app. reflexivity.
Qed.

Lemma existsb_false_app {A} (f : A -> bool) (l1 l2 : list A) :
  existsb f l1 = false -> existsb f l2 = false -> existsb f (l1 ++ l2) = false.
Proof. intros H1 H2. rewrite existsb_app, H1, H2. reflexivity. Qed.

Lemma performSave_opens_no_dialog (w : World) (data : OcrResult) :
  existsb opensOverwriteDialog (performSave w data) = false.
Proof.
  destruct (performSaveSettled_shape w data) as [body [Hshape [_ [Hdialog _]]]].
  unfold performSave. rewrite Hshape.
  repeat apply existsb_false_app; try reflexivity. exact Hdialog.
Qed.

(** C5. When the existence probe throws, [handleSave] logs the error
    with [console.error] and goes on to [performSave]: the commit request
    is sent, the overwrite dialog is not opened, the only alerts are those
    of [performSave] itself, and what follows the log is what follows a
    probe that found no existing data. *)
Theorem probe_failure_fails_open (w : World) (data : OcrResult) (error : Thrown) :
  passesGates data = true ->
  checkExistingData w data = ProbeRejected error ->
  handleSave w data
  = SetIsSaving true :: CallCheckExistingData data
    :: ConsoleError ExistingDataCheck error :: performSave w data
  /\ In (CallSaveToPersonalSheets data) (handleSave w data)
  /\ existsb opensOverwriteDialog (handleSave w data) = false
  /\ (forall text, In (Alert text) (handleSave w data) ->
                   In (Alert text) (performSave w data))
  /\ (forall st, confirmDialogOpen (run st (handleSave w data)) = confirmDialogOpen st
                 /\ overwriteCallback (run st (handleSave w data)) = overwriteCallback st)
  /\ (forall w' existingDataMap,
        checkExistingData w' data = ProbeResolved existingDataMap ->
        existsb (fun hasData : bool => hasData) (map snd existingDataMap) = false ->
        newDate w' (作業日 (ヘッダー data)) = newDate w (作業日 (ヘッダー data)) ->
        saveToPersonalSheets w' data = saveToPersonalSheets w data ->
        handleSave w' data
        = SetIsSaving true :: CallCheckExistingData data :: performSave w data
        /\ forall st, run st (handleSave w data) = run st (handleSave w' data)).
Proof.
  intros Hgates Hprobe.
  assert (Hsave : handleSave w data
                  = SetIsSaving true :: CallCheckExistingData data
                    :: ConsoleError ExistingDataCheck error :: performSave w data)
    by (rewrite (handleSave_through w data Hgates), Hprobe; reflexivity).
  rewrite Hsave.
  split; [reflexivity|].
  split; [right; right; right; right; left; reflexivity|].
  split; [apply (performSave_opens_no_dialog w data)|].
  split.
  { intros text [H|[H|[H|H]]]; try discriminate H. exact H. }
  split.
  { intros st. unfold performSave, performSaveSettled.
    destruct (saveToPersonalSheets w data) as [result|e];
      [destruct (reportedFailures result)|]; split; reflexivity. }
  intros w' existingDataMap Hprobe' Hnone Hdate Hcommit.
  assert (Hsame : performSave w' data = performSave w data)
    by (unfold performSave, performSaveSettled; rewrite Hdate, Hcommit; reflexivity).
  assert (Hsave' : handleSave w' data
                   = SetIsSaving true :: CallCheckExistingData data :: performSave w data)
    by (rewrite (handleSave_through w' data Hgates), Hprobe', Hnone, Hsame;
        reflexivity).
  split; [exact Hsave'|].
  intros st. rewrite Hsave'. reflexivity.
Qed.

(** The probe is rejected with a network error and the commit then
    succeeds: the save goes through to the success page. *)
Lemma probe_failure_fails_open_witness :
  handleSave (world (ProbeRejected probeFailure) (CommitResolved None)) SatoAndTanaka
  = [ SetIsSaving true;
      CallCheckExistingData SatoAndTanaka;
      ConsoleError ExistingDataCheck probeFailure;
      SetIsSaving true;
      CallSaveToPersonalSheets SatoAndTanaka;
      SetSuccess; SetCurrentStep 4; Navigate "/success";
      SetIsSaving false ].
Proof.
  apply (proj1 (@probe_failure_fails_open
                  (world (ProbeRejected probeFailure) (CommitResolved None))
                  SatoAndTanaka probeFailure eq_refl eq_refl)).
Defined.

Lemma direct_save (w : World) (st : AppState) (data : OcrResult)
    (logged : list Effect) :
  existsb lowersFlag logged = false ->
  handleSave w data
  = SetIsSaving true :: CallCheckExistingData data :: logged ++ performSave w data ->
  SavedDirectly w st data.
Proof.
  intros Hlogged Hsave.
  destruct (performSaveSettled_shape w data) as [body [Hshape [Hbody _]]].
  assert (Htrace : handleSave w data
                   = SetIsSaving true
                     :: (CallCheckExistingData data :: logged
                          ++ performSaveCall data ++ body)
                     ++ [SetIsSaving false]).
  { rewrite Hsave. unfold performSave. rewrite Hshape.
    cbn [app]. rewrite <- !app_assoc. reflexivity. }
  assert (Hheld : existsb lowersFlag
                    (CallCheckExistingData data :: logged
                       ++ performSaveCall data ++ body) = false).
  { cbn [existsb lowersFlag orb].
    repeat apply existsb_false_app; try assumption; reflexivity. }
  unfold SavedDirectly. rewrite Htrace.
  destruct (raised_then_lowered st _ Hheld) as [Hthrough Hend].
  split; [exact Hthrough|]. split; [right; left; reflexivity|].
  split; [|exact Hend].
  right. apply in_or_app. left. right. apply in_or_app. right.
  apply in_or_app. left. right. left. reflexivity.
Qed.

(** C9 (amended). Once the gates are passed, [handleSave] raises the
    saving flag before it sends the existence probe.  If the probe finds
    no existing data, or fails, the flag stays up at every point until the
    commit has settled and is lowered then.  If the probe finds existing
    data, [handleSave] stores the commit, opens the overwrite dialog and
    lowers the flag: the flag is down while the dialog waits; confirming
    raises it again before the commit request and lowers it once the
    commit has settled; cancelling sends nothing and leaves it down. *)
Theorem saving_flag_over_a_save (w : World) (st : AppState) (data : OcrResult) :
  passesGates data = true ->
  match checkExistingData w data with
  | ProbeResolved existingDataMap =>
      if existsb (fun hasData : bool => hasData) (map snd existingDataMap)
      then SuspendedForConfirmation w st data
      else SavedDirectly w st data
  | ProbeRejected _ => SavedDirectly w st data
  end.
Proof.
  intros Hgates. pose proof (handleSave_through w data Hgates) as Hsave.
  destruct (checkExistingData w data) as [existingDataMap|error].
  - destruct (existsb (fun hasData : bool => hasData) (map snd existingDataMap)).
    + unfold SuspendedForConfirmation. cbv zeta. rewrite Hsave.
      split; [reflexivity|]. split; [reflexivity|]. split; [reflexivity|].
      split; [reflexivity|]. split; [reflexivity|].
      destruct (performSaveSettled_shape w data) as [body [Hshape [Hbody _]]].
      assert (Hconfirm :
                handleConfirmOverwrite w (Some (PerformSave data))
                = SetIsSaving true
                  :: (CallSaveToPersonalSheets data :: SetConfirmDialogOpen false :: body)
                  ++ [SetIsSaving false])
        by (unfold handleConfirmOverwrite; rewrite Hshape; reflexivity).
      assert (Hheld : existsb lowersFlag
                        (CallSaveToPersonalSheets data :: SetConfirmDialogOpen false
                           :: body) = false) by exact Hbody.
      change (overwriteCallback (run st _)) with (Some (PerformSave data)).
      rewrite Hconfirm.
      destruct (raised_then_lowered
                  (run st [ SetIsSaving true; CallCheckExistingData data;
                            SetOverwriteCallback (Some (PerformSave data));
                            SetConfirmDialogOpen true; SetIsSaving false ])
                  _ Hheld) as [Hthrough Hend].
      split; [exact Hthrough|]. split; [right; left; reflexivity|].
      split; [exact Hend|]. repeat split.
    + apply (@direct_save w st data []); [reflexivity | exact Hsave].
  - apply (@direct_save w st data [ConsoleError ExistingDataCheck error]);
      [reflexivity | exact Hsave].
Qed.

(** Tanaka has data already: after [handleSave] the dialog is open and
    the flag is down. *)
Lemma saving_flag_over_a_save_witness :
  SuspendedForConfirmation (world TanakaExists (CommitResolved None))
    (initialState SatoAndTanaka) SatoAndTanaka.
Proof.
  apply (@saving_flag_over_a_save (world TanakaExists (CommitResolved None))
           (initialState SatoAndTanaka) SatoAndTanaka).
  reflexivity.
Defined.

(** C9 as stated fails: over the probe, the confirmation and the commit
    of one save, replayed in order, the flag is down after the fifth
    effect, when the dialog has been opened and the commit is yet to be
    sent. *)
Lemma saving_flag_down_while_confirming :
  ~ SavingThroughout (initialState SatoAndTanaka)
      (handleSave (world TanakaExists (CommitResolved None)) SatoAndTanaka
       ++ handleConfirmOverwrite (world TanakaExists (CommitResolved None))
            (overwriteCallback
               (run (initialState SatoAndTanaka)
                  (handleSave (world TanakaExists (CommitResolved None))
                     SatoAndTanaka)))).
Proof.
  intros H. specialize (H 5). simpl in H.
  assert (F : false = true) by (apply H; lia). discriminate F.
Qed.

(** * Further properties of the page *)

(** ** Reports that keep part of another report *)

Lemma Subsequence_In {A} (kept original : list A) (x : A) :
  Subsequence kept original -> In x kept -> In x original.
Proof.
  induction 1 as [|y kept original _ IH|y kept original _ IH]; simpl.
  - tauto.
  - intros [H|H]; [left; exact H | right; apply IH; exact H].
  - intros H. right. apply IH. exact H.
Qed.

Lemma Subsequence_map {A B} (f : A -> B) (kept original : list A) :
  Subsequence kept original -> Subsequence (map f kept) (map f original).
Proof.
  induction 1; simpl; constructor; assumption.
Qed.

Lemma Subsequence_refl {A} (l : list A) : Subsequence l l.
Proof. induction l; constructor; assumption. Qed.

Lemma Subsequence_count (kept original : list jsstring) (n : jsstring) :
  Subsequence kept original ->
  count_occ str_eq_dec kept n <= count_occ str_eq_dec original n.
Proof.
  induction 1 as [|y kept original _ IH|y kept original _ IH]; simpl.
  - lia.
  - destruct (str_eq_dec y n); lia.
  - destruct (str_eq_dec y n); lia.
Qed.

Lemma findDuplicates_Subsequence (kept original : list jsstring) :
  Subsequence kept original ->
  findDuplicates original = [] -> findDuplicates kept = [].
Proof.
  intros Hsub Hnone. apply nothing_in_nil. intros n Hin.
  apply findDuplicates_In in Hin. destruct Hin as [Hb Hc].
  assert (Hdup : In n (findDuplicates original)).
  { apply findDuplicates_In. split; [exact Hb|].
    pose proof (Subsequence_count n Hsub). lia. }
  rewrite Hnone in Hdup. exact Hdup.
Qed.

Lemma hasDuplicates_false (data : OcrResult) :
  DuplicateCheck.hasDuplicates (checkForDuplicates data) = false
  <-> NoDuplicates data.
Proof.
  unfold NoDuplicates, checkForDuplicates. cbn [DuplicateCheck.hasDuplicates].
  rewrite orb_false_iff.
  destruct (findDuplicates (map 氏名 (包装作業記録 data)));
    destruct (findDuplicates (map 氏名 (機械操作記録 data)));
    simpl; split; intros [H1 H2]; split;
    try reflexivity; try discriminate H1; discriminate H2.
Qed.

Lemma passesGates_spec (data : OcrResult) :
  passesGates data = true <-> ~ HasUnconfirmedField data /\ NoDuplicates data.
Proof.
  unfold passesGates. rewrite <- confirmation_gate, <- hasDuplicates_false.
  destruct (hasPendingProduct data || hasPendingNames data),
    (hasEditingItems data),
    (DuplicateCheck.hasDuplicates (checkForDuplicates data));
    simpl; split; try discriminate; try (intros [H1 H2]; congruence);
    intros _; split; [discriminate | reflexivity].
Qed.

Lemma HasUnconfirmedField_narrowed (data data' : OcrResult) :
  ヘッダー data' = ヘッダー data ->
  Subsequence (包装作業記録 data') (包装作業記録 data) ->
  Subsequence (機械操作記録 data') (機械操作記録 data) ->
  HasUnconfirmedField data' -> HasUnconfirmedField data.
Proof.
  intros Hh Hp Hm [H|[[r [Hin H]]|[r [Hin H]]]].
  - left. rewrite <- Hh. exact H.
  - right. left. exists r. split; [apply (Subsequence_In r Hp Hin) | exact H].
  - right. right. exists r. split; [apply (Subsequence_In r Hm Hin) | exact H].
Qed.

(** A report that keeps the header and part of each list of a report
    that passes the gates passes them too. *)
Lemma passesGates_narrowed (data data' : OcrResult) :
  ヘッダー data' = ヘッダー data ->
  Subsequence (包装作業記録 data') (包装作業記録 data) ->
  Subsequence (機械操作記録 data') (機械操作記録 data) ->
  passesGates data = true -> passesGates data' = true.
Proof.
  intros Hh Hp Hm H. apply passesGates_spec in H. destruct H as [Hconf [Hdp Hdm]].
  apply passesGates_spec. split.
  - intros H. apply Hconf. eapply HasUnconfirmedField_narrowed; eassumption.
  - split.
    + eapply findDuplicates_Subsequence;
        [apply Subsequence_map; exact Hp | exact Hdp].
    + eapply findDuplicates_Subsequence;
        [apply Subsequence_map; exact Hm | exact Hdm].
Qed.

(** X1. After a partial failure the report that [performSave] leaves
    passes the three gates whenever the report that was sent passed them:
    the retry goes straight to the existence probe. *)
Theorem retry_after_partial_failure (w w' : World) (st : AppState)
    (data : OcrResult) (failed : list jsstring) :
  passesGates data = true ->
  saveToPersonalSheets w data
  = CommitResolved (Some {| SaveResult.failedWorkers := Some failed |}) ->
  failed <> [] ->
  exists data',
    editedData (run st (performSave w data)) = Some data'
    /\ passesGates data' = true
    /\ exists rest,
         handleSave w' data'
         = SetIsSaving true :: CallCheckExistingData data' :: rest.
Proof.
  intros Hgates Hcommit Hne.
  rewrite (performSave_partial w data Hcommit Hne).
  eexists. split; [reflexivity|].
  assert (Hpass : passesGates
            {| ヘッダー := ヘッダー data;
               包装作業記録 :=
                 filter (fun record => includes failed (氏名 record)) (包装作業記録 data);
               機械操作記録 :=
                 filter (fun record => includes failed (氏名 record)) (機械操作記録 data) |}
            = true).
  { eapply passesGates_narrowed; [| | | exact Hgates];
      [reflexivity | apply filter_Subsequence | apply filter_Subsequence]. }
  split; [exact Hpass|].
  eexists. apply handleSave_through. exact Hpass.
Qed.

Lemma retry_after_partial_failure_witness :
  exists data',
    editedData (run (initialState SatoAndTanaka)
                  (performSave (world (ProbeResolved []) OnlyTanakaFailed)
                     SatoAndTanaka))
    = Some data'
    /\ passesGates data' = true
    /\ exists rest,
         handleSave (world (ProbeResolved []) (CommitResolved None)) data'
         = SetIsSaving true :: CallCheckExistingData data' :: rest.
Proof.
  apply (@retry_after_partial_failure
           (world (ProbeResolved []) OnlyTanakaFailed)
           (world (ProbeResolved []) (CommitResolved None))
           (initialState SatoAndTanaka) SatoAndTanaka [name_Tanaka]).
  - reflexivity.
  - reflexivity.
  - discriminate.
Defined.

(** ** Deleting and inserting records *)

Lemma filterWithIndex_all {A} (l : list A) (index start : nat) :
  index < start ->
  filterWithIndex (fun _ i => negb (i =? index)) l start = l.
Proof.
  revert start. induction l as [|a l IH]; intros start H; simpl; [reflexivity|].
  destruct (Nat.eqb_spec start index) as [E|_]; [lia|]. simpl.
  rewrite IH by lia. reflexivity.
Qed.

Lemma filterWithIndex_removeAt {A} (l : list A) (index start : nat) :
  filterWithIndex (fun _ i => negb (i =? start + index)) l start = removeAt l index.
Proof.
  revert index start. induction l as [|a l IH]; intros index start; simpl.
  - unfold removeAt. rewrite firstn_nil, skipn_nil. reflexivity.
  - destruct index as [|index].
    + rewrite Nat.add_0_r, Nat.eqb_refl. simpl.
      apply filterWithIndex_all. lia.
    + destruct (Nat.eqb_spec start (start + S index)) as [E|_]; [lia|]. simpl.
      replace (start + S index) with (S start + index) by lia.
      rewrite IH. reflexivity.
Qed.

Lemma removeAt_Subsequence {A} (l : list A) (index : nat) :
  Subsequence (removeAt l index) l.
Proof.
  revert index. induction l as [|a l IH]; intros index.
  - unfold removeAt. rewrite firstn_nil, skipn_nil. constructor.
  - destruct index as [|index].
    + apply Subsequence_drop. apply Subsequence_refl.
    + apply Subsequence_keep. apply IH.
Qed.

Lemma removeAt_past_end {A} (l : list A) (index : nat) :
  length l <= index -> removeAt l index = l.
Proof.
  intros H. unfold removeAt.
  rewrite firstn_all2 by exact H. rewrite skipn_all2 by lia. apply app_nil_r.
Qed.

Lemma removeAt_nth_error {A} (l : list A) (index : nat) :
  index < length l ->
  S (length (removeAt l index)) = length l
  /\ (forall i, i < index -> nth_error (removeAt l index) i = nth_error l i)
  /\ (forall i, index <= i -> nth_error (removeAt l index) i = nth_error l (S i)).
Proof.
  intros H. unfold removeAt. split; [|split].
  - rewrite length_app, length_firstn, length_skipn. lia.
  - intros i Hi. rewrite nth_error_app1 by (rewrite length_firstn; lia).
    rewrite nth_error_firstn. destruct (Nat.ltb_spec i index); [reflexivity | lia].
  - intros i Hi. rewrite nth_error_app2 by (rewrite length_firstn; lia).
    rewrite nth_error_skipn, length_firstn. f_equal. lia.
Qed.

Lemma withRecords_same (recordType : RecordType) (data : OcrResult) :
  withRecords recordType data (recordsOf recordType data) = data.
Proof. destruct recordType, data; reflexivity. Qed.

Lemma withRecords_Subsequence (recordType : RecordType) (data : OcrResult)
    (newRecords : list WorkerRecord) :
  Subsequence newRecords (recordsOf recordType data) ->
  Subsequence (包装作業記録 (withRecords recordType data newRecords)) (包装作業記録 data)
  /\ Subsequence (機械操作記録 (withRecords recordType data newRecords))
       (機械操作記録 data).
Proof.
  destruct recordType; simpl; intros H; split;
    try exact H; apply Subsequence_refl.
Qed.

(** X2. [deletePackagingRecord] and [deleteMachineRecord] remove the
    record at [index] and nothing else: the header and the other list are
    untouched, an index past the end leaves the report as it was, an index
    of the list shortens it by one with the earlier records in place and
    the later ones moved up by one; and a report that passed the three
    gates of the save still passes them. *)
Theorem deleteRecord_removes_one (recordType : RecordType) (data : OcrResult)
    (index : nat) :
  exists data',
    deleteRecord recordType data index = [SetEditedData data'; SetHasChanges true]
    /\ data' = withRecords recordType data (removeAt (recordsOf recordType data) index)
    /\ (length (recordsOf recordType data) <= index -> data' = data)
    /\ (index < length (recordsOf recordType data) ->
        S (length (recordsOf recordType data')) = length (recordsOf recordType data)
        /\ (forall i, i < index ->
              nth_error (recordsOf recordType data') i
              = nth_error (recordsOf recordType data) i)
        /\ (forall i, index <= i ->
              nth_error (recordsOf recordType data') i
              = nth_error (recordsOf recordType data) (S i)))
    /\ (passesGates data = true -> passesGates data' = true).
Proof.
  exists (withRecords recordType data (removeAt (recordsOf recordType data) index)).
  split.
  { unfold deleteRecord, storeEdited.
    pose proof (filterWithIndex_removeAt (recordsOf recordType data) index 0) as E.
    cbn [Nat.add] in E. rewrite E. reflexivity. }
  split; [reflexivity|].
  split.
  { intros H. rewrite removeAt_past_end by exact H. apply withRecords_same. }
  split.
  { intros H.
    replace (recordsOf recordType
               (withRecords recordType data (removeAt (recordsOf recordType data) index)))
      with (removeAt (recordsOf recordType data) index)
      by (destruct recordType; reflexivity).
    apply removeAt_nth_error. exact H. }
  intros H.
  destruct (withRecords_Subsequence recordType data
              (removeAt_Subsequence (recordsOf recordType data) index)) as [Hp Hm].
  eapply passesGates_narrowed; [| exact Hp | exact Hm | exact H].
  destruct recordType; reflexivity.
Qed.

(** Deleting Sato from the report of Sato and Tanaka. *)
Lemma deleteRecord_removes_one_witness :
  exists data',
    deletePackagingRecord SatoAndTanaka 0 = [SetEditedData data'; SetHasChanges true]
    /\ 包装作業記録 data' = [worker name_Tanaka (Some approved) None]
    /\ passesGates data' = true.
Proof.
  destruct (deleteRecord_removes_one packaging SatoAndTanaka 0)
    as [data' [Heff [Hdata [_ [_ Hgates]]]]].
  exists data'. split; [exact Heff|]. split.
  - rewrite Hdata. reflexivity.
  - apply Hgates. reflexivity.
Defined.

Lemma spliceInsert_nth_error {A} (records : list A) (position : Z) (item : A) :
  (0 <= position <= Z.of_nat (length records))%Z ->
  nth_error (spliceInsert records position item) (Z.to_nat position) = Some item
  /\ (forall i, i < Z.to_nat position ->
        nth_error (spliceInsert records position item) i = nth_error records i)
  /\ (forall i, Z.to_nat position <= i ->
        nth_error (spliceInsert records position item) (S i) = nth_error records i).
Proof.
  intros H. unfold spliceInsert.
  destruct (Z.ltb_spec position 0) as [N|_]; [lia|].
  rewrite Z.min_l by lia.
  set (n := Z.to_nat position).
  assert (Hn : n <= length records) by lia.
  assert (Hlen : length (firstn n records) = n) by (rewrite length_firstn; lia).
  split; [|split].
  - rewrite nth_error_app2 by lia. rewrite Hlen, Nat.sub_diag. reflexivity.
  - intros i Hi. rewrite nth_error_app1 by lia.
    rewrite nth_error_firstn. destruct (Nat.ltb_spec i n); [reflexivity | lia].
  - intros i Hi. rewrite nth_error_app2 by lia. rewrite Hlen.
    replace (S i - n) with (S (i - n)) by lia. cbn [nth_error].
    rewrite nth_error_skipn. f_equal. lia.
Qed.

Lemma spliceInsert_clamped {A} (records : list A) (position : Z) (item : A) :
  length (spliceInsert records position item) = S (length records)
  /\ ((Z.of_nat (length records) <= position)%Z ->
      spliceInsert records position item = records ++ [item])
  /\ ((position <= - Z.of_nat (length records))%Z ->
      spliceInsert records position item = item :: records).
Proof.
  unfold spliceInsert. split; [|split].
  - rewrite length_app. cbn [length]. rewrite length_firstn, length_skipn. lia.
  - intros H. destruct (Z.ltb_spec position 0) as [N|_]; [lia|].
    rewrite Z.min_r by lia. rewrite Nat2Z.id.
    rewrite firstn_all, skipn_all. reflexivity.
  - intros H. destruct (Z.ltb_spec position 0) as [_|P].
    + rewrite Z.max_r by lia. reflexivity.
    + assert (E : position = 0%Z) by lia. subst position.
      rewrite Z.min_l by lia. reflexivity.
Qed.

(** X3. [addPackagingRecordAtPosition] and [addMachineRecordAtPosition]
    lengthen their list by one and touch nothing else.  For a position
    from 0 to the length of the list the new record sits at that index,
    the records before it keep their index and the others move down by
    one; a position at or past the end appends the record, and a position
    at or below minus the length puts it first. *)
Theorem records_added_at_position (recordType : RecordType) (data : OcrResult)
    (position : Z) :
  let item :=
    match recordType with
    | packaging => newPackagingRecord
    | machine => newMachineRecord data
    end in
  let records := recordsOf recordType data in
  exists data',
    match recordType with
    | packaging => addPackagingRecordAtPosition data position
    | machine => addMachineRecordAtPosition data position
    end = [SetEditedData data'; SetHasChanges true]
    /\ data' = withRecords recordType data (recordsOf recordType data')
    /\ length (recordsOf recordType data') = S (length records)
    /\ ((0 <= position <= Z.of_nat (length records))%Z ->
        nth_error (recordsOf recordType data') (Z.to_nat position) = Some item
        /\ (forall i, i < Z.to_nat position ->
              nth_error (recordsOf recordType data') i = nth_error records i)
        /\ (forall i, Z.to_nat position <= i ->
              nth_error (recordsOf recordType data') (S i) = nth_error records i))
    /\ ((Z.of_nat (length records) <= position)%Z ->
        recordsOf recordType data' = records ++ [item])
    /\ ((position <= - Z.of_nat (length records))%Z ->
        recordsOf recordType data' = item :: records).
Proof.
  cbv zeta. destruct recordType.
  - eexists. split; [reflexivity|]. cbn [recordsOf 包装作業記録].
    split; [reflexivity|].
    destruct (spliceInsert_clamped (包装作業記録 data) position newPackagingRecord)
      as [Hlen [Hend Hfirst]].
    split; [exact Hlen|]. split; [apply spliceInsert_nth_error|].
    split; assumption.
  - eexists. split; [reflexivity|]. cbn [recordsOf 機械操作記録].
    split; [reflexivity|].
    destruct (spliceInsert_clamped (機械操作記録 data) position (newMachineRecord data))
      as [Hlen [Hend Hfirst]].
    split; [exact Hlen|]. split; [apply spliceInsert_nth_error|].
    split; assumption.
Qed.

(** The button below the last packaging record passes the length. *)
Lemma records_added_at_position_witness :
  exists data',
    addPackagingRecordAtPosition SatoAndTanaka 2
    = [SetEditedData data'; SetHasChanges true]
    /\ 包装作業記録 data' = 包装作業記録 SatoAndTanaka ++ [newPackagingRecord].
Proof.
  destruct (records_added_at_position packaging SatoAndTanaka 2)
    as [data' [Heff [_ [_ [_ [Hend _]]]]]].
  exists data'. split; [exact Heff|].
  apply Hend. simpl. lia.
Defined.

(** ** The report at initialisation *)

Lemma filterEmptyRecords_initialized (records : list WorkerRecord) :
  filterEmptyRecords (map initializeTimeSlots records)
  = map initializeTimeSlots (filter hasTime records).
Proof.
  unfold filterEmptyRecords. rewrite filter_map_swap. reflexivity.
Qed.

Lemma handleSave_unconfirmed_alert (w : World) (data : OcrResult) :
  handleSave w data = [Alert UnconfirmedItems]
  <-> hasPendingProduct data || hasPendingNames data = true.
Proof.
  unfold handleSave.
  destruct (hasPendingProduct data || hasPendingNames data).
  - split; reflexivity.
  - split; [|discriminate].
    destruct (hasEditingItems data); [discriminate|]. cbv zeta.
    destruct (DuplicateCheck.hasDuplicates (checkForDuplicates data));
      discriminate.
Qed.

Lemma handleSave_editing_alert (w : World) (data : OcrResult) :
  handleSave w data = [Alert EditingItems] -> hasEditingItems data = true.
Proof.
  unfold handleSave.
  destruct (hasPendingProduct data || hasPendingNames data); [discriminate|].
  destruct (hasEditingItems data); [reflexivity|]. cbv zeta.
  destruct (DuplicateCheck.hasDuplicates (checkForDuplicates data));
    discriminate.
Qed.

Lemma initial_status (r : WorkerRecord) (s : ConfirmationStatus) :
  statusIs s (nameConfirmationStatus (initializeTimeSlots r))
  = match s with
    | pending => flagged (nameError r)
    | editing => false
    | approved => negb (flagged (nameError r))
    end.
Proof.
  simpl. destruct (flagged (nameError r)), s; reflexivity.
Qed.

Lemma existsb_initial_status (s : ConfirmationStatus) (records : list WorkerRecord) :
  existsb (fun r => statusIs s (nameConfirmationStatus r))
    (map initializeTimeSlots records)
  = existsb (fun r => match s with
                      | pending => flagged (nameError r)
                      | editing => false
                      | approved => negb (flagged (nameError r))
                      end) records.
Proof.
  induction records as [|r records IH]; [reflexivity|].
  cbn [map existsb]. rewrite IH, initial_status. reflexivity.
Qed.

Lemma existsb_never {A} (l : list A) : existsb (fun _ => false) l = false.
Proof. induction l; simpl; auto. Qed.

(** X4. On the report the page builds from an OCR result, the save stops
    with the alert for unconfirmed items exactly when the product carries
    an error marker or some record that has a start or an end time carries
    one; it never stops with the alert for items being edited; and every
    record of the report has a status, [pending] when it carries a marker
    and [approved] when it does not. *)
Theorem initial_report_gate (w : World) (ocrResult : Stored.t) :
  (handleSave w (initializedData ocrResult) = [Alert UnconfirmedItems]
   <-> flagged (productError (Stored.ヘッダー ocrResult)) = true
       \/ exists r,
            (In r (orEmpty (Stored.包装作業記録 ocrResult))
             \/ In r (orEmpty (Stored.機械操作記録 ocrResult)))
            /\ hasTime r = true /\ flagged (nameError r) = true)
  /\ handleSave w (initializedData ocrResult) <> [Alert EditingItems]
  /\ productConfirmationStatus (ヘッダー (initializedData ocrResult))
     = Some (if flagged (productError (Stored.ヘッダー ocrResult))
             then pending else approved)
  /\ forall r,
       In r (包装作業記録 (initializedData ocrResult))
       \/ In r (機械操作記録 (initializedData ocrResult)) ->
       nameConfirmationStatus r
       = Some (if flagged (nameError r) then pending else approved).
Proof.
  split; [|split; [|split]].
  - rewrite handleSave_unconfirmed_alert.
    unfold hasPendingProduct, hasPendingNames, initializedData.
    cbn [ヘッダー 包装作業記録 機械操作記録 productConfirmationStatus].
    rewrite !filterEmptyRecords_initialized, existsb_app, !existsb_id_map.
    rewrite !(existsb_initial_status pending).
    rewrite !orb_true_iff, !existsb_exists.
    assert (Hp : statusIs pending
                   (Some (if flagged (productError (Stored.ヘッダー ocrResult))
                          then pending else approved)) = true
                 <-> flagged (productError (Stored.ヘッダー ocrResult)) = true)
      by (destruct (flagged (productError (Stored.ヘッダー ocrResult)));
          simpl; split; congruence).
    rewrite Hp. split.
    + intros [H|[[r [Hin Hr]]|[r [Hin Hr]]]]; [left; exact H| |];
        apply filter_In in Hin; destruct Hin as [Hin Ht]; right; exists r; tauto.
    + intros [H|[r [[Hin|Hin] [Ht Hr]]]]; [left; exact H| |].
      * right. left. exists r. split; [apply filter_In; tauto | exact Hr].
      * right. right. exists r. split; [apply filter_In; tauto | exact Hr].
  - intros H. apply handleSave_editing_alert in H. revert H.
    unfold hasEditingItems, initializedData.
    cbn [ヘッダー 包装作業記録 機械操作記録 productConfirmationStatus existsb].
    rewrite !filterEmptyRecords_initialized, existsb_app, !existsb_id_map.
    rewrite !(existsb_initial_status editing), !existsb_never.
    destruct (flagged (productError (Stored.ヘッダー ocrResult))); discriminate.
  - reflexivity.
  - unfold initializedData. cbn [包装作業記録 機械操作記録].
    rewrite !filterEmptyRecords_initialized.
    intros r [H|H]; apply in_map_iff in H; destruct H as [r0 [<- _]]; reflexivity.
Qed.

(** X5. The lists of the initial report: the records that have a start
    or an end time, in their order, each with a slot list.  A record that
    came with a slot list keeps it; one that came without gets the single
    slot of its own two times, which its time fields then mirror.  Name,
    times, breaks, output and error marker are those of the OCR result. *)
Theorem initial_records (ocrResult : Stored.t) (recordType : RecordType) :
  let stored :=
    orEmpty match recordType with
            | packaging => Stored.包装作業記録 ocrResult
            | machine => Stored.機械操作記録 ocrResult
            end in
  recordsOf recordType (initializedData ocrResult)
  = map initializeTimeSlots (filter hasTime stored)
  /\ forall r', In r' (recordsOf recordType (initializedData ocrResult)) ->
       hasTime r' = true
       /\ exists r,
            In r stored
            /\ 氏名 r' = 氏名 r /\ 開始時刻 r' = 開始時刻 r /\ 終了時刻 r' = 終了時刻 r
            /\ 休憩 r' = 休憩 r /\ 生産数 r' = 生産数 r /\ nameError r' = nameError r
            /\ match 時刻リスト r with
               | Some slots => 時刻リスト r' = Some slots
               | None => 時刻リスト r' = Some [baseSlot r] /\ SlotsMirrored r'
               end.
Proof.
  cbv zeta.
  assert (E : recordsOf recordType (initializedData ocrResult)
              = map initializeTimeSlots
                  (filter hasTime
                     (orEmpty match recordType with
                              | packaging => Stored.包装作業記録 ocrResult
                              | machine => Stored.機械操作記録 ocrResult
                              end)))
    by (destruct recordType; apply filterEmptyRecords_initialized).
  split; [exact E|].
  intros r' H. rewrite E in H. apply in_map_iff in H.
  destruct H as [r [<- Hin]]. apply filter_In in Hin. destruct Hin as [Hin Ht].
  split; [exact Ht|]. exists r. split; [exact Hin|].
  repeat (split; [reflexivity|]).
  unfold SlotsMirrored. simpl. destruct (時刻リスト r); [reflexivity|].
  repeat split.
Qed.

(** ** Reconciliation, again *)

Lemma nameMatches_reconciled (masterData : MasterData) (r : WorkerRecord) :
  nameMatches masterData (reconcileRecord masterData r) = false.
Proof.
  unfold reconcileRecord. destruct (nameMatches masterData r) eqn:E; [|exact E].
  unfold nameMatches. simpl. apply andb_false_r.
Qed.

Lemma productMatches_reconciled (masterData : MasterData) (h : Header) :
  productMatches masterData (reconcileHeader masterData h) = false.
Proof.
  unfold reconcileHeader. destruct (productMatches masterData h) eqn:E; [|exact E].
  unfold productMatches. simpl. apply andb_false_r.
Qed.

Lemma no_match_after_reconciliation (masterData : MasterData)
    (records : list WorkerRecord) :
  existsb (nameMatches masterData) (map (reconcileRecord masterData) records) = false.
Proof.
  induction records as [|r records IH]; [reflexivity|].
  cbn [map existsb]. rewrite nameMatches_reconciled, IH. reflexivity.
Qed.

(** X6. The reconciliation effect settles: run again on the state it
    leaves, with the same master data, it calls no setter.  The effect
    depends on [editedData] and writes it, so this is what ends the
    re-rendering. *)
Theorem reconciliation_settles (st : AppState) (masterData : option MasterData)
    (masterDataLoading : bool) :
  reconcileMasterData
    (editedData (run st (reconcileMasterData (editedData st) masterData
                           masterDataLoading)))
    masterData masterDataLoading
  = [].
Proof.
  destruct (editedData st) as [data|] eqn:Hdata;
    [|simpl; rewrite Hdata; reflexivity].
  destruct masterData as [masterData|];
    [|simpl; rewrite Hdata; reflexivity].
  destruct masterDataLoading; [simpl; rewrite Hdata; reflexivity|].
  rewrite <- Hdata. rewrite (reconcileMasterData_state st masterData Hdata).
  unfold reconcileMasterData. cbn [ヘッダー 包装作業記録 機械操作記録].
  rewrite productMatches_reconciled, !no_match_after_reconciliation.
  reflexivity.
Qed.

Lemma reconcileRecord_name (masterData : MasterData) (records : list WorkerRecord) :
  map 氏名 (map (reconcileRecord masterData) records) = map 氏名 records.
Proof.
  rewrite map_map. apply map_ext. intros r.
  unfold reconcileRecord. destruct (nameMatches masterData r); reflexivity.
Qed.

Lemma reconciled_unconfirmed (masterData : MasterData) (records : list WorkerRecord)
    (r' : WorkerRecord) :
  In r' (map (reconcileRecord masterData) records) ->
  Unconfirmed (nameConfirmationStatus r') ->
  In r' records /\ nameMatches masterData r' = false.
Proof.
  intros Hin Hu. apply in_map_iff in Hin. destruct Hin as [r [<- Hin]].
  unfold reconcileRecord in *. destruct (nameMatches masterData r) eqn:E.
  - destruct Hu as [Hu|Hu]; discriminate Hu.
  - split; assumption.
Qed.

(** X7. Reconciliation can only help the save.  It changes no name, so
    the duplicate check gives what it gave; every field that is
    unconfirmed after it was unconfirmed before it, so a report that
    passed the gates still passes; and when every unconfirmed field has a
    value of the master list and carries a marker, no field is left
    unconfirmed. *)
Theorem reconciliation_helps_the_save (st : AppState) (data : OcrResult)
    (masterData : MasterData) :
  editedData st = Some data ->
  exists data',
    editedData (run st (reconcileMasterData (editedData st) (Some masterData) false))
    = Some data'
    /\ checkForDuplicates data' = checkForDuplicates data
    /\ (HasUnconfirmedField data' -> HasUnconfirmedField data)
    /\ (passesGates data = true -> passesGates data' = true)
    /\ ((Unconfirmed (productConfirmationStatus (ヘッダー data)) ->
         Reconcilable (商品名 (ヘッダー data)) (products masterData)
           (productError (ヘッダー data))) ->
        (forall r, In r (包装作業記録 data) \/ In r (機械操作記録 data) ->
                   Unconfirmed (nameConfirmationStatus r) ->
                   Reconcilable (氏名 r) (employees masterData) (nameError r)) ->
        ~ HasUnconfirmedField data').
Proof.
  intros Hdata. eexists. split; [apply reconcileMasterData_state; exact Hdata|].
  set (data' := {| ヘッダー := reconcileHeader masterData (ヘッダー data);
                   包装作業記録 := map (reconcileRecord masterData) (包装作業記録 data);
                   機械操作記録 := map (reconcileRecord masterData) (機械操作記録 data) |}).
  assert (Hdup : checkForDuplicates data' = checkForDuplicates data)
    by (unfold checkForDuplicates, data'; cbn [包装作業記録 機械操作記録];
        rewrite !reconcileRecord_name; reflexivity).
  assert (Hhead : Unconfirmed (productConfirmationStatus (ヘッダー data')) ->
                  Unconfirmed (productConfirmationStatus (ヘッダー data))
                  /\ productMatches masterData (ヘッダー data) = false).
  { unfold data', reconcileHeader. cbn [ヘッダー].
    destruct (productMatches masterData (ヘッダー data)).
    - intros [H|H]; discriminate H.
    - intros H. split; [exact H | reflexivity]. }
  assert (Hmono : HasUnconfirmedField data' -> HasUnconfirmedField data).
  { intros [H|[[r [Hin H]]|[r [Hin H]]]].
    - left. apply Hhead. exact H.
    - right. left. exists r. split; [|exact H].
      apply (reconciled_unconfirmed masterData _ _ Hin H).
    - right. right. exists r. split; [|exact H].
      apply (reconciled_unconfirmed masterData _ _ Hin H). }
  split; [exact Hdup|]. split; [exact Hmono|]. split.
  - intros H. apply passesGates_spec in H. destruct H as [Hconf Hnodup].
    apply passesGates_spec. split; [tauto|].
    apply hasDuplicates_false. rewrite Hdup. apply hasDuplicates_false. exact Hnodup.
  - intros Hp Hr [H|[[r [Hin H]]|[r [Hin H]]]].
    + destruct (Hhead H) as [Hu Hno]. apply Hp in Hu.
      apply matches_spec in Hu. unfold productMatches in Hno. congruence.
    + destruct (reconciled_unconfirmed masterData _ _ Hin H) as [Hin' Hno].
      assert (R : Reconcilable (氏名 r) (employees masterData) (nameError r))
        by (apply Hr; [left; exact Hin' | exact H]).
      apply matches_spec in R. unfold nameMatches in Hno. congruence.
    + destruct (reconciled_unconfirmed masterData _ _ Hin H) as [Hin' Hno].
      assert (R : Reconcilable (氏名 r) (employees masterData) (nameError r))
        by (apply Hr; [right; exact Hin' | exact H]).
      apply matches_spec in R. unfold nameMatches in Hno. congruence.
Qed.

Lemma reconciliation_helps_the_save_witness :
  exists data',
    editedData (run (initialState pendingHeaderReport)
                  (reconcileMasterData (editedData (initialState pendingHeaderReport))
                     (Some knownMasterData) false))
    = Some data'
    /\ ~ HasUnconfirmedField data'.
Proof.
  destruct (@reconciliation_helps_the_save (initialState pendingHeaderReport)
              pendingHeaderReport knownMasterData eq_refl)
    as [data' [Hdata [_ [_ [_ Hall]]]]].
  exists data'. split; [exact Hdata|]. apply Hall.
  - intros _. split; [discriminate|]. split; [left; reflexivity | reflexivity].
  - intros r [[<-|[]]|[]] _.
    split; [discriminate|]. split; [left; reflexivity | reflexivity].
Defined.

Lemma initial_report_gate_witness :
  handleSave (world (ProbeResolved []) (CommitResolved None))
    (initializedData storedSample)
  = [Alert UnconfirmedItems].
Proof.
  apply (proj2 (proj1 (initial_report_gate
                         (world (ProbeResolved []) (CommitResolved None))
                         storedSample))).
  left. reflexivity.
Defined.

Lemma initial_records_witness :
  recordsOf packaging (initializedData storedSample)
  = [initializeTimeSlots (worker name_Sato None None)]
  /\ hasTime (initializeTimeSlots (worker name_Sato None None)) = true.
Proof.
  destruct (initial_records storedSample packaging) as [E H].
  split; [rewrite E; reflexivity|].
  apply (proj1 (H (initializeTimeSlots (worker name_Sato None None))
                  ltac:(rewrite E; left; reflexivity))).
Defined.

(** ** Confirmation statuses *)

Lemma replaceAt_Some {A} (l : list A) (index : nat) (f : A -> option A) (a b : A) :
  nth_error l index = Some a -> f a = Some b ->
  exists l',
    replaceAt l index f = Some l'
    /\ length l' = length l
    /\ nth_error l' index = Some b
    /\ forall i, i <> index -> nth_error l' i = nth_error l i.
Proof.
  revert index. induction l as [|x l IH]; intros index Hnth Hf.
  - destruct index; discriminate Hnth.
  - destruct index as [|index]; simpl in *.
    + inversion Hnth; subst x. rewrite Hf. eexists. split; [reflexivity|].
      split; [reflexivity|]. split; [reflexivity|].
      intros [|i] Hi; [congruence | reflexivity].
    + destruct (IH index Hnth Hf) as [l' [Hr [Hlen [Hat Hother]]]].
      rewrite Hr. eexists. split; [reflexivity|]. simpl.
      split; [congruence|]. split; [exact Hat|].
      intros [|i] Hi; [reflexivity | apply Hother; congruence].
Qed.

Lemma replaceAt_None {A} (l : list A) (index : nat) (f : A -> option A) :
  nth_error l index = None -> replaceAt l index f = None.
Proof.
  revert index. induction l as [|x l IH]; intros index H; [reflexivity|].
  destruct index as [|index]; simpl in *; [discriminate H|].
  rewrite (IH index H). reflexivity.
Qed.

Lemma recordsOf_withRecords (recordType : RecordType) (data : OcrResult)
    (newRecords : list WorkerRecord) :
  recordsOf recordType (withRecords recordType data newRecords) = newRecords.
Proof. destruct recordType; reflexivity. Qed.

(** What a status update leaves: the record at [index] with the new
    status, every other record and field as before. *)
Lemma updateNameConfirmationStatus_spec (recordType : RecordType) (data : OcrResult)
    (index : nat) (status : ConfirmationStatus) (r : WorkerRecord) :
  nth_error (recordsOf recordType data) index = Some r ->
  exists data',
    updateNameConfirmationStatus recordType data index status
    = Some [SetEditedData data'; SetHasChanges true]
    /\ data' = withRecords recordType data (recordsOf recordType data')
    /\ length (recordsOf recordType data') = length (recordsOf recordType data)
    /\ nth_error (recordsOf recordType data') index = Some (setStatus status r)
    /\ forall i, i <> index ->
         nth_error (recordsOf recordType data') i
         = nth_error (recordsOf recordType data) i.
Proof.
  intros H.
  destruct (replaceAt_Some (recordsOf recordType data) index
              (fun record => Some (setStatus status record)) H eq_refl)
    as [l' [Hr [Hlen [Hat Hother]]]].
  exists (withRecords recordType data l').
  unfold updateNameConfirmationStatus. rewrite Hr.
  rewrite recordsOf_withRecords.
  split; [reflexivity|]. split; [reflexivity|]. tauto.
Qed.

Lemma In_records_pending (recordType : RecordType) (data : OcrResult)
    (index : nat) (r : WorkerRecord) (w : World) :
  nth_error (recordsOf recordType data) index = Some r ->
  nameConfirmationStatus r = Some pending ->
  handleSave w data = [Alert UnconfirmedItems].
Proof.
  intros Hnth Hr. apply nth_error_In in Hnth.
  apply handleSave_pending_name. apply hasPendingNames_spec.
  destruct recordType; [left | right]; exists r; split; assumption.
Qed.

(** X8. The two answers of the confirmation pop-up for a name.  "This is
    correct" makes the record [approved] as it stands: the name and the
    error marker stay, whether or not the name is in the master list.
    "Needs correction" makes it [editing] and asks for its drop-down, and
    only that one, to be opened.  Either answer leaves every other record
    as it was, closes the pop-up and forgets the target. *)
Theorem confirm_popup_answers (recordType : RecordType) (data : OcrResult)
    (index : nat) (r : WorkerRecord) (value : jsstring) :
  nth_error (recordsOf recordType data) index = Some r ->
  let target :=
    Some {| ConfirmTarget.type := listed recordType;
            ConfirmTarget.index := Some index;
            ConfirmTarget.value := value |} in
  exists approvedData editingData,
    handleConfirmOK data target
    = Some [ Core (SetEditedData approvedData); Core (SetHasChanges true);
             SetConfirmPopupOpen false; SetConfirmTarget None ]
    /\ nth_error (recordsOf recordType approvedData) index = Some (setStatus approved r)
    /\ 氏名 (setStatus approved r) = 氏名 r
    /\ nameError (setStatus approved r) = nameError r
    /\ nameConfirmationStatus (setStatus approved r) = Some approved
    /\ approvedData = withRecords recordType data (recordsOf recordType approvedData)
    /\ (forall i, i <> index ->
          nth_error (recordsOf recordType approvedData) i
          = nth_error (recordsOf recordType data) i)
    /\ handleConfirmEdit data target
       = Some [ Core (SetEditedData editingData); Core (SetHasChanges true);
                SetAutoOpenDropdowns [recordDropdown recordType index];
                SetConfirmPopupOpen false; SetConfirmTarget None ]
    /\ nth_error (recordsOf recordType editingData) index = Some (setStatus editing r)
    /\ editingData = withRecords recordType data (recordsOf recordType editingData)
    /\ (forall i, i <> index ->
          nth_error (recordsOf recordType editingData) i
          = nth_error (recordsOf recordType data) i).
Proof.
  intros H. cbv zeta.
  destruct (updateNameConfirmationStatus_spec recordType data index approved H)
    as [approvedData [Ha [Hwa [_ [Hata Hothera]]]]].
  destruct (updateNameConfirmationStatus_spec recordType data index editing H)
    as [editingData [He [Hwe [_ [Hate Hothere]]]]].
  exists approvedData, editingData.
  unfold handleConfirmOK, handleConfirmEdit. cbn [ConfirmTarget.type ConfirmTarget.index].
  rewrite Ha, He.
  split; [reflexivity|]. split; [exact Hata|].
  split; [reflexivity|]. split; [reflexivity|]. split; [reflexivity|].
  split; [exact Hwa|]. split; [exact Hothera|].
  split; [reflexivity|]. split; [exact Hate|]. split; [exact Hwe | exact Hothere].
Qed.

(** Sato is [pending] with a marker; the answer "this is correct". *)
Lemma confirm_popup_answers_witness :
  exists approvedData,
    handleConfirmOK pendingHeaderReport
      (Some {| ConfirmTarget.type := listed packaging;
               ConfirmTarget.index := Some 0;
               ConfirmTarget.value := name_Sato |})
    = Some [ Core (SetEditedData approvedData); Core (SetHasChanges true);
             SetConfirmPopupOpen false; SetConfirmTarget None ]
    /\ nth_error (包装作業記録 approvedData) 0
       = Some (worker name_Sato (Some approved) (Some marker_unknown)).
Proof.
  destruct (@confirm_popup_answers packaging pendingHeaderReport 0
              (worker name_Sato (Some pending) (Some marker_unknown)) name_Sato
              eq_refl)
    as [approvedData [_ [Hok [Hat _]]]].
  exists approvedData. split; [exact Hok | exact Hat].
Defined.

(** X9. An approved name that is opened with the OK button and then
    cancelled does not come back [approved]: the OK button makes it
    [editing], with which the save stops at the confirmation gate, and
    the cancel button makes it [pending], with which the save stops with
    the alert for unconfirmed items.  Nothing else in the report moves. *)
Theorem reopened_name_ends_pending (w : World) (recordType : RecordType)
    (data : OcrResult) (index : nat) (r : WorkerRecord) :
  nth_error (recordsOf recordType data) index = Some r ->
  nameConfirmationStatus r = Some approved ->
  exists opened cancelled,
    clickOkName recordType data index
    = Some [ Core (SetEditedData opened); Core (SetHasChanges true);
             SetAutoOpenDropdowns [recordDropdown recordType index] ]
    /\ nth_error (recordsOf recordType opened) index = Some (setStatus editing r)
    /\ StoppedAtConfirmation w opened
    /\ clickCancelName recordType opened index
       = Some [SetEditedData cancelled; SetHasChanges true]
    /\ nth_error (recordsOf recordType cancelled) index = Some (setStatus pending r)
    /\ (forall i, i <> index ->
          nth_error (recordsOf recordType cancelled) i
          = nth_error (recordsOf recordType data) i)
    /\ ヘッダー cancelled = ヘッダー data
    /\ handleSave w cancelled = [Alert UnconfirmedItems].
Proof.
  intros H Hr.
  destruct (updateNameConfirmationStatus_spec recordType data index editing H)
    as [opened [Ho [Hwo [_ [Hato Hothero]]]]].
  destruct (updateNameConfirmationStatus_spec recordType opened index pending Hato)
    as [cancelled [Hc [Hwc [_ [Hatc Hotherc]]]]].
  exists opened, cancelled.
  unfold clickOkName, clickCancelName. rewrite Ho, Hc.
  split; [reflexivity|]. split; [exact Hato|].
  split.
  { apply handleSave_stopped. apply orb_true_iff. right.
    apply hasEditingItems_spec. right. apply nth_error_In in Hato.
    destruct recordType; [left | right];
      exists (setStatus editing r); split; try exact Hato; reflexivity. }
  split; [reflexivity|]. split; [exact Hatc|].
  split.
  { intros i Hi. rewrite (Hotherc i Hi). apply Hothero. exact Hi. }
  split.
  { rewrite Hwc, Hwo. destruct recordType; reflexivity. }
  apply (In_records_pending recordType cancelled index w Hatc). reflexivity.
Qed.

Lemma reopened_name_ends_pending_witness :
  exists opened cancelled,
    clickOkName packaging SatoAndTanaka 1
    = Some [ Core (SetEditedData opened); Core (SetHasChanges true);
             SetAutoOpenDropdowns [recordDropdown packaging 1] ]
    /\ clickCancelName packaging opened 1
       = Some [SetEditedData cancelled; SetHasChanges true]
    /\ handleSave (world (ProbeResolved []) (CommitResolved None)) cancelled
       = [Alert UnconfirmedItems].
Proof.
  destruct (@reopened_name_ends_pending
              (world (ProbeResolved []) (CommitResolved None))
              packaging SatoAndTanaka 1 (worker name_Tanaka (Some approved) None)
              eq_refl eq_refl)
    as [opened [cancelled [Ho [_ [_ [Hc [_ [_ [_ Hs]]]]]]]]].
  exists opened, cancelled. split; [exact Ho|]. split; [exact Hc | exact Hs].
Defined.

(** X10. While a name is being edited it becomes [approved] only with a
    name of the employees list that is not empty.  Choosing or typing a
    value in the drop-down stores it as the name; a value of the list
    makes the record [approved] and removes its error marker, any other
    value (none, the empty text, a text that is not in the list) leaves
    it [editing] with its marker.  The confirm button approves the record
    when its name is in the list and does nothing otherwise. *)
Theorem name_approved_only_from_master (recordType : RecordType)
    (masterData : MasterData) (data : OcrResult) (index : nat) (r : WorkerRecord)
    (newValue : option jsstring) :
  nth_error (recordsOf recordType data) index = Some r ->
  (exists selected r',
     selectName recordType masterData data index newValue
     = Some [SetEditedData selected; SetHasChanges true]
     /\ nth_error (recordsOf recordType selected) index = Some r'
     /\ (forall i, i <> index ->
           nth_error (recordsOf recordType selected) i
           = nth_error (recordsOf recordType data) i)
     /\ 氏名 r' = orEmpty newValue
     /\ (氏名 r' <> [] /\ In (氏名 r') (employees masterData) ->
         nameConfirmationStatus r' = Some approved /\ nameError r' = None)
     /\ (~ (氏名 r' <> [] /\ In (氏名 r') (employees masterData)) ->
         nameConfirmationStatus r' = Some editing /\ nameError r' = nameError r))
  /\ (氏名 r <> [] /\ In (氏名 r) (employees masterData) ->
      exists confirmed,
        clickConfirmName recordType masterData data index
        = Some [SetEditedData confirmed; SetHasChanges true]
        /\ nth_error (recordsOf recordType confirmed) index
           = Some (setStatus approved r))
  /\ (~ (氏名 r <> [] /\ In (氏名 r) (employees masterData)) ->
      clickConfirmName recordType masterData data index = Some []).
Proof.
  intros H. split; [|split].
  - set (f := fun record : WorkerRecord =>
                Some (if truthy (orEmpty newValue)
                         && includes (employees masterData) (orEmpty newValue)
                      then setStatus approved
                             (deleteNameError (setName (orEmpty newValue) record))
                      else setStatus editing (setName (orEmpty newValue) record))).
    destruct (replaceAt_Some (recordsOf recordType data) index f H eq_refl)
      as [l' [Hr [_ [Hat Hother]]]].
    exists (withRecords recordType data l'). eexists.
    unfold selectName. fold f. rewrite Hr, recordsOf_withRecords.
    split; [reflexivity|]. split; [exact Hat|]. split; [exact Hother|].
    destruct (truthy (orEmpty newValue)
              && includes (employees masterData) (orEmpty newValue)) eqn:E.
    + split; [reflexivity|]. split; [split; reflexivity|].
      intros N. exfalso. apply N.
      apply andb_true_iff in E. destruct E as [E1 E2].
      split; [apply truthy_nonempty; exact E1 | apply includes_In; exact E2].
    + split; [reflexivity|]. split; [|split; reflexivity].
      intros [N1 N2]. exfalso.
      apply truthy_nonempty in N1. apply includes_In in N2.
      cbn [氏名 setStatus setName] in N1, N2. rewrite N1, N2 in E. discriminate E.
  - intros [N1 N2].
    destruct (updateNameConfirmationStatus_spec recordType data index approved H)
      as [confirmed [Hc [_ [_ [Hat _]]]]].
    exists confirmed. unfold clickConfirmName, confirmNameDisabled. rewrite H.
    apply truthy_nonempty in N1. apply includes_In in N2. rewrite N1, N2.
    split; [exact Hc | exact Hat].
  - intros N. unfold clickConfirmName, confirmNameDisabled. rewrite H.
    destruct (truthy (氏名 r)) eqn:E1; [|reflexivity].
    destruct (includes (employees masterData) (氏名 r)) eqn:E2; [|reflexivity].
    exfalso. apply N.
    split; [apply truthy_nonempty; exact E1 | apply includes_In; exact E2].
Qed.

(** Sato, in the list, is chosen for a record that was being edited. *)
Lemma name_approved_only_from_master_witness :
  exists selected r',
    selectName packaging knownMasterData pendingHeaderReport 0 (Some name_Sato)
    = Some [SetEditedData selected; SetHasChanges true]
    /\ nth_error (包装作業記録 selected) 0 = Some r'
    /\ nameConfirmationStatus r' = Some approved /\ nameError r' = None.
Proof.
  destruct (proj1 (@name_approved_only_from_master packaging knownMasterData
                     pendingHeaderReport 0
                     (worker name_Sato (Some pending) (Some marker_unknown))
                     (Some name_Sato) eq_refl))
    as [selected [r' [Hsel [Hat [_ [Hname [Hyes _]]]]]]].
  exists selected, r'. split; [exact Hsel|]. split; [exact Hat|].
  apply Hyes. rewrite Hname. split; [discriminate | left; reflexivity].
Defined.

(** X11. The same for the product: the drop-down stores its value as
    the product name and approves it, removing the error marker, exactly
    when the value is a non-empty text of the products list, leaving the
    product [editing] otherwise; the confirm button approves a product
    name of the list and does nothing otherwise.  The lists of records
    are never touched. *)
Theorem product_approved_only_from_master (masterData : MasterData)
    (data : OcrResult) (newValue : option jsstring) :
  (exists selected,
     selectProduct masterData data newValue
     = [SetEditedData selected; SetHasChanges true]
     /\ 包装作業記録 selected = 包装作業記録 data
     /\ 機械操作記録 selected = 機械操作記録 data
     /\ 作業日 (ヘッダー selected) = 作業日 (ヘッダー data)
     /\ 商品名 (ヘッダー selected) = orEmpty newValue
     /\ (orEmpty newValue <> [] /\ In (orEmpty newValue) (products masterData) ->
         productConfirmationStatus (ヘッダー selected) = Some approved
         /\ productError (ヘッダー selected) = None)
     /\ (~ (orEmpty newValue <> [] /\ In (orEmpty newValue) (products masterData)) ->
         productConfirmationStatus (ヘッダー selected) = Some editing
         /\ productError (ヘッダー selected) = productError (ヘッダー data)))
  /\ (商品名 (ヘッダー data) <> [] /\ In (商品名 (ヘッダー data)) (products masterData) ->
      clickConfirmProduct masterData data
      = [ SetEditedData (withHeader data (setProductStatus approved (ヘッダー data)));
          SetHasChanges true ])
  /\ (~ (商品名 (ヘッダー data) <> [] /\ In (商品名 (ヘッダー data)) (products masterData)) ->
      clickConfirmProduct masterData data = []).
Proof.
  split; [|split].
  - eexists. split; [reflexivity|]. cbn [withHeader 包装作業記録 機械操作記録 ヘッダー].
    split; [reflexivity|]. split; [reflexivity|].
    destruct (truthy (orEmpty newValue)
              && includes (products masterData) (orEmpty newValue)) eqn:E.
    + split; [reflexivity|]. split; [reflexivity|]. split; [split; reflexivity|].
      intros N. exfalso. apply N.
      apply andb_true_iff in E. destruct E as [E1 E2].
      split; [apply truthy_nonempty; exact E1 | apply includes_In; exact E2].
    + split; [reflexivity|]. split; [reflexivity|]. split; [|split; reflexivity].
      intros [N1 N2]. exfalso.
      apply truthy_nonempty in N1. apply includes_In in N2.
      rewrite N1, N2 in E. discriminate E.
  - intros [N1 N2]. unfold clickConfirmProduct, confirmProductDisabled.
    apply truthy_nonempty in N1. apply includes_In in N2. rewrite N1, N2.
    reflexivity.
  - intros N. unfold clickConfirmProduct, confirmProductDisabled.
    destruct (truthy (商品名 (ヘッダー data))) eqn:E1; [|reflexivity].
    destruct (includes (products masterData) (商品名 (ヘッダー data))) eqn:E2;
      [|reflexivity].
    exfalso. apply N.
    split; [apply truthy_nonempty; exact E1 | apply includes_In; exact E2].
Qed.

(** The product of the sample report is in the list: the confirm button
    approves it and keeps its marker. *)
Lemma product_approved_only_from_master_witness :
  clickConfirmProduct knownMasterData pendingHeaderReport
  = [ SetEditedData
        {| ヘッダー := header (Some approved) (Some marker_unknown);
           包装作業記録 := 包装作業記録 pendingHeaderReport;
           機械操作記録 := [] |};
      SetHasChanges true ].
Proof.
  apply (proj1 (proj2 (product_approved_only_from_master knownMasterData
                         pendingHeaderReport None))).
  split; [discriminate | left; reflexivity].
Defined.

(** ** Time slots of packaging records *)

Lemma replaceAt_same {A} (l : list A) (index : nat) (f : A -> option A) (a : A) :
  nth_error l index = Some a -> f a = Some a -> replaceAt l index f = Some l.
Proof.
  revert index. induction l as [|x l IH]; intros index Hnth Hf.
  - destruct index; discriminate Hnth.
  - destruct index as [|index]; simpl in *.
    + inversion Hnth; subst x. rewrite Hf. reflexivity.
    + rewrite (IH index Hnth Hf). reflexivity.
Qed.

Lemma replaceAt_Forall {A} (P : A -> Prop) (f : A -> option A) (l l' : list A)
    (index : nat) :
  (forall a b, P a -> f a = Some b -> P b) ->
  Forall P l -> replaceAt l index f = Some l' -> Forall P l'.
Proof.
  intros Hf. revert index l'. induction l as [|x l IH]; intros index l' Hall Hr.
  - destruct index; discriminate Hr.
  - inversion Hall as [|? ? Hx Hl]; subst.
    destruct index as [|index]; simpl in Hr.
    + destruct (f x) as [b|] eqn:E; [|discriminate Hr].
      inversion Hr; subst. constructor; [apply (Hf x b Hx E) | exact Hl].
    + destruct (replaceAt l index f) as [l0|] eqn:E; [|discriminate Hr].
      inversion Hr; subst. constructor; [exact Hx | apply (IH index l0 Hl E)].
Qed.

Lemma removeAt_length {A} (l : list A) (index : nat) :
  length l - 1 <= length (removeAt l index)
  /\ (index < length l -> S (length (removeAt l index)) = length l).
Proof.
  unfold removeAt. rewrite length_app, length_firstn, length_skipn. lia.
Qed.

(** The record that [deletePackagingTimeSlot] leaves in place of [r]. *)
Lemma slotDeleted_cases (timeSlotIndex : nat) (r : WorkerRecord) :
  exists r',
    slotDeleted timeSlotIndex r = Some r'
    /\ match 時刻リスト r with
       | Some slots =>
           if 1 <? length slots then
             時刻リスト r' = Some (removeAt slots timeSlotIndex)
             /\ 1 <= length (removeAt slots timeSlotIndex)
             /\ SlotsMirrored r'
             /\ 氏名 r' = 氏名 r /\ 休憩 r' = 休憩 r /\ 生産数 r' = 生産数 r
             /\ nameConfirmationStatus r' = nameConfirmationStatus r
           else r' = r
       | None => r' = r
       end.
Proof.
  unfold slotDeleted.
  destruct (時刻リスト r) as [slots|]; [|exists r; split; reflexivity].
  destruct (Nat.ltb_spec 1 (length slots)) as [Hlen|Hlen];
    [|exists r; split; reflexivity].
  pose proof (proj1 (removeAt_length slots timeSlotIndex)) as Hge.
  cbv zeta.
  destruct (removeAt slots timeSlotIndex) as [|first rest] eqn:E;
    [simpl in Hge; lia|].
  eexists. split; [reflexivity|].
  split; [reflexivity|]. split; [simpl; lia|].
  split; [unfold SlotsMirrored; simpl; split; reflexivity|].
  repeat split.
Qed.

(** X12. [deletePackagingTimeSlot] never leaves a record without a time
    slot.  On a record with two slots or more it takes out the slot at
    the given index (none when the index is past the end), and the two
    time fields of the record repeat the slot that is then first; the
    name, breaks, output and status of the record stay.  On a record with
    one slot, or with no slot list, it changes nothing in the report,
    though it still stores it and marks the page as changed. *)
Theorem time_slot_deletion (data : OcrResult) (recordIndex timeSlotIndex : nat)
    (r : WorkerRecord) :
  nth_error (包装作業記録 data) recordIndex = Some r ->
  exists data' r',
    deletePackagingTimeSlot data recordIndex timeSlotIndex
    = Some [SetEditedData data'; SetHasChanges true]
    /\ data' = withRecords packaging data (包装作業記録 data')
    /\ nth_error (包装作業記録 data') recordIndex = Some r'
    /\ (forall i, i <> recordIndex ->
          nth_error (包装作業記録 data') i = nth_error (包装作業記録 data) i)
    /\ match 時刻リスト r with
       | Some slots =>
           if 1 <? length slots then
             時刻リスト r' = Some (removeAt slots timeSlotIndex)
             /\ 1 <= length (removeAt slots timeSlotIndex)
             /\ SlotsMirrored r'
             /\ 氏名 r' = 氏名 r /\ 休憩 r' = 休憩 r /\ 生産数 r' = 生産数 r
             /\ nameConfirmationStatus r' = nameConfirmationStatus r
           else data' = data
       | None => data' = data
       end.
Proof.
  intros H.
  destruct (slotDeleted_cases timeSlotIndex r) as [r' [Hf Hr']].
  destruct (replaceAt_Some (包装作業記録 data) recordIndex
              (slotDeleted timeSlotIndex) H Hf)
    as [l' [Hrep [_ [Hat Hother]]]].
  exists (withRecords packaging data l'), r'.
  unfold deletePackagingTimeSlot. rewrite Hrep.
  split; [reflexivity|]. split; [reflexivity|].
  split; [exact Hat|]. split; [exact Hother|].
  assert (Hsame : r' = r -> withRecords packaging data l' = data).
  { intros ->.
    rewrite (replaceAt_same (包装作業記録 data) recordIndex
               (slotDeleted timeSlotIndex) H Hf) in Hrep.
    inversion Hrep; subst l'. apply (withRecords_same packaging). }
  destruct (時刻リスト r) as [slots|]; [|exact (Hsame Hr')].
  destruct (1 <? length slots); [exact Hr' | exact (Hsame Hr')].
Qed.

(** Sato has the default slot only: deleting it is refused. *)
Lemma time_slot_deletion_witness :
  deletePackagingTimeSlot SatoAndTanaka 0 0
  = Some [SetEditedData SatoAndTanaka; SetHasChanges true].
Proof.
  destruct (@time_slot_deletion SatoAndTanaka 0 0
              (worker name_Sato (Some approved) None) eq_refl)
    as [data' [r' [Hdel [_ [_ [_ Hsame]]]]]].
  simpl in Hsame. rewrite Hsame in Hdel. exact Hdel.
Defined.

Lemma slotAdded_mirrored (a b : WorkerRecord) :
  SlotsMirrored a -> slotAdded a = Some b -> SlotsMirrored b.
Proof.
  intros Ha Hb. inversion Hb; subst b. unfold SlotsMirrored in *. simpl.
  destruct (時刻リスト a) as [[|first rest]|]; simpl;
    [contradiction | exact Ha | split; reflexivity].
Qed.

Lemma slotUpdated_mirrored (timeSlotIndex : nat) (field : TimeField)
    (value : jsstring) (a b : WorkerRecord) :
  SlotsMirrored a -> slotUpdated timeSlotIndex field value a = Some b ->
  SlotsMirrored b.
Proof.
  intros Ha Hb. unfold SlotsMirrored in Ha. unfold slotUpdated in Hb.
  destruct (時刻リスト a) as [[|first rest]|] eqn:E;
    [contradiction | | inversion Hb; subst b; unfold SlotsMirrored; rewrite E; exact I].
  destruct Ha as [Hs He].
  destruct timeSlotIndex as [|j]; simpl in Hb.
  - inversion Hb; subst b. unfold SlotsMirrored.
    destruct field; simpl; split; try reflexivity; assumption.
  - destruct (replaceAt rest j (fun slot => Some (setSlotField field value slot)))
      as [rest'|]; [|discriminate Hb].
    inversion Hb; subst b. unfold SlotsMirrored. simpl. split; assumption.
Qed.

Lemma slotDeleted_mirrored (timeSlotIndex : nat) (a b : WorkerRecord) :
  SlotsMirrored a -> slotDeleted timeSlotIndex a = Some b -> SlotsMirrored b.
Proof.
  intros Ha Hb.
  destruct (slotDeleted_cases timeSlotIndex a) as [b' [Hf Hb']].
  rewrite Hf in Hb. inversion Hb; subst b'.
  destruct (時刻リスト a) as [slots|]; [|subst b; exact Ha].
  destruct (1 <? length slots); [apply Hb' | subst b; exact Ha].
Qed.

(** X13. The three time-slot handlers of the packaging list keep the
    mirror of the first slot: if in every packaging record that has a
    slot list the list is not empty and the two time fields repeat its
    first slot, the same holds in the report each handler stores.  A
    record added by [addPackagingRecord] starts that way. *)
Theorem time_slots_stay_mirrored (data data' : OcrResult)
    (recordIndex timeSlotIndex : nat) (field : TimeField) (value : jsstring) :
  Forall SlotsMirrored (包装作業記録 data) ->
  (addPackagingTimeSlot data recordIndex
   = Some [SetEditedData data'; SetHasChanges true]
   \/ deletePackagingTimeSlot data recordIndex timeSlotIndex
      = Some [SetEditedData data'; SetHasChanges true]
   \/ updatePackagingTimeSlot data recordIndex timeSlotIndex field value
      = Some [SetEditedData data'; SetHasChanges true]
   \/ addPackagingRecord data = [SetEditedData data'; SetHasChanges true]) ->
  Forall SlotsMirrored (包装作業記録 data').
Proof.
  intros Hall [H|[H|[H|H]]].
  - unfold addPackagingTimeSlot in H.
    destruct (replaceAt (包装作業記録 data) recordIndex _) as [l'|] eqn:E;
      [|discriminate H].
    inversion H; subst data'. cbn [withRecords 包装作業記録].
    eapply replaceAt_Forall; [apply slotAdded_mirrored | exact Hall | exact E].
  - unfold deletePackagingTimeSlot in H.
    destruct (replaceAt (包装作業記録 data) recordIndex _) as [l'|] eqn:E;
      [|discriminate H].
    inversion H; subst data'. cbn [withRecords 包装作業記録].
    eapply replaceAt_Forall;
      [apply (slotDeleted_mirrored timeSlotIndex) | exact Hall | exact E].
  - unfold updatePackagingTimeSlot in H.
    destruct (replaceAt (包装作業記録 data) recordIndex _) as [l'|] eqn:E;
      [|discriminate H].
    inversion H; subst data'. cbn [withRecords 包装作業記録].
    eapply replaceAt_Forall;
      [apply (slotUpdated_mirrored timeSlotIndex field value) | exact Hall | exact E].
  - inversion H; subst data'. cbn [包装作業記録].
    constructor; [|exact Hall].
    unfold SlotsMirrored. simpl. split; reflexivity.
Qed.

(** A second slot is added to Sato, whose record mirrors its first. *)
Lemma time_slots_stay_mirrored_witness :
  Forall SlotsMirrored
    [ setSlots (Some (defaultSlots ++ [defaultSlot]))
        (worker name_Sato (Some approved) None);
      worker name_Tanaka (Some approved) None ].
Proof.
  apply (@time_slots_stay_mirrored SatoAndTanaka
           (withRecords packaging SatoAndTanaka
              [ setSlots (Some (defaultSlots ++ [defaultSlot]))
                  (worker name_Sato (Some approved) None);
                worker name_Tanaka (Some approved) None ])
           0 0 開始時刻_field []).
  - repeat constructor.
  - left. reflexivity.
Defined.

Lemma formatTimeInput_again (x : jsstring) :
  formatTimeInput (formatTimeInput x) = formatTimeInput x.
Proof.
  pose proof (numbersOnly_digits x) as H.
  unfold formatTimeInput at 2 3.
  destruct (numbersOnly x) as [|a [|b [|c [|d [|e rest]]]]];
    try reflexivity; digits H;
    unfold formatTimeInput, numbersOnly;
    cbn [filter length Nat.eqb Nat.leb app slice sliceFrom index nth_error
         firstn skipn Nat.sub];
    repeat match goal with Hd : isDigit _ = true |- _ => rewrite Hd; clear Hd end;
    reflexivity.
Qed.

Lemma blur_of_formatted (data : OcrResult) (recordIndex timeSlotIndex : nat)
    (field : TimeField) (text : jsstring) :
  formatTimeInput text = text ->
  blurPackagingTime data recordIndex timeSlotIndex field text = Some [].
Proof.
  intros H. unfold blurPackagingTime. rewrite H, str_eqb_refl. reflexivity.
Qed.

(** X14. Leaving a time field formats it once and for all.  When the
    text of the field is already what [formatTimeInput] makes of it, the
    [onBlur] handler calls no setter.  Otherwise it stores the formatted
    text in that field of that slot, and a second blur on the text then
    shown calls no setter. *)
Theorem blur_formats_once (data : OcrResult) (recordIndex timeSlotIndex : nat)
    (field : TimeField) (text : jsstring) (r : WorkerRecord)
    (slots : list TimeSlot.t) (slot : TimeSlot.t) :
  nth_error (包装作業記録 data) recordIndex = Some r ->
  時刻リスト r = Some slots ->
  nth_error slots timeSlotIndex = Some slot ->
  (formatTimeInput text = text ->
   blurPackagingTime data recordIndex timeSlotIndex field text = Some [])
  /\ (formatTimeInput text <> text ->
      exists data' r' slots',
        blurPackagingTime data recordIndex timeSlotIndex field text
        = Some [SetEditedData data'; SetHasChanges true]
        /\ nth_error (包装作業記録 data') recordIndex = Some r'
        /\ 時刻リスト r' = Some slots'
        /\ nth_error slots' timeSlotIndex
           = Some (setSlotField field (formatTimeInput text) slot)
        /\ blurPackagingTime data' recordIndex timeSlotIndex field
             (formatTimeInput text) = Some []).
Proof.
  intros Hr Hslots Hslot. split; [apply blur_of_formatted|].
  intros Hne.
  destruct (replaceAt_Some slots timeSlotIndex
              (fun s => Some (setSlotField field (formatTimeInput text) s))
              Hslot eq_refl) as [slots' [Hrs [_ [Hats _]]]].
  assert (Hf : slotUpdated timeSlotIndex field (formatTimeInput text) r
               = Some (if timeSlotIndex =? 0
                       then setTimeField field (formatTimeInput text)
                              (setSlots (Some slots') r)
                       else setSlots (Some slots') r))
    by (unfold slotUpdated; rewrite Hslots, Hrs; reflexivity).
  destruct (replaceAt_Some (包装作業記録 data) recordIndex
              (slotUpdated timeSlotIndex field (formatTimeInput text)) Hr Hf)
    as [l' [Hrep [_ [Hat _]]]].
  exists (withRecords packaging data l'). eexists. exists slots'.
  split.
  { unfold blurPackagingTime, updatePackagingTimeSlot.
    rewrite (str_eqb_neq Hne), Hrep. reflexivity. }
  split; [exact Hat|].
  split; [destruct (timeSlotIndex =? 0), field; reflexivity|].
  split; [exact Hats|].
  apply blur_of_formatted. apply formatTimeInput_again.
Qed.

(** "1730" is typed into the start of Sato's only slot. *)
Lemma blur_formats_once_witness :
  exists data' r' slots',
    blurPackagingTime SatoAndTanaka 0 0 開始時刻_field (lit "1730")
    = Some [SetEditedData data'; SetHasChanges true]
    /\ nth_error (包装作業記録 data') 0 = Some r'
    /\ 時刻リスト r' = Some slots'
    /\ nth_error slots' 0
       = Some {| TimeSlot.開始時刻 := lit "17:30"; TimeSlot.終了時刻 := time_17_00 |}
    /\ blurPackagingTime data' 0 0 開始時刻_field (lit "17:30") = Some [].
Proof.
  apply (proj2 (@blur_formats_once SatoAndTanaka 0 0 開始時刻_field (lit "1730")
                  (worker name_Sato (Some approved) None) defaultSlots defaultSlot
                  eq_refl eq_refl eq_refl)).
  discriminate.
Defined.

(** ** The duplicate highlight *)

Module StringSetFacts.
Import StringSet.

Lemma has_add (s : t) (key k : jsstring) :
  has (add s key) k = has s k || str_eqb k key.
Proof.
  unfold add. destruct (has s key) eqn:E.
  - destruct (str_eq_dec k key) as [->|N].
    + rewrite E. reflexivity.
    + rewrite (str_eqb_neq N), orb_false_r. reflexivity.
  - unfold has. rewrite existsb_app. simpl. rewrite orb_false_r. reflexivity.
Qed.

Lemma has_In (s : t) (k : jsstring) : has s k = true <-> In k s.
Proof. apply includes_In. Qed.

Lemma NoDup_add (s : t) (key : jsstring) : NoDup s -> NoDup (add s key).
Proof.
  intros H. unfold add. destruct (has s key) eqn:E; [exact H|].
  apply NoDup_rev in H. rewrite <- (rev_involutive (s ++ [key])).
  apply NoDup_rev. rewrite rev_app_distr. simpl.
  constructor; [|exact H].
  rewrite <- in_rev. intros Hin. apply has_In in Hin. congruence.
Qed.

Lemma has_fold (g : jsstring -> jsstring) (names : list jsstring) (s : t)
    (k : jsstring) :
  has (fold_left (fun s name => add s (g name)) names s) k
  = has s k || existsb (fun name => str_eqb k (g name)) names.
Proof.
  revert s. induction names as [|name names IH]; intros s; simpl.
  - rewrite orb_false_r. reflexivity.
  - rewrite IH, has_add, orb_assoc. reflexivity.
Qed.

Lemma NoDup_fold (g : jsstring -> jsstring) (names : list jsstring) (s : t) :
  NoDup s -> NoDup (fold_left (fun s name => add s (g name)) names s).
Proof.
  revert s. induction names as [|name names IH]; intros s H; simpl;
    [exact H | apply IH; apply NoDup_add; exact H].
Qed.

End StringSetFacts.

(** A key of the highlight set names one list and one name. *)
Lemma highlightKey_inj (t t' : RecordType) (name name' : jsstring) :
  highlightKey t name = highlightKey t' name' <-> t = t' /\ name = name'.
Proof.
  split; [|intros [-> ->]; reflexivity].
  unfold highlightKey. destruct t, t'; cbn [highlightPrefix]; intros H;
    try discriminate H;
    (split; [reflexivity | apply (app_inv_head _ _ _ H)]).
Qed.

Lemma existsb_highlightKey (t t' : RecordType) (name : jsstring)
    (names : list jsstring) :
  existsb (fun n => str_eqb (highlightKey t name) (highlightKey t' n)) names = true
  <-> t = t' /\ In name names.
Proof.
  rewrite existsb_exists. split.
  - intros [n [Hin Heq]]. apply str_eqb_eq in Heq. apply highlightKey_inj in Heq.
    destruct Heq as [-> ->]. split; [reflexivity | exact Hin].
  - intros [-> Hin]. exists name. split; [exact Hin | apply str_eqb_refl].
Qed.

Lemma handleSave_duplicates (w : World) (data : OcrResult) :
  ~ HasUnconfirmedField data ->
  DuplicateCheck.hasDuplicates (checkForDuplicates data) = true ->
  handleSave w data
  = [ SetDuplicateInfo
        (Some {| DuplicateInfo.packaging :=
                   findDuplicates (map 氏名 (包装作業記録 data));
                 DuplicateInfo.machine :=
                   findDuplicates (map 氏名 (機械操作記録 data)) |});
      SetDuplicateDialogOpen true ].
Proof.
  intros Hconf Hdup.
  destruct ((hasPendingProduct data || hasPendingNames data)
            || hasEditingItems data) eqn:G.
  - exfalso. apply Hconf. apply confirmation_gate. exact G.
  - apply orb_false_iff in G. destruct G as [Hpend Hedit].
    unfold handleSave. rewrite Hpend, Hedit, Hdup. reflexivity.
Qed.

Lemma handleDuplicateDialogClose_state (info : DuplicateInfo.t) (ps : PageState) :
  duplicateHighlight (runOnPage ps (handleDuplicateDialogClose (Some info)))
  = highlightSetOf info
  /\ duplicateDialogOpen
       (component (runOnPage ps (handleDuplicateDialogClose (Some info)))) = false
  /\ duplicateInfo
       (component (runOnPage ps (handleDuplicateDialogClose (Some info)))) = None
  /\ editedData
       (component (runOnPage ps (handleDuplicateDialogClose (Some info))))
     = editedData (component ps).
Proof.
  unfold handleDuplicateDialogClose. cbv zeta.
  destruct (0 <? length (DuplicateInfo.packaging info ++ DuplicateInfo.machine info));
    repeat split.
Qed.

(** X15. After a save that the duplicate check stopped and the dialog
    that the user then closed, the highlight set holds the key of a list
    and a name exactly when that name is not blank and occurs more than
    once in that list: a name repeated among the packaging records does
    not highlight a machine record of the same name.  The set has no
    repeated key, the dialog is closed, the stored duplicate report is
    dropped and the report itself is untouched. *)
Theorem duplicates_highlighted (w : World) (ps : PageState) (data : OcrResult) :
  ~ HasUnconfirmedField data ->
  DuplicateCheck.hasDuplicates (checkForDuplicates data) = true ->
  let blocked := runOnPage ps (map Core (handleSave w data)) in
  let acknowledged :=
    runOnPage blocked
      (handleDuplicateDialogClose (duplicateInfo (component blocked))) in
  duplicateDialogOpen (component blocked) = true
  /\ duplicateDialogOpen (component acknowledged) = false
  /\ duplicateInfo (component acknowledged) = None
  /\ editedData (component acknowledged) = editedData (component ps)
  /\ NoDup (duplicateHighlight acknowledged)
  /\ forall recordType name,
       StringSet.has (duplicateHighlight acknowledged)
         (highlightKey recordType name) = true
       <-> isBlank name = false
           /\ 1 < count_occ str_eq_dec (map 氏名 (recordsOf recordType data)) name.
Proof.
  intros Hconf Hdup. cbv zeta.
  rewrite (handleSave_duplicates w Hconf Hdup).
  cbn [map runOnPage fold_left performOnPage perform component duplicateInfo
       duplicateDialogOpen].
  split; [reflexivity|].
  match goal with
  | |- context [runOnPage ?ps0 (handleDuplicateDialogClose (Some ?info))] =>
      destruct (handleDuplicateDialogClose_state info ps0)
        as [Hh [Hopen [Hinfo Hdata]]]
  end.
  split; [exact Hopen|]. split; [exact Hinfo|]. split; [exact Hdata|].
  rewrite Hh. unfold highlightSetOf.
  cbn [DuplicateInfo.packaging DuplicateInfo.machine]. split.
  - apply StringSetFacts.NoDup_fold. apply StringSetFacts.NoDup_fold. constructor.
  - intros recordType name.
    rewrite !StringSetFacts.has_fold. cbn [StringSet.has existsb orb].
    rewrite orb_true_iff, !existsb_highlightKey.
    rewrite <- (findDuplicates_In (map 氏名 (recordsOf recordType data)) name).
    destruct recordType; cbn [recordsOf]; split.
    + intros [[_ H]|[N _]]; [exact H | discriminate N].
    + intros H. left. split; [reflexivity | exact H].
    + intros [[N _]|[_ H]]; [discriminate N | exact H].
    + intros H. right. split; [reflexivity | exact H].
Qed.

(** Sato twice among the packaging records, once among the machines. *)
Lemma duplicates_highlighted_witness :
  StringSet.has
    (duplicateHighlight
       (runOnPage
          (runOnPage (samplePage SatoTwice)
             (map Core (handleSave (world (ProbeResolved []) (CommitResolved None))
                          SatoTwice)))
          (handleDuplicateDialogClose
             (duplicateInfo
                (component
                   (runOnPage (samplePage SatoTwice)
                      (map Core
                         (handleSave (world (ProbeResolved []) (CommitResolved None))
                            SatoTwice))))))))
    (highlightKey packaging name_Sato) = true.
Proof.
  apply (proj2 (proj2 (proj2 (proj2 (proj2
           (@duplicates_highlighted (world (ProbeResolved []) (CommitResolved None))
              (samplePage SatoTwice) SatoTwice
              ltac:(intros [[H|H]|[[r [[<-|[<-|[]]] [H|H]]]|[r [[] _]]]];
                    discriminate H)
              eq_refl)))))).
  split; [reflexivity | simpl; lia].
Defined.

(** ** Breaks *)

Lemma replaceAt_back {A} (l l' : list A) (index : nat) (f g : A -> option A)
    (a b : A) :
  nth_error l index = Some a -> f a = Some b -> g b = Some a ->
  replaceAt l index f = Some l' -> replaceAt l' index g = Some l.
Proof.
  revert index l'. induction l as [|x l IH]; intros index l' Hnth Hf Hg Hr.
  - destruct index; discriminate Hnth.
  - destruct index as [|index]; simpl in *.
    + inversion Hnth; subst x. rewrite Hf in Hr. inversion Hr; subst l'.
      simpl. rewrite Hg. reflexivity.
    + destruct (replaceAt l index f) as [l0|] eqn:E; [|discriminate Hr].
      inversion Hr; subst l'. simpl. rewrite (IH index l0 Hnth Hf Hg E).
      reflexivity.
Qed.

Lemma withRecords_withRecords (recordType : RecordType) (data : OcrResult)
    (l : list WorkerRecord) :
  withRecords recordType (withRecords recordType data l) (recordsOf recordType data)
  = data.
Proof. destruct recordType, data; reflexivity. Qed.

Lemma setBreak_back (breakType : BreakType) (value : bool) (r : WorkerRecord) :
  setBreaks
    (setBreak breakType (getBreak breakType (休憩 r))
       (休憩 (setBreaks (setBreak breakType value (休憩 r)) r)))
    (setBreaks (setBreak breakType value (休憩 r)) r)
  = r.
Proof. destruct r as [? ? ? ? [? ?] ? ? ? ? ?], breakType; reflexivity. Qed.

(** X16. [updateBreak] sets one break of one record and nothing else,
    and setting the break back to the value it had gives back the report
    that was there before. *)
Theorem updateBreak_round_trip (recordType : RecordType) (masterData : MasterData)
    (highlight : StringSet.t) (data : OcrResult) (index : nat) (r : WorkerRecord)
    (breakType : BreakType) (value : bool) :
  nth_error (recordsOf recordType data) index = Some r ->
  exists changed,
    updateBreak recordType masterData highlight data index breakType value
    = Some [Core (SetEditedData changed); Core (SetHasChanges true)]
    /\ changed = withRecords recordType data (recordsOf recordType changed)
    /\ nth_error (recordsOf recordType changed) index
       = Some (setBreaks (setBreak breakType value (休憩 r)) r)
    /\ (forall i, i <> index ->
          nth_error (recordsOf recordType changed) i
          = nth_error (recordsOf recordType data) i)
    /\ updateBreak recordType masterData highlight changed index breakType
         (getBreak breakType (休憩 r))
       = Some [Core (SetEditedData data); Core (SetHasChanges true)].
Proof.
  intros H.
  set (f := fun record : WorkerRecord =>
              Some (setBreaks (setBreak breakType value (休憩 r)) record)).
  set (g := fun record : WorkerRecord =>
              Some (setBreaks
                      (setBreak breakType (getBreak breakType (休憩 r))
                         (休憩 (setBreaks (setBreak breakType value (休憩 r)) r)))
                      record)).
  destruct (replaceAt_Some (recordsOf recordType data) index f H eq_refl)
    as [l' [Hrep [_ [Hat Hother]]]].
  assert (Hback : replaceAt l' index g = Some (recordsOf recordType data)).
  { apply (replaceAt_back (recordsOf recordType data) index f g H eq_refl);
      [|exact Hrep].
    unfold g. rewrite setBreak_back. reflexivity. }
  exists (withRecords recordType data l').
  rewrite recordsOf_withRecords.
  split.
  { unfold updateBreak, updateRecord. rewrite H. cbn [applyUpdate].
    fold f. rewrite Hrep. reflexivity. }
  split; [reflexivity|]. split; [exact Hat|]. split; [exact Hother|].
  unfold updateBreak, updateRecord.
  rewrite recordsOf_withRecords, Hat. cbn [applyUpdate].
  fold g. rewrite Hback. cbn [option_map].
  rewrite withRecords_withRecords. reflexivity.
Qed.

(** Sato's lunch break is switched off and on again. *)
Lemma updateBreak_round_trip_witness :
  exists changed,
    updateBreak packaging knownMasterData [] SatoAndTanaka 0 昼休み_break false
    = Some [Core (SetEditedData changed); Core (SetHasChanges true)]
    /\ updateBreak packaging knownMasterData [] changed 0 昼休み_break true
       = Some [Core (SetEditedData SatoAndTanaka); Core (SetHasChanges true)].
Proof.
  destruct (@updateBreak_round_trip packaging knownMasterData [] SatoAndTanaka 0
              (worker name_Sato (Some approved) None) 昼休み_break false eq_refl)
    as [changed [Hfirst [_ [_ [_ Hback]]]]].
  exists changed. split; [exact Hfirst | exact Hback].
Defined.

(** ** Requests and outcomes of a save *)

Lemma filter_none {A} (f : A -> bool) (l : list A) :
  existsb f l = false -> filter f l = [].
Proof.
  induction l as [|a l IH]; simpl; [reflexivity|].
  intros H. apply orb_false_iff in H. destruct H as [Ha Hl].
  rewrite Ha. apply IH. exact Hl.
Qed.

Lemma performSave_requests (w : World) (data : OcrResult) :
  filter isExternalCall (performSave w data) = [CallSaveToPersonalSheets data].
Proof.
  destruct (performSaveSettled_shape w data) as [body [Hshape [_ [_ Hcalls]]]].
  unfold performSave, performSaveCall. rewrite Hshape.
  cbn [app filter isExternalCall]. rewrite filter_app, (filter_none _ _ Hcalls).
  reflexivity.
Qed.

(** X17. What [performSave] does besides narrowing the report.  Whatever
    the ledger answers, it sends exactly one request, the commit, and the
    saving flag is down when it ends.  When the commit is rejected the
    component state is as before but for the flag, one alert is shown and
    nothing navigates: what was entered is kept.  When the commit reports
    no failed worker (no result, no list, or an empty list) the state is
    as before but for the flag, no alert is shown and the page navigates
    to the success page.  When it reports failed workers there is neither
    alert nor navigation. *)
Theorem performSave_outcomes (w : World) (st : AppState) (data : OcrResult) :
  filter isExternalCall (performSave w data) = [CallSaveToPersonalSheets data]
  /\ isSaving (run st (performSave w data)) = false
  /\ match saveToPersonalSheets w data with
     | CommitRejected error =>
         run st (performSave w data) = perform st (SetIsSaving false)
         /\ filter isAlert (performSave w data) = [Alert (errorMessage error)]
         /\ filter isNavigate (performSave w data) = []
     | CommitResolved result =>
         match reportedFailures result with
         | None =>
             run st (performSave w data) = perform st (SetIsSaving false)
             /\ filter isAlert (performSave w data) = []
             /\ filter isNavigate (performSave w data) = [Navigate "/success"]
         | Some failed =>
             failedWorkers (run st (performSave w data)) = failed
             /\ filter isAlert (performSave w data) = []
             /\ filter isNavigate (performSave w data) = []
         end
     end.
Proof.
  split; [apply performSave_requests|].
  unfold performSave, performSaveSettled.
  destruct (saveToPersonalSheets w data) as [result|error].
  - destruct (reportedFailures result); repeat split.
  - repeat split.
Qed.

(** X18. Cancelling the overwrite dialog undoes the save attempt: from a
    state with the flag down, the dialog closed and no stored callback, a
    save that the probe suspends and that the user cancels ends in that
    very state, and no commit request has been sent. *)
Theorem overwrite_cancel_restores (w : World) (st : AppState) (data : OcrResult)
    (existingDataMap : list (jsstring * bool)) :
  passesGates data = true ->
  checkExistingData w data = ProbeResolved existingDataMap ->
  existsb (fun hasData : bool => hasData) (map snd existingDataMap) = true ->
  isSaving st = false ->
  confirmDialogOpen st = false ->
  overwriteCallback st = None ->
  run (run st (handleSave w data)) handleCancelOverwrite = st
  /\ filter isExternalCall (handleSave w data ++ handleCancelOverwrite)
     = [CallCheckExistingData data].
Proof.
  intros Hgates Hprobe Hany Hs Hd Hc.
  rewrite (handleSave_through w data Hgates), Hprobe, Hany.
  split; [|reflexivity].
  destruct st. simpl in *. subst. reflexivity.
Qed.

Lemma overwrite_cancel_restores_witness :
  run (run (initialState SatoAndTanaka)
         (handleSave (world TanakaExists (CommitResolved None)) SatoAndTanaka))
      handleCancelOverwrite
  = initialState SatoAndTanaka.
Proof.
  apply (proj1 (@overwrite_cancel_restores
                  (world TanakaExists (CommitResolved None))
                  (initialState SatoAndTanaka) SatoAndTanaka
                  [(name_Tanaka, true)]
                  eq_refl eq_refl eq_refl eq_refl eq_refl eq_refl)).
Defined.

Lemma handleSave_gated (w : World) (data : OcrResult) :
  passesGates data = false -> existsb isExternalCall (handleSave w data) = false.
Proof.
  unfold passesGates, handleSave. intros H.
  destruct (hasPendingProduct data || hasPendingNames data); [reflexivity|].
  destruct (hasEditingItems data); [reflexivity|]. cbv zeta.
  destruct (DuplicateCheck.hasDuplicates (checkForDuplicates data));
    [reflexivity | discriminate H].
Qed.

(** X19. The requests of a save, in order.  [handleSave] sends nothing
    when a gate stops it; otherwise it sends the existence probe first
    and then, unless the probe found existing data, the commit, each
    once and both for the report it was called with.  The confirm button
    of the overwrite dialog sends the commit once, for the report that
    was current when the save was asked for. *)
Theorem save_requests (w : World) (data : OcrResult) :
  filter isExternalCall (handleSave w data)
  = (if passesGates data then
       match checkExistingData w data with
       | ProbeResolved existingDataMap =>
           if existsb (fun hasData : bool => hasData) (map snd existingDataMap)
           then [CallCheckExistingData data]
           else [CallCheckExistingData data; CallSaveToPersonalSheets data]
       | ProbeRejected _ =>
           [CallCheckExistingData data; CallSaveToPersonalSheets data]
       end
     else [])
  /\ filter isExternalCall (handleConfirmOverwrite w (Some (PerformSave data)))
     = [CallSaveToPersonalSheets data]
  /\ filter isExternalCall (handleConfirmOverwrite w None) = [].
Proof.
  split; [|split; [|reflexivity]].
  - destruct (passesGates data) eqn:G.
    + rewrite (handleSave_through w data G).
      cbn [filter isExternalCall].
      destruct (checkExistingData w data) as [existingDataMap|error].
      * destruct (existsb (fun hasData : bool => hasData) (map snd existingDataMap));
          [reflexivity|]. rewrite performSave_requests. reflexivity.
      * cbn [filter isExternalCall]. rewrite performSave_requests. reflexivity.
    + apply filter_none. apply handleSave_gated. exact G.
  - destruct (performSaveSettled_shape w data) as [body [Hshape [_ [_ Hcalls]]]].
    unfold handleConfirmOverwrite, performSaveCall. rewrite Hshape.
    cbn [app filter isExternalCall].
    rewrite filter_app, (filter_none _ _ Hcalls). reflexivity.
Qed.

(** ** The order of the duplicate report *)

Lemma includes_keys (m : NameCount.t) (k : jsstring) :
  includes (map fst m) k = match NameCount.get m k with
                           | Some _ => true
                           | None => false
                           end.
Proof.
  destruct (NameCount.get m k) eqn:G.
  - apply includes_In. destruct (in_dec str_eq_dec k (map fst m)) as [H|H];
      [exact H|]. apply NameCountFacts.get_None_keys in H. congruence.
  - apply NameCountFacts.get_None_keys in G.
    destruct (includes (map fst m) k) eqn:E; [|reflexivity].
    apply includes_In in E. contradiction.
Qed.

Lemma keys_fold (names : list jsstring) (m : NameCount.t) :
  map fst (fold_left countName names m)
  = map fst m ++ firstOccurrences (map fst m) (filter counted names).
Proof.
  revert m. induction names as [|name names IH]; intros m; simpl.
  - rewrite app_nil_r. reflexivity.
  - rewrite IH. unfold countName. destruct (counted name); [|reflexivity].
    cbn [firstOccurrences]. rewrite NameCountFacts.keys_set, includes_keys.
    destruct (NameCount.get m name); [reflexivity|].
    rewrite <- app_assoc. reflexivity.
Qed.

Lemma filter_by_count (count : jsstring -> nat) (m : NameCount.t) :
  (forall k v, In (k, v) m -> v = count k) ->
  map fst (filter (fun e => 1 <? snd e) m)
  = filter (fun n => 1 <? count n) (map fst m).
Proof.
  induction m as [|[k v] m IH]; intros H; simpl; [reflexivity|].
  rewrite <- (H k v (or_introl eq_refl)).
  assert (E : map fst (filter (fun e => 1 <? snd e) m)
              = filter (fun n => 1 <? count n) (map fst m))
    by (apply IH; intros k' v' Hin; apply H; right; exact Hin).
  destruct (1 <? v); simpl; rewrite E; reflexivity.
Qed.

(** X20. [findDuplicates] lists the duplicated names in the order in
    which they first appear in its input, blank names left aside. *)
Theorem findDuplicates_in_order_of_appearance (names : list jsstring) :
  findDuplicates names
  = filter (fun n => 1 <? count_occ str_eq_dec names n)
      (firstOccurrences [] (filter (fun n => negb (isBlank n)) names))
  /\ findDuplicates
       [name_Tanaka; name_Sato; name_Sato; name_Widget; name_Tanaka]
     = [name_Tanaka; name_Sato].
Proof.
  split; [|reflexivity].
  destruct (Counts_all names) as [Hnd Hget].
  unfold findDuplicates. cbv zeta.
  change (fun e : jsstring * nat => fst e) with (@fst jsstring nat).
  rewrite (filter_by_count (count_occ str_eq_dec names)).
  - rewrite keys_fold. cbn [map app].
    rewrite (filter_ext counted (fun n => negb (isBlank n)) counted_not_blank).
    reflexivity.
  - intros k v Hin. apply (NameCountFacts.In_get _ _ _ Hnd) in Hin.
    rewrite Hget in Hin. destruct (isBlank k); [discriminate Hin|].
    destruct (count_occ str_eq_dec names k); inversion Hin; reflexivity.
Qed.

(** ** Edits of plain fields *)

Lemma replaceAt_map {A B} (g : A -> B) (f : A -> option A) (l l' : list A)
    (index : nat) :
  (forall a b, f a = Some b -> g b = g a) ->
  replaceAt l index f = Some l' -> map g l' = map g l.
Proof.
  intros Hf. revert index l'. induction l as [|x l IH]; intros index l' Hr.
  - destruct index; discriminate Hr.
  - destruct index as [|index]; simpl in Hr.
    + destruct (f x) as [b|] eqn:E; [|discriminate Hr].
      inversion Hr; subst. simpl. rewrite (Hf x b E). reflexivity.
    + destruct (replaceAt l index f) as [l0|] eqn:E; [|discriminate Hr].
      inversion Hr; subst. simpl. rewrite (IH index l0 E). reflexivity.
Qed.

Lemma existsb_by_status (s : ConfirmationStatus) (records : list WorkerRecord) :
  existsb (fun r => statusIs s (nameConfirmationStatus r)) records
  = existsb (statusIs s) (map nameConfirmationStatus records).
Proof.
  induction records as [|r records IH]; simpl; [reflexivity|].
  rewrite IH. reflexivity.
Qed.

(** The confirmation tests read the product status and the statuses of
    the records, nothing else. *)
Lemma gate_by_statuses (data data' : OcrResult) :
  productConfirmationStatus (ヘッダー data') = productConfirmationStatus (ヘッダー data) ->
  map nameConfirmationStatus (包装作業記録 data')
  = map nameConfirmationStatus (包装作業記録 data) ->
  map nameConfirmationStatus (機械操作記録 data')
  = map nameConfirmationStatus (機械操作記録 data) ->
  (hasPendingProduct data' || hasPendingNames data') || hasEditingItems data'
  = (hasPendingProduct data || hasPendingNames data) || hasEditingItems data.
Proof.
  intros Hh Hp Hm.
  unfold hasPendingProduct, hasPendingNames, hasEditingItems. cbn [existsb].
  rewrite !existsb_app, !existsb_id_map, !existsb_by_status, Hh, Hp, Hm.
  reflexivity.
Qed.

(** X21. Edits of plain fields never move the confirmation gate.
    [updateHeader] and, for any field and value, [updatePackagingRecord]
    and [updateMachineRecord] leave every confirmation status as it was,
    so the save stops at the confirmation gate after the edit exactly
    when it did before.  A new name that is in the employees list loses
    the error marker of its record and still keeps the record's status;
    [updateHeader] changes no name, so the duplicate check is unchanged
    too. *)
Theorem plain_edits_keep_statuses (w : World) (recordType : RecordType)
    (masterData : MasterData) (highlight : StringSet.t) (data : OcrResult)
    (index : nat) (update : FieldUpdate) (field : HeaderField) (value : jsstring) :
  (exists data',
     updateHeader masterData data field value
     = [SetEditedData data'; SetHasChanges true]
     /\ productConfirmationStatus (ヘッダー data')
        = productConfirmationStatus (ヘッダー data)
     /\ checkForDuplicates data' = checkForDuplicates data
     /\ (StoppedAtConfirmation w data' <-> StoppedAtConfirmation w data))
  /\ forall r,
       nth_error (recordsOf recordType data) index = Some r ->
       exists data' r' rest,
         updateRecord recordType masterData highlight data index update
         = Some (Core (SetEditedData data') :: Core (SetHasChanges true) :: rest)
         /\ nth_error (recordsOf recordType data') index = Some r'
         /\ nameConfirmationStatus r' = nameConfirmationStatus r
         /\ (forall name, update = 氏名_is name ->
               氏名 r' = name
               /\ (In name (employees masterData) -> nameError r' = None)
               /\ (~ In name (employees masterData) -> nameError r' = nameError r))
         /\ (StoppedAtConfirmation w data' <-> StoppedAtConfirmation w data).
Proof.
  split.
  - set (h' := match field with
                | 作業日_field => setWorkDate value (ヘッダー data)
                | 商品名_field =>
                    if includes (products masterData) value
                    then deleteProductError (setProductName value (ヘッダー data))
                    else setProductName value (ヘッダー data)
                end).
    exists (withHeader data h'). split; [reflexivity|].
    assert (Hs : productConfirmationStatus
                   (match field with
                    | 作業日_field => setWorkDate value (ヘッダー data)
                    | 商品名_field =>
                        if includes (products masterData) value
                        then deleteProductError (setProductName value (ヘッダー data))
                        else setProductName value (ヘッダー data)
                    end)
                 = productConfirmationStatus (ヘッダー data))
      by (destruct field; [|destruct (includes (products masterData) value)];
          reflexivity).
    split; [exact Hs|]. split; [reflexivity|].
    rewrite <- !handleSave_stopped.
    rewrite (@gate_by_statuses data (withHeader data h') Hs eq_refl eq_refl).
    reflexivity.
  - intros r H.
    set (f := fun record : WorkerRecord =>
                Some match update with
                     | 氏名_is value =>
                         if includes (employees masterData) value
                         then deleteNameError (applyUpdate update record)
                         else applyUpdate update record
                     | _ => applyUpdate update record
                     end).
    assert (Hstatus : forall a b, f a = Some b ->
                                  nameConfirmationStatus b = nameConfirmationStatus a).
    { intros a b E. unfold f in E. inversion E; subst b.
      destruct update; try reflexivity.
      destruct (includes (employees masterData) value0); reflexivity. }
    destruct (replaceAt_Some (recordsOf recordType data) index f H eq_refl)
      as [l' [Hrep [_ [Hat _]]]].
    exists (withRecords recordType data l'). eexists. eexists.
    split.
    { unfold updateRecord. fold f. rewrite Hrep. reflexivity. }
    rewrite recordsOf_withRecords.
    split; [exact Hat|].
    split; [apply (Hstatus r _ eq_refl)|].
    split.
    { intros name ->. cbn [applyUpdate].
      destruct (includes (employees masterData) name) eqn:E.
      - split; [reflexivity|]. split; [reflexivity|].
        intros N. apply includes_In in E. contradiction.
      - split; [reflexivity|]. split; [|reflexivity].
        intros N. apply includes_In in N. congruence. }
    rewrite <- !handleSave_stopped.
    pose proof (replaceAt_map nameConfirmationStatus f _ index Hstatus Hrep) as Hmap.
    assert (Hgate : (hasPendingProduct (withRecords recordType data l')
                     || hasPendingNames (withRecords recordType data l'))
                    || hasEditingItems (withRecords recordType data l')
                    = (hasPendingProduct data || hasPendingNames data)
                      || hasEditingItems data).
    { apply gate_by_statuses;
        destruct recordType;
        cbn [withRecords ヘッダー 包装作業記録 機械操作記録 recordsOf] in *;
        try reflexivity; exact Hmap. }
    rewrite Hgate. reflexivity.
Qed.

(** Sato, [pending] with a marker, is renamed to a name of the list
    through [updatePackagingRecord]: the marker goes, the status stays. *)
Lemma plain_edits_keep_statuses_witness :
  exists data' r' rest,
    updatePackagingRecord knownMasterData [] pendingHeaderReport 0 (氏名_is name_Sato)
    = Some (Core (SetEditedData data') :: Core (SetHasChanges true) :: rest)
    /\ nth_error (包装作業記録 data') 0 = Some r'
    /\ nameConfirmationStatus r' = Some pending
    /\ nameError r' = None.
Proof.
  destruct (proj2 (plain_edits_keep_statuses
                     (world (ProbeResolved []) (CommitResolved None))
                     packaging knownMasterData [] pendingHeaderReport 0
                     (氏名_is name_Sato) 作業日_field [])
              (worker name_Sato (Some pending) (Some marker_unknown)) eq_refl)
    as [data' [r' [rest [Hupd [Hat [Hstatus [Hname _]]]]]]].
  exists data', r', rest. split; [exact Hupd|]. split; [exact Hat|].
  split; [exact Hstatus|].
  apply (proj1 (proj2 (Hname name_Sato eq_refl))). left. reflexivity.
Defined.

(** ** Machine records that share a slot array *)

Lemma nth_error_writeAt (store : list (list TimeSlot.t)) (address : nat)
    (old slots : list TimeSlot.t) :
  nth_error store address = Some old ->
  nth_error (MachineHeap.writeAt store address slots) address = Some slots.
Proof.
  intros H. assert (Hlt : address < length store)
    by (apply nth_error_Some; congruence).
  unfold MachineHeap.writeAt.
  rewrite nth_error_app2 by (rewrite length_firstn; lia).
  rewrite length_firstn. replace (address - Nat.min address (length store)) with 0 by lia.
  reflexivity.
Qed.

(** X22. The machine record made by [addMachineRecord] shares the slot
    array of the record it copies.  Read as values, the list after
    [addMachineRecord] is the copy followed by the old list, as in the
    value model; but a time slot added to the copy is added to the first
    record as well, and a slot added to the first record is added to the
    copy. *)
Theorem copied_machine_record_shares_slots (st : MachineHeap.State)
    (data : OcrResult) (first : MachineHeap.Ref) (rest : list MachineHeap.Ref)
    (address : nat) (slots : list TimeSlot.t) :
  MachineHeap.records st = first :: rest ->
  MachineHeap.slotsAt first = Some address ->
  nth_error (MachineHeap.store st) address = Some slots ->
  機械操作記録 data = MachineHeap.viewAll st ->
  let copied := MachineHeap.addMachineRecord st in
  let copy := setStatus pending (setName [] (MachineHeap.fields first)) in
  MachineHeap.viewAll copied = newMachineRecord data :: MachineHeap.viewAll st
  /\ nth_error (MachineHeap.viewAll copied) 0 = Some (setSlots (Some slots) copy)
  /\ nth_error (MachineHeap.viewAll copied) 1
     = Some (setSlots (Some slots) (MachineHeap.fields first))
  /\ (exists st',
        MachineHeap.addMachineTimeSlot copied 0 = Some st'
        /\ nth_error (MachineHeap.viewAll st') 0
           = Some (setSlots (Some (slots ++ [defaultSlot])) copy)
        /\ nth_error (MachineHeap.viewAll st') 1
           = Some (setSlots (Some (slots ++ [defaultSlot]))
                     (MachineHeap.fields first)))
  /\ (exists st',
        MachineHeap.addMachineTimeSlot copied 1 = Some st'
        /\ nth_error (MachineHeap.viewAll st') 0
           = Some (setSlots (Some (slots ++ [defaultSlot])) copy)
        /\ nth_error (MachineHeap.viewAll st') 1
           = Some (setSlots (Some (slots ++ [defaultSlot]))
                     (MachineHeap.fields first))).
Proof.
  intros Hrec Haddr Hslots Hdata. cbv zeta.
  assert (Hcopied : MachineHeap.addMachineRecord st
                    = {| MachineHeap.store := MachineHeap.store st;
                         MachineHeap.records :=
                           {| MachineHeap.fields :=
                                setStatus pending (setName [] (MachineHeap.fields first));
                              MachineHeap.slotsAt := MachineHeap.slotsAt first |}
                           :: first :: rest |})
    by (unfold MachineHeap.addMachineRecord; rewrite Hrec; reflexivity).
  rewrite Hcopied.
  assert (Hview : MachineHeap.view (MachineHeap.store st) first
                  = setSlots (Some slots) (MachineHeap.fields first))
    by (unfold MachineHeap.view, MachineHeap.slotsOf; rewrite Haddr, Hslots;
        reflexivity).
  split.
  { unfold newMachineRecord. rewrite Hdata.
    unfold MachineHeap.viewAll. rewrite Hrec.
    cbn [map MachineHeap.records MachineHeap.store]. reflexivity. }
  split.
  { unfold MachineHeap.viewAll, MachineHeap.view, MachineHeap.slotsOf.
    cbn [map nth_error MachineHeap.records MachineHeap.store
         MachineHeap.slotsAt MachineHeap.fields].
    rewrite Haddr, Hslots. reflexivity. }
  split.
  { unfold MachineHeap.viewAll.
    cbn [map nth_error MachineHeap.records MachineHeap.store].
    rewrite Hview. reflexivity. }
  pose proof (nth_error_writeAt (MachineHeap.store st) address
                (slots ++ [defaultSlot]) Hslots) as Hwritten.
  split.
  - eexists. split.
    { unfold MachineHeap.addMachineTimeSlot.
      cbn [nth_error MachineHeap.records MachineHeap.store
           MachineHeap.slotsAt MachineHeap.fields replaceAt option_map].
      rewrite Haddr, Hslots. reflexivity. }
    unfold MachineHeap.viewAll, MachineHeap.view, MachineHeap.slotsOf.
    cbn [map nth_error MachineHeap.records MachineHeap.store
         MachineHeap.slotsAt MachineHeap.fields].
    rewrite ?Haddr, Hwritten. split; reflexivity.
  - eexists. split.
    { unfold MachineHeap.addMachineTimeSlot.
      cbn [nth_error MachineHeap.records MachineHeap.store
           MachineHeap.slotsAt MachineHeap.fields replaceAt option_map].
      rewrite Haddr, Hslots. cbn [option_map]. reflexivity. }
    unfold MachineHeap.viewAll, MachineHeap.view, MachineHeap.slotsOf.
    cbn [map nth_error MachineHeap.records MachineHeap.store
         MachineHeap.slotsAt MachineHeap.fields].
    rewrite ?Haddr, Hwritten. split; reflexivity.
Qed.

(** Sato is copied and the copy gets a second slot: so does Sato. *)
Lemma copied_machine_record_shares_slots_witness :
  exists st',
    MachineHeap.addMachineTimeSlot (MachineHeap.addMachineRecord oneMachine) 0 = Some st'
    /\ nth_error (MachineHeap.viewAll st') 1
       = Some (setSlots (Some (defaultSlots ++ [defaultSlot]))
                 (worker name_Sato (Some approved) None)).
Proof.
  destruct (proj1 (proj2 (proj2 (proj2
             (@copied_machine_record_shares_slots oneMachine
                (report (Some approved) [] (MachineHeap.viewAll oneMachine))
                {| MachineHeap.fields :=
                     setSlots None (worker name_Sato (Some approved) None);
                   MachineHeap.slotsAt := Some 0 |}
                [] 0 defaultSlots eq_refl eq_refl eq_refl eq_refl)))))
    as [st' [Hadd [_ Hone]]].
  exists st'. split; [exact Hadd | exact Hone].
Defined.


